(** * SkillBridge backend: booking, review and registration handlers

    A shallow embedding of the Express handlers of
    [src/controllers/bookingController.ts], [reviewController.ts],
    [authController.ts] and of the [validate] and [roleGuard] middleware.

    - request bodies are JavaScript values ([json]); numbers are [Js.num];
    - the Prisma client is a store [DB] threaded through a small
      state-and-exception monad [M];
    - every handler maps a request to the response it sends and the store
      it leaves behind.

    What lies outside the sources (zod's regular expressions and default
    messages, bcrypt, jsonwebtoken, column defaults of the Prisma schema)
    is gathered in the class [Platform]. *)

From Stdlib Require Import ZArith QArith Ascii String List Bool Lia.
From stdpp Require Import gmap strings list fin_maps stringmap sorting.
Import ListNotations.

#[local] Open Scope string_scope.

(* ===================================================================== *)
(** ** JavaScript values *)
(* ===================================================================== *)

Module Js.

(** A JavaScript number.  Finite values are kept as exact rationals: the
    handlers only add small integers and divide once, so the integer
    sums are exact in binary64 and the quotient is the double nearest to
    the rational recorded here. *)
Inductive num :=
| NaN
| Infinity (negative : bool)
| Num (q : Q).

Definition of_Z (z : Z) : num := Num (inject_Z z).

(** [Number.isInteger] *)
Definition isInteger (n : num) : bool :=
  match n with
  | Num q => (Qnum q mod Zpos (Qden q) =? 0)%Z
  | _ => false
  end.

(** The integer a number denotes when [isInteger] holds. *)
Definition to_Z (n : num) : Z :=
  match n with
  | Num q => (Qnum q / Zpos (Qden q))%Z
  | _ => 0%Z
  end.

(** [a < b] on numbers: false as soon as one side is [NaN]. *)
Definition lt (a b : num) : bool :=
  match a, b with
  | NaN, _ | _, NaN => false
  | Infinity true, Infinity true => false
  | Infinity true, _ => true
  | _, Infinity true => false
  | Infinity false, _ => false
  | Num _, Infinity false => true
  | Num p, Num q => negb (Qle_bool q p)
  end.

Definition gt (a b : num) : bool := lt b a.

(** [a / b] for an integer [a] and an array length [b]. *)
Definition div (a : Z) (b : nat) : num :=
  match b with
  | O => if (a =? 0)%Z then NaN else Infinity (a <? 0)%Z
  | S _ => Num (a # Pos.of_nat b)
  end.

(** [x++] on a property holding [x]; a missing property is [undefined],
    and [undefined + 1] is [NaN]. *)
Definition incr (x : option num) : num :=
  match x with
  | Some (Num q) => Num (q + 1)
  | Some (Infinity s) => Infinity s
  | Some NaN | None => NaN
  end.

(** Truthiness of an optional string ([null], [undefined] and [''] are
    falsy). *)
Definition truthy (s : option string) : bool :=
  match s with
  | Some (String _ _) => true
  | _ => false
  end.

End Js.

#[local] Set Warnings "-register-all".

(** Values reaching a handler in [req.body]. *)
Inductive json :=
| JNull
| JBool (b : bool)
| JNumber (n : Js.num)
| JString (s : string)
| JArray (items : list json)
| JObject (members : list (string * json)).

(** [o.k]: the own property [k] of a parsed object, [None] for
    [undefined]. *)
Definition member (k : string) (members : list (string * json)) : option json :=
  snd <$> find (λ kv, bool_decide (kv.1 = k)) members.

(* ===================================================================== *)
(** ** The Prisma schema: enumerations and rows *)
(* ===================================================================== *)

Inductive Role := STUDENT | TUTOR | ADMIN.
Inductive UserStatus := ACTIVE | BANNED.
Inductive BookingStatus := PENDING | CONFIRMED | REJECTED | CANCELLED | COMPLETED.

#[global] Instance Role_eq_dec : EqDecision Role.
Proof. solve_decision. Defined.
#[global] Instance UserStatus_eq_dec : EqDecision UserStatus.
Proof. solve_decision. Defined.
#[global] Instance BookingStatus_eq_dec : EqDecision BookingStatus.
Proof. solve_decision. Defined.

Definition Role_name (r : Role) : string :=
  match r with STUDENT => "STUDENT" | TUTOR => "TUTOR" | ADMIN => "ADMIN" end.

Definition BookingStatus_name (s : BookingStatus) : string :=
  match s with
  | PENDING => "PENDING" | CONFIRMED => "CONFIRMED" | REJECTED => "REJECTED"
  | CANCELLED => "CANCELLED" | COMPLETED => "COMPLETED"
  end.

Module User.
Record t := mk {
  id : string;
  email : string;
  password : string;
  name : string;
  role : Role;
  status : UserStatus
}.
End User.

Module TutorProfile.
Record t := mk {
  userId : string;
  bio : option string;
  hourlyRate : Js.num;
  subjects : list string;
  rating : Js.num;
  reviewCount : Z
}.
End TutorProfile.

Module Booking.
Record t := mk {
  id : string;
  studentId : string;
  tutorId : string;
  dateTime : Z;             (* milliseconds since the epoch *)
  duration : Js.num;
  subject : option string;
  notes : option string;
  status : BookingStatus
}.
End Booking.

Module Review.
Record t := mk {
  id : string;
  bookingId : string;
  studentId : string;
  tutorId : string;
  rating : Z;
  comment : option string
}.
End Review.

(** Modelled from the spec: [prisma/schema.prisma] is not among the
    sources; a booking is created without a status and starts its life
    in the state every transition of the spec's graph departs from. *)
Definition Booking_status_default : BookingStatus := PENDING.

(** The tables.  Users, profiles (by [userId]) and bookings are keyed by
    their unique column; reviews are kept in insertion order. *)
Record DB := mkDB {
  users : gmap string User.t;
  tutorProfiles : gmap string TutorProfile.t;
  bookings : gmap string Booking.t;
  reviews : list Review.t
}.

(* ===================================================================== *)
(** ** zod *)
(* ===================================================================== *)

Module Zod.

Inductive IssueCode :=
| invalid_type | invalid_string | too_small | too_big | invalid_enum_value.

Record Issue := mkIssue {
  code : IssueCode;
  path : list string;
  message : string
}.

(** A [ZodError] is only ever thrown with at least one issue. *)
Record ZodError := mkError {
  issue0 : Issue;
  issues : list Issue
}.

Definition errors (e : ZodError) : list Issue := issue0 e :: issues e.

Inductive Parsed (A : Type) :=
| Valid (a : A)
| Invalid (e : ZodError).
Arguments Valid {A} a.
Arguments Invalid {A} e.

Definition single (i : Issue) : ZodError := mkError i [].

Definition append (e1 e2 : ZodError) : ZodError :=
  mkError (issue0 e1) (issues e1 ++ errors e2).

(** Checks run to the end and every failed one leaves an issue. *)
Definition from_issues {A} (a : A) (l : list Issue) : Parsed A :=
  match l with
  | [] => Valid a
  | i :: r => Invalid (mkError i r)
  end.

(** Members of an object schema are parsed independently and their
    issues are concatenated in declaration order. *)
Definition ap {A B} (f : Parsed (A → B)) (x : Parsed A) : Parsed B :=
  match f, x with
  | Valid g, Valid a => Valid (g a)
  | Valid _, Invalid e => Invalid e
  | Invalid e, Valid _ => Invalid e
  | Invalid e1, Invalid e2 => Invalid (append e1 e2)
  end.

Definition map {A B} (f : A → B) (x : Parsed A) : Parsed B :=
  match x with
  | Valid a => Valid (f a)
  | Invalid e => Invalid e
  end.

End Zod.

Notation "f <&> x" := (Zod.ap f x) (at level 61, left associativity).

(** utils/jwt.ts *)
Module JwtPayload.
Record t := mk {
  userId : string;
  email : string;
  role : string
}.
End JwtPayload.

(** Behaviour of the libraries and of the schema the handlers rely on. *)
Class Platform := {
  (** zod's default error map: the message of a built-in issue raised on
      the given input *)
  zod_default_message : Zod.IssueCode → option json → string;
  (** the patterns behind [.uuid()], [.email()] and [.datetime()] *)
  zod_uuid : string → bool;
  zod_email : string → bool;
  zod_datetime : string → bool;
  (** [new Date(s).getTime()] on a string accepted by [.datetime()] *)
  Date_parse : string → Z;
  (** [utils/password.hashPassword], which is not among the sources *)
  hashPassword : string → string;
  (** [jwt.sign] under the configured secret, as [generateToken] calls it *)
  jwt_sign : JwtPayload.t → string;
  (** column default of [User.status] in the Prisma schema *)
  User_status_default : UserStatus
}.

(* ===================================================================== *)
(** ** Schema combinators *)
(* ===================================================================== *)

Section Schemas.
Context `{Platform}.

Import Zod.

Definition builtin (c : IssueCode) (p : list string) (input : option json) : Issue :=
  mkIssue c p (zod_default_message c input).

(** [z.string()] followed by its checks *)
Definition z_string (p : list string) (checks : string → list Issue)
    (input : option json) : Parsed string :=
  match input with
  | Some (JString s) => from_issues s (checks s)
  | _ => Invalid (single (builtin invalid_type p input))
  end.

(** [z.number()] followed by its checks; [NaN] is not a number for zod *)
Definition z_number (p : list string) (checks : Js.num → list Issue)
    (input : option json) : Parsed Js.num :=
  match input with
  | Some (JNumber Js.NaN) => Invalid (single (builtin invalid_type p input))
  | Some (JNumber n) => from_issues n (checks n)
  | _ => Invalid (single (builtin invalid_type p input))
  end.

(** [z.enum(values, { errorMap: () => ({ message }) })]: the error map
    overrides the message of every issue of the member *)
Definition z_enum (values : list string) (msg : string) (p : list string)
    (input : option json) : Parsed string :=
  match input with
  | Some (JString s) =>
      if bool_decide (s ∈ values) then Valid s
      else Invalid (single (mkIssue invalid_enum_value p msg))
  | _ => Invalid (single (mkIssue invalid_type p msg))
  end.

(** [.optional()] lets [undefined] through *)
Definition z_optional {A} (inner : option json → Parsed A)
    (input : option json) : Parsed (option A) :=
  match input with
  | None => Valid None
  | Some _ => Zod.map Some (inner input)
  end.

(** [.default(d)] replaces [undefined] by [d] *)
Definition z_default {A} (d : A) (inner : option json → Parsed A)
    (input : option json) : Parsed A :=
  match input with
  | None => Valid d
  | Some _ => inner input
  end.

(** [z.object({...})]: anything but an object is one issue at the root *)
Definition z_object {A} (input : option json)
    (shape : list (string * json) → Parsed A) : Parsed A :=
  match input with
  | Some (JObject o) => shape o
  | _ => Invalid (single (builtin invalid_type [] input))
  end.

Definition no_checks {A} (_ : A) : list Issue := [].

Definition check (ok : bool) (c : IssueCode) (p : list string) (msg : string) : list Issue :=
  if ok then [] else [mkIssue c p msg].

(** [.int()] has no message of its own in the sources *)
Definition check_int (p : list string) (n : Js.num) : list Issue :=
  if Js.isInteger n then [] else [builtin invalid_type p (Some (JNumber n))].

End Schemas.

(* ===================================================================== *)
(** ** Requests, responses *)
(* ===================================================================== *)

Module Request.
(** [user] is what the authentication middleware attached ([None] when
    it attached nothing), [param] the route parameter ([:id] or
    [:tutorId]), [body] the parsed JSON body ([None] for [undefined]). *)
Record t := mk {
  user : option JwtPayload.t;
  param : string;
  body : option json
}.
End Request.

Module View.
(** Rows as the [select]/[include] clauses shape them. *)
Record Person := mkPerson {
  id : string;
  name : string;
  email : option string           (* present when selected *)
}.
Record Profile := mkProfile {
  hourlyRate : Js.num;
  subjects : list string;
  bio : option (option string)    (* present when selected *)
}.
Record Booking := mkBooking {
  row : Booking.t;
  student : option Person;
  tutor : option Person;
  tutorProfile : option (option Profile);   (* present when selected *)
  review : option (option Review.t)         (* present when included *)
}.
Record Review := mkReview {
  review_row : Review.t;
  review_student : option Person;
  review_tutor : option Person;             (* createReview only *)
  booking_dateTime : option Z               (* getTutorReviews only *)
}.
Record Account := mkAccount {
  account_id : string;
  account_email : string;
  account_name : string;
  account_role : Role;
  account_status : UserStatus
}.
End View.

(** The JSON documents the handlers send. *)
Inductive Body :=
| Error (error message : string)
| ValidationError (error message : string) (details : list Zod.Issue)
| FieldErrors (error message : string) (details : list (string * string))
| BookingPayload (message : option string) (booking : View.Booking)
| ReviewPayload (message : string) (review : View.Review)
| TutorReviews (reviews : list View.Review) (count : nat)
             (avgRating : Js.num) (ratingDistribution : gmap Z Js.num)
| Registered (message : string) (user : View.Account) (token : string).

Module Response.
Record t := mk {
  status : Z;
  body : Body
}.
End Response.

(* ===================================================================== *)
(** ** The handler monad: a store and exceptions *)
(* ===================================================================== *)

Inductive Exn :=
| ZodThrown (e : Zod.ZodError)      (* [error instanceof z.ZodError] *)
| Thrown (what : string).           (* any other error *)

Inductive Result (A : Type) :=
| Ok (a : A)
| Throw (e : Exn).
Arguments Ok {A} a.
Arguments Throw {A} e.

Definition M (A : Type) : Type := DB → DB * Result A.

#[global] Instance M_ret : MRet M := λ A a db, (db, Ok a).
#[global] Instance M_bind : MBind M := λ A B f m db,
  match m db with
  | (db', Ok a) => f a db'
  | (db', Throw e) => (db', Throw e)
  end.

Definition throw {A} (e : Exn) : M A := λ db, (db, Throw e).
Definition get : M DB := λ db, (db, Ok db).
Definition put (db' : DB) : M unit := λ _, (db', Ok tt).

(** [schema.parse(input)] *)
Definition parse {A} (p : Zod.Parsed A) : M A :=
  match p with
  | Zod.Valid a => mret a
  | Zod.Invalid e => throw (ZodThrown e)
  end.

Definition respond (status : Z) (b : Body) : M Response.t :=
  mret (Response.mk status b).

(** [try { m } catch (error) { if (error instanceof z.ZodError) { 400,
    'Validation Error', first message, all issues }; 500, generic }] *)
Definition try_catch_zod (failure : string) (m : M Response.t) (db : DB)
    : Response.t * DB :=
  match m db with
  | (db', Ok r) => (r, db')
  | (db', Throw (ZodThrown e)) =>
      (Response.mk 400
         (ValidationError "Validation Error"
            (Zod.message (Zod.issue0 e)) (Zod.errors e)), db')
  | (db', Throw (Thrown _)) =>
      (Response.mk 500 (Error "Internal Server Error" failure), db')
  end.

(** [try { m } catch (error) { 500, generic }] *)
Definition try_catch (failure : string) (m : M Response.t) (db : DB)
    : Response.t * DB :=
  match m db with
  | (db', Ok r) => (r, db')
  | (db', Throw _) =>
      (Response.mk 500 (Error "Internal Server Error" failure), db')
  end.

(* ===================================================================== *)
(** ** The Prisma client *)
(* ===================================================================== *)

Module prisma.

(** A key the table does not hold yet, standing for the identifier the
    database generates. *)
Definition new_id {A} (table : gmap string A) : string :=
  fresh_string_of_set "id" (dom table).

Definition new_review_id (l : list Review.t) : string :=
  fresh_string_of_set "id" (list_to_set (Review.id <$> l)).

Module user.
Definition findUnique (id : string) : M (option User.t) :=
  db ← get; mret (users db !! id).

(** [findUnique({ where: { id }, include: { tutorProfile: true } })] *)
Definition findUnique_with_profile (id : string)
    : M (option (User.t * option TutorProfile.t)) :=
  db ← get;
  mret ((λ u, (u, tutorProfiles db !! id)) <$> users db !! id).

Definition findUnique_email (email : string) : M (option User.t) :=
  db ← get;
  mret (find (λ u, bool_decide (User.email u = email))
             ((map_to_list (users db)).*2)).

(** [data] receives the generated identifier. *)
Definition create (data : string → User.t) : M User.t :=
  db ← get;
  let u := data (new_id (users db)) in
  put (mkDB (<[User.id u := u]> (users db)) (tutorProfiles db)
            (bookings db) (reviews db));;
  mret u.
End user.

Module tutorProfile.
Definition findUnique (userId : string) : M (option TutorProfile.t) :=
  db ← get; mret (tutorProfiles db !! userId).

(** [update] rejects when no row matches [where]. *)
Definition update (userId : string) (data : TutorProfile.t → TutorProfile.t)
    : M TutorProfile.t :=
  db ← get;
  match tutorProfiles db !! userId with
  | None => throw (Thrown "P2025")
  | Some p =>
      put (mkDB (users db) (<[userId := data p]> (tutorProfiles db))
                (bookings db) (reviews db));;
      mret (data p)
  end.
End tutorProfile.

Module booking.
Definition findUnique (id : string) : M (option Booking.t) :=
  db ← get; mret (bookings db !! id).

(** [findUnique({ where: { id }, include: { review: true } })]: the
    review of a booking is the row carrying its [bookingId] *)
Definition findUnique_with_review (id : string)
    : M (option (Booking.t * option Review.t)) :=
  db ← get;
  mret ((λ b, (b, find (λ r, bool_decide (Review.bookingId r = id)) (reviews db)))
      <$> bookings db !! id).

Definition create (data : string → Booking.t) : M Booking.t :=
  db ← get;
  let b := data (new_id (bookings db)) in
  put (mkDB (users db) (tutorProfiles db)
            (<[Booking.id b := b]> (bookings db)) (reviews db));;
  mret b.

Definition update (id : string) (data : Booking.t → Booking.t)
    : M Booking.t :=
  db ← get;
  match bookings db !! id with
  | None => throw (Thrown "P2025")
  | Some b =>
      put (mkDB (users db) (tutorProfiles db)
                (<[id := data b]> (bookings db)) (reviews db));;
      mret (data b)
  end.
End booking.

Module review.
Definition findMany_tutor (tutorId : string) : M (list Review.t) :=
  db ← get;
  mret (filter (λ r, Review.tutorId r = tutorId) (reviews db)).

Definition create (data : string → Review.t) : M Review.t :=
  db ← get;
  let r := data (new_review_id (reviews db)) in
  put (mkDB (users db) (tutorProfiles db) (bookings db) (reviews db ++ [r]));;
  mret r.
End review.

End prisma.

(* ===================================================================== *)
(** ** Shaping rows for a response *)
(* ===================================================================== *)

Definition person (with_email : bool) (u : User.t) : View.Person :=
  View.mkPerson (User.id u) (User.name u)
    (if with_email then Some (User.email u) else None).

Definition profile (with_bio : bool) (p : TutorProfile.t) : View.Profile :=
  View.mkProfile (TutorProfile.hourlyRate p) (TutorProfile.subjects p)
    (if with_bio then Some (TutorProfile.bio p) else None).

(** [include: { student: {...}, tutor: {..., tutorProfile?}, review? }] *)
Definition booking_view (with_profile with_bio with_review : bool)
    (db : DB) (b : Booking.t) : View.Booking :=
  View.mkBooking b
    (person true <$> users db !! Booking.studentId b)
    (person true <$> users db !! Booking.tutorId b)
    (if with_profile
     then Some (profile with_bio <$> tutorProfiles db !! Booking.tutorId b)
     else None)
    (if with_review
     then Some (find (λ r, bool_decide (Review.bookingId r = Booking.id b)) (reviews db))
     else None).

Definition nl : string := String (Ascii.ascii_of_nat 10) EmptyString.

(* ===================================================================== *)
(** ** middleware/roleGuard.ts and middleware/validate.ts *)
(* ===================================================================== *)

Inductive Middleware :=
| Next (req : Request.t)            (* [next()] with the request as left *)
| Responded (res : Response.t).

Fixpoint join (sep : string) (l : list string) : string :=
  match l with
  | [] => ""
  | [x] => x
  | x :: r => x ++ sep ++ join sep r
  end.

Definition roleGuard (allowedRoles : list string) (req : Request.t) : Middleware :=
  match Request.user req with
  | None =>
      Responded (Response.mk 401 (Error "Unauthorized" "Authentication required"))
  | Some user =>
      if negb (bool_decide (JwtPayload.role user ∈ allowedRoles)) then
        Responded (Response.mk 403
          (Error "Forbidden"
             ("Access denied. Required role: " ++ join " or " allowedRoles)))
      else Next req
  end.

Definition isStudent := roleGuard ["STUDENT"].
Definition isTutor := roleGuard ["TUTOR"].
Definition isAdmin := roleGuard ["ADMIN"].
Definition isStudentOrTutor := roleGuard ["STUDENT"; "TUTOR"].
Definition isTutorOrAdmin := roleGuard ["TUTOR"; "ADMIN"].

(** [validate(schema)]: the schema is any function from the body to a
    parsed body that may throw. *)
Definition validate (schema : option json → Result json) (req : Request.t)
    : Middleware :=
  match schema (Request.body req) with
  | Ok parsed => Next (Request.mk (Request.user req) (Request.param req) (Some parsed))
  | Throw (ZodThrown error) =>
      Responded (Response.mk 400
        (FieldErrors "Validation Error"
           (Zod.message (Zod.issue0 error))
           ((λ err, (join "." (Zod.path err), Zod.message err)) <$> Zod.errors error)))
  | Throw (Thrown _) =>
      Responded (Response.mk 500 (Error "Internal Server Error" "Validation failed"))
  end.

(* ===================================================================== *)
(** ** controllers/bookingController.ts *)
(* ===================================================================== *)

Module BookingController.

Record CreateBookingInput := mkCreateBookingInput {
  tutorId : string;
  dateTime : string;
  duration : Js.num;
  subject : option string;
  notes : option string
}.

Record UpdateBookingStatusInput := mkUpdateBookingStatusInput {
  action : string;
  reason : option string
}.

(** [data] of [prisma.booking.update]: [notes] is absent from the object
    the approve and complete cases build. *)
Record UpdateData := mkUpdateData {
  new_status : BookingStatus;
  new_notes : option (option string)
}.

Definition apply_update (d : UpdateData) (b : Booking.t) : Booking.t :=
  Booking.mk (Booking.id b) (Booking.studentId b) (Booking.tutorId b)
    (Booking.dateTime b) (Booking.duration b) (Booking.subject b)
    (match new_notes d with Some n => n | None => Booking.notes b end)
    (new_status d).

(** [reason ? `${notes ? notes + '\n\n' : ''}[TAG]\n${reason}` : notes] *)
Definition with_reason (tag : string) (notes reason : option string) : option string :=
  if Js.truthy reason then
    Some ((if Js.truthy notes then default "" notes ++ nl ++ nl else "")
            ++ tag ++ nl ++ default "" reason)
  else notes.

Section Handlers.
Context `{Platform}.
Import Zod.

Definition createBookingSchema (body : option json) : Parsed CreateBookingInput :=
  z_object body (λ o,
    Valid mkCreateBookingInput
    <&> z_string ["tutorId"]
          (λ s, check (zod_uuid s) invalid_string ["tutorId"] "Invalid tutor ID")
          (member "tutorId" o)
    <&> z_string ["dateTime"]
          (λ s, check (zod_datetime s) invalid_string ["dateTime"] "Invalid date time format")
          (member "dateTime" o)
    <&> z_default (Js.of_Z 60)
          (z_number ["duration"]
             (λ n, check (Js.gt n (Js.of_Z 0)) too_small ["duration"] "Duration must be positive"))
          (member "duration" o)
    <&> z_optional (z_string ["subject"] no_checks) (member "subject" o)
    <&> z_optional
          (z_string ["notes"]
             (λ s, check (1 <=? String.length s)%nat too_small ["notes"] "Message is required"))
          (member "notes" o)).

Definition updateBookingStatusSchema (body : option json)
    : Parsed UpdateBookingStatusInput :=
  z_object body (λ o,
    Valid mkUpdateBookingStatusInput
    <&> z_enum ["approve"; "reject"; "cancel"; "complete"]
          "Action must be approve, reject, cancel, or complete"
          ["action"] (member "action" o)
    <&> z_optional (z_string ["reason"] no_checks) (member "reason" o)).

(** POST /api/bookings *)
Definition createBooking (req : Request.t) : DB → Response.t * DB :=
  try_catch_zod "Failed to create booking" (
    match Request.user req with
    | None => respond 401 (Error "Unauthorized" "Not authenticated")
    | Some user =>
        validatedData ← parse (createBookingSchema (Request.body req));
        tutor ← prisma.user.findUnique_with_profile (tutorId validatedData);
        match tutor with
        | Some (tutor, Some _) =>
            if negb (bool_decide (User.role tutor = TUTOR)) then
              respond 404 (Error "Not Found" "Tutor not found")
            else if bool_decide (User.status tutor = BANNED) then
              respond 400 (Error "Bad Request" "This tutor is not available")
            else
              booking ← prisma.booking.create (λ id,
                Booking.mk id (JwtPayload.userId user) (tutorId validatedData)
                  (Date_parse (dateTime validatedData))
                  (duration validatedData) (subject validatedData)
                  (notes validatedData) Booking_status_default);
              db ← get;
              respond 201
                (BookingPayload (Some "Booking request sent! Awaiting tutor approval.")
                   (booking_view true false false db booking))
        | _ => respond 404 (Error "Not Found" "Tutor not found")
        end
    end).

(** GET /api/bookings/:id *)
Definition getBookingById (req : Request.t) : DB → Response.t * DB :=
  try_catch "Failed to fetch booking" (
    match Request.user req with
    | None => respond 401 (Error "Unauthorized" "Not authenticated")
    | Some user =>
        let id := Request.param req in
        booking ← prisma.booking.findUnique id;
        match booking with
        | None => respond 404 (Error "Not Found" "Booking not found")
        | Some booking =>
            if negb (bool_decide (JwtPayload.role user = "ADMIN"))
               && negb (bool_decide (Booking.studentId booking = JwtPayload.userId user))
               && negb (bool_decide (Booking.tutorId booking = JwtPayload.userId user))
            then
              respond 403 (Error "Forbidden" "You do not have access to this booking")
            else
              db ← get;
              respond 200 (BookingPayload None (booking_view true true true db booking))
        end
    end).

(** The [switch (action)] of [updateBookingStatus]: either the response a
    case returns with, or the [message] and [updateData] it leaves for
    the update that follows. *)
Definition switch_action (action : string) (reason : option string)
    (user : JwtPayload.t) (now : Z) (booking : Booking.t)
    : Response.t + (string * UpdateData) :=
  if bool_decide (action = "approve") then
    if negb (bool_decide (Booking.tutorId booking = JwtPayload.userId user)) then
      inl (Response.mk 403 (Error "Forbidden" "Only the tutor can approve bookings"))
    else if negb (bool_decide (Booking.status booking = PENDING)) then
      inl (Response.mk 400 (Error "Bad Request"
             ("Cannot approve booking with status "
                ++ BookingStatus_name (Booking.status booking))))
    else
      inr ("Booking approved successfully", mkUpdateData CONFIRMED None)
  else if bool_decide (action = "reject") then
    if negb (bool_decide (Booking.tutorId booking = JwtPayload.userId user)) then
      inl (Response.mk 403 (Error "Forbidden" "Only the tutor can reject bookings"))
    else if negb (bool_decide (Booking.status booking = PENDING)) then
      inl (Response.mk 400 (Error "Bad Request"
             ("Cannot reject booking with status "
                ++ BookingStatus_name (Booking.status booking))))
    else
      inr ("Booking rejected",
           mkUpdateData REJECTED
             (Some (with_reason "[REJECTION REASON]" (Booking.notes booking) reason)))
  else if bool_decide (action = "cancel") then
    let isStudent := bool_decide (Booking.studentId booking = JwtPayload.userId user) in
    let isTutor := bool_decide (Booking.tutorId booking = JwtPayload.userId user) in
    if negb isStudent && negb isTutor then
      inl (Response.mk 403
             (Error "Forbidden" "Only the student or tutor can cancel this booking"))
    else if negb (bool_decide (Booking.status booking = PENDING))
            && negb (bool_decide (Booking.status booking = CONFIRMED)) then
      inl (Response.mk 400 (Error "Bad Request"
             ("Cannot cancel booking with status "
                ++ BookingStatus_name (Booking.status booking))))
    else
      inr ("Booking cancelled successfully",
           mkUpdateData CANCELLED
             (Some (with_reason "[CANCELLATION REASON]" (Booking.notes booking) reason)))
  else if bool_decide (action = "complete") then
    if negb (bool_decide (Booking.tutorId booking = JwtPayload.userId user)) then
      inl (Response.mk 403
             (Error "Forbidden" "Only the tutor can mark bookings as completed"))
    else if negb (bool_decide (Booking.status booking = CONFIRMED)) then
      inl (Response.mk 400 (Error "Bad Request"
             ("Cannot complete booking with status "
                ++ BookingStatus_name (Booking.status booking))))
    else if (now <? Booking.dateTime booking)%Z then
      inl (Response.mk 400
             (Error "Bad Request"
                "Cannot mark booking as completed before the scheduled time"))
    else
      inr ("Booking marked as completed", mkUpdateData COMPLETED None)
  else
    inl (Response.mk 400 (Error "Bad Request" "Invalid action")).

(** PATCH /api/bookings/:id/status; [now] is the reading of [new Date()] *)
Definition updateBookingStatus (now : Z) (req : Request.t) : DB → Response.t * DB :=
  try_catch_zod "Failed to update booking status" (
    match Request.user req with
    | None => respond 401 (Error "Unauthorized" "Not authenticated")
    | Some user =>
        let id := Request.param req in
        validatedData ← parse (updateBookingStatusSchema (Request.body req));
        booking ← prisma.booking.findUnique id;
        match booking with
        | None => respond 404 (Error "Not Found" "Booking not found")
        | Some booking =>
            match switch_action (action validatedData) (reason validatedData)
                    user now booking with
            | inl res => mret res
            | inr (message, updateData) =>
                updatedBooking ← prisma.booking.update id (apply_update updateData);
                db ← get;
                respond 200
                  (BookingPayload (Some message)
                     (booking_view true false false db updatedBooking))
            end
        end
    end).

End Handlers.
End BookingController.

(** The other revision of [updateBookingStatus] kept in
    [bookingController.ts] (second half of the file): the new status is
    read from the body and written without looking at the current one. *)
Module BookingControllerRev.

Definition status_of_name (s : string) : BookingStatus :=
  if bool_decide (s = "CONFIRMED") then CONFIRMED
  else if bool_decide (s = "COMPLETED") then COMPLETED
  else CANCELLED.

Definition set_status (s : BookingStatus) (b : Booking.t) : Booking.t :=
  Booking.mk (Booking.id b) (Booking.studentId b) (Booking.tutorId b)
    (Booking.dateTime b) (Booking.duration b) (Booking.subject b)
    (Booking.notes b) s.

(** [const { status } = req.body]: destructuring [undefined] or [null]
    throws a [TypeError]; any other non-object has no such property. *)
Definition destructure_status (body : option json) : M (option json) :=
  match body with
  | None | Some JNull => throw (Thrown "TypeError")
  | Some (JObject o) => mret (member "status" o)
  | Some _ => mret None
  end.

Definition updateBookingStatus (req : Request.t) : DB → Response.t * DB :=
  try_catch "Failed to update booking status" (
    match Request.user req with
    | None => respond 401 (Error "Unauthorized" "Not authenticated")
    | Some user =>
        let id := Request.param req in
        status ← destructure_status (Request.body req);
        match status with
        | Some (JString status) =>
            if negb (bool_decide (status ∈ ["CONFIRMED"; "COMPLETED"; "CANCELLED"])) then
              respond 400 (Error "Bad Request" "Invalid status value")
            else
              booking ← prisma.booking.findUnique id;
              match booking with
              | None => respond 404 (Error "Not Found" "Booking not found")
              | Some booking =>
                  if bool_decide (status = "CANCELLED")
                     && negb (bool_decide (Booking.studentId booking = JwtPayload.userId user)) then
                    respond 403 (Error "Forbidden" "Only students can cancel bookings")
                  else if bool_decide (status = "COMPLETED")
                     && negb (bool_decide (Booking.tutorId booking = JwtPayload.userId user)) then
                    respond 403
                      (Error "Forbidden" "Only tutors can mark bookings as completed")
                  else
                    updatedBooking ←
                      prisma.booking.update id (set_status (status_of_name status));
                    db ← get;
                    respond 200
                      (BookingPayload (Some "Booking status updated successfully")
                         (booking_view false false false db updatedBooking))
              end
        | _ => respond 400 (Error "Bad Request" "Invalid status value")
        end
    end).

End BookingControllerRev.

(* ===================================================================== *)
(** ** controllers/reviewController.ts *)
(* ===================================================================== *)

Module ReviewController.

Record CreateReviewInput := mkCreateReviewInput {
  bookingId : string;
  rating : Js.num;
  comment : option string
}.

(** [tutorReviews.reduce((sum, r) => sum + r.rating, 0)] *)
Definition sum_ratings (l : list Review.t) : Z :=
  fold_left (λ sum r, (sum + Review.rating r)%Z) l 0%Z.

(** [{ 1: 0, 2: 0, 3: 0, 4: 0, 5: 0 }] *)
Definition empty_distribution : gmap Z Js.num :=
  <[1%Z := Js.of_Z 0]> (<[2%Z := Js.of_Z 0]> (<[3%Z := Js.of_Z 0]>
  (<[4%Z := Js.of_Z 0]> (<[5%Z := Js.of_Z 0]> ∅)))).

(** [reviews.forEach((review) => { ratingDistribution[review.rating]++ })] *)
Definition ratingDistribution (l : list Review.t) : gmap Z Js.num :=
  fold_left (λ d review, <[Review.rating review := Js.incr (d !! Review.rating review)]> d)
            l empty_distribution.

Definition review_view (with_tutor with_booking : bool) (db : DB) (r : Review.t)
    : View.Review :=
  View.mkReview r
    (person false <$> users db !! Review.studentId r)
    (if with_tutor then person false <$> users db !! Review.tutorId r else None)
    (if with_booking then Booking.dateTime <$> bookings db !! Review.bookingId r else None).

Section Handlers.
Context `{Platform}.
Import Zod.

Definition createReviewSchema (body : option json) : Parsed CreateReviewInput :=
  z_object body (λ o,
    Valid mkCreateReviewInput
    <&> z_string ["bookingId"]
          (λ s, check (zod_uuid s) invalid_string ["bookingId"] "Invalid booking ID")
          (member "bookingId" o)
    <&> z_number ["rating"]
          (λ n, (check_int ["rating"] n
                 ++ check (negb (Js.lt n (Js.of_Z 1))) too_small ["rating"]
                      "Rating must be at least 1"
                 ++ check (negb (Js.gt n (Js.of_Z 5))) too_big ["rating"]
                      "Rating must be at most 5")%list)
          (member "rating" o)
    <&> z_optional (z_string ["comment"] no_checks) (member "comment" o)).

(** POST /api/reviews *)
Definition createReview (req : Request.t) : DB → Response.t * DB :=
  try_catch_zod "Failed to create review" (
    match Request.user req with
    | None => respond 401 (Error "Unauthorized" "Not authenticated")
    | Some user =>
        validatedData ← parse (createReviewSchema (Request.body req));
        booking ← prisma.booking.findUnique_with_review (bookingId validatedData);
        match booking with
        | None => respond 404 (Error "Not Found" "Booking not found")
        | Some (booking, booking_review) =>
            if negb (bool_decide (Booking.studentId booking = JwtPayload.userId user)) then
              respond 403 (Error "Forbidden" "You can only review your own bookings")
            else if negb (bool_decide (Booking.status booking = COMPLETED)) then
              respond 400 (Error "Bad Request" "You can only review completed bookings")
            else if bool_decide (is_Some booking_review) then
              respond 400 (Error "Bad Request" "You have already reviewed this booking")
            else
              review ← prisma.review.create (λ id,
                Review.mk id (bookingId validatedData) (JwtPayload.userId user)
                  (Booking.tutorId booking) (Js.to_Z (rating validatedData))
                  (comment validatedData));
              db ← get;
              let created := review_view true false db review in
              tutorReviews ← prisma.review.findMany_tutor (Booking.tutorId booking);
              let avgRating := Js.div (sum_ratings tutorReviews) (length tutorReviews) in
              prisma.tutorProfile.update (Booking.tutorId booking) (λ p,
                TutorProfile.mk (TutorProfile.userId p) (TutorProfile.bio p)
                  (TutorProfile.hourlyRate p) (TutorProfile.subjects p)
                  avgRating (Z.of_nat (length tutorReviews)));;
              respond 201 (ReviewPayload "Review created successfully" created)
        end
    end).

(** GET /api/reviews/tutor/:tutorId; rows come newest first *)
Definition getTutorReviews (req : Request.t) : DB → Response.t * DB :=
  try_catch "Failed to fetch reviews" (
    let tutorId := Request.param req in
    found ← prisma.review.findMany_tutor tutorId;
    db ← get;
    let reviews := reverse found in
    let avgRating :=
      if (0 <? length reviews)%nat
      then Js.div (sum_ratings reviews) (length reviews)
      else Js.of_Z 0 in
    respond 200
      (TutorReviews (review_view false true db <$> reviews) (length reviews)
         avgRating (ratingDistribution reviews))).

End Handlers.
End ReviewController.

(** [createReview] and the event loop. *)
Module ReviewAwaits.
Section Handlers.
Context `{Platform}.
Import ReviewController.

(** What other requests do to the store while the handler waits. *)
Definition elsewhere (others : DB → DB) : M unit :=
  λ db, (others db, Ok tt).

(** [createReview] as the event loop runs it.  Each of its four calls to
    the client is awaited on its own, with no transaction around them,
    so other requests are served between one call and the next:
    [others n] is what they do to the store after the [n]-th call. *)
Definition createReview_among (others : nat → DB → DB) (req : Request.t)
    : DB → Response.t * DB :=
  try_catch_zod "Failed to create review" (
    match Request.user req with
    | None => respond 401 (Error "Unauthorized" "Not authenticated")
    | Some user =>
        validatedData ← parse (createReviewSchema (Request.body req));
        booking ← prisma.booking.findUnique_with_review (bookingId validatedData);
        elsewhere (others 1);;
        match booking with
        | None => respond 404 (Error "Not Found" "Booking not found")
        | Some (booking, booking_review) =>
            if negb (bool_decide (Booking.studentId booking = JwtPayload.userId user)) then
              respond 403 (Error "Forbidden" "You can only review your own bookings")
            else if negb (bool_decide (Booking.status booking = COMPLETED)) then
              respond 400 (Error "Bad Request" "You can only review completed bookings")
            else if bool_decide (is_Some booking_review) then
              respond 400 (Error "Bad Request" "You have already reviewed this booking")
            else
              review ← prisma.review.create (λ id,
                Review.mk id (bookingId validatedData) (JwtPayload.userId user)
                  (Booking.tutorId booking) (Js.to_Z (rating validatedData))
                  (comment validatedData));
              db ← get;
              let created := review_view true false db review in
              elsewhere (others 2);;
              tutorReviews ← prisma.review.findMany_tutor (Booking.tutorId booking);
              elsewhere (others 3);;
              let avgRating := Js.div (sum_ratings tutorReviews) (length tutorReviews) in
              prisma.tutorProfile.update (Booking.tutorId booking) (λ p,
                TutorProfile.mk (TutorProfile.userId p) (TutorProfile.bio p)
                  (TutorProfile.hourlyRate p) (TutorProfile.subjects p)
                  avgRating (Z.of_nat (length tutorReviews)));;
              respond 201 (ReviewPayload "Review created successfully" created)
        end
    end).

End Handlers.
End ReviewAwaits.

(* ===================================================================== *)
(** ** controllers/authController.ts *)
(* ===================================================================== *)

Module AuthController.

Record RegisterInput := mkRegisterInput {
  email : string;
  password : string;
  name : string;
  role : string
}.

(** A string as a value of the enum column [User.role]; the client
    rejects a string that names no member. *)
Definition Role_of_name (s : string) : option Role :=
  if bool_decide (s = "STUDENT") then Some STUDENT
  else if bool_decide (s = "TUTOR") then Some TUTOR
  else if bool_decide (s = "ADMIN") then Some ADMIN
  else None.

Definition account (u : User.t) : View.Account :=
  View.mkAccount (User.id u) (User.email u) (User.name u) (User.role u)
    (User.status u).

Section Handlers.
Context `{Platform}.
Import Zod.

Definition registerSchema (body : option json) : Parsed RegisterInput :=
  z_object body (λ o,
    Valid mkRegisterInput
    <&> z_string ["email"]
          (λ s, check (zod_email s) invalid_string ["email"] "Invalid email format")
          (member "email" o)
    <&> z_string ["password"]
          (λ s, check (8 <=? String.length s)%nat too_small ["password"]
                  "Password must be at least 8 characters")
          (member "password" o)
    <&> z_string ["name"]
          (λ s, check (2 <=? String.length s)%nat too_small ["name"]
                  "Name must be at least 2 characters")
          (member "name" o)
    <&> z_enum ["STUDENT"; "TUTOR"] "Role must be either STUDENT or TUTOR"
          ["role"] (member "role" o)).

(** POST /api/auth/register *)
Definition register (req : Request.t) : DB → Response.t * DB :=
  try_catch_zod "Failed to register user" (
    validatedData ← parse (registerSchema (Request.body req));
    existingUser ← prisma.user.findUnique_email (email validatedData);
    match existingUser with
    | Some _ =>
        respond 400 (Error "Bad Request" "User with this email already exists")
    | None =>
        let hashedPassword := hashPassword (password validatedData) in
        match Role_of_name (role validatedData) with
        | None => throw (Thrown "PrismaClientValidationError")
        | Some role =>
            user ← prisma.user.create (λ id,
              User.mk id (email validatedData) hashedPassword
                (name validatedData) role User_status_default);
            let token :=
              jwt_sign (JwtPayload.mk (User.id user) (User.email user)
                          (Role_name (User.role user))) in
            respond 201 (Registered "User registered successfully" (account user) token)
        end
    end).

End Handlers.
End AuthController.

(* ===================================================================== *)
(** ** Further handlers: what they need beyond the above *)
(* ===================================================================== *)

(** Built-ins of the JavaScript runtime, and the helper of
    [utils/password] that is not among the sources. *)
Class Runtime := {
  (** [comparePassword(plain, hash)] *)
  comparePassword : string → string → bool;
  (** [String.prototype.toUpperCase] and [toLowerCase] *)
  toUpperCase : string → string;
  toLowerCase : string → string
}.

(** A member of [req.query] as the query parser leaves it: a string, an
    array (a repeated parameter) or an object (a bracketed one). *)
Inductive QueryValue :=
| QString (s : string)
| QArray (items : list QueryValue)
| QObject.

(** [String(v)] *)
Fixpoint String_of (v : QueryValue) : string :=
  match v with
  | QString s => s
  | QArray items => join "," (List.map String_of items)
  | QObject => "[object Object]"
  end.

(** [if (v)]: only [undefined] and the empty string are falsy here *)
Definition query_truthy (v : option QueryValue) : bool :=
  match v with
  | None | Some (QString EmptyString) => false
  | Some _ => true
  end.

(** A string as a value of the enum column [Booking.status]. *)
Definition BookingStatus_of_name (s : string) : option BookingStatus :=
  if bool_decide (s = "PENDING") then Some PENDING
  else if bool_decide (s = "CONFIRMED") then Some CONFIRMED
  else if bool_decide (s = "REJECTED") then Some REJECTED
  else if bool_decide (s = "CANCELLED") then Some CANCELLED
  else if bool_decide (s = "COMPLETED") then Some COMPLETED
  else None.

Definition UserStatus_of_name (s : string) : option UserStatus :=
  if bool_decide (s = "ACTIVE") then Some ACTIVE
  else if bool_decide (s = "BANNED") then Some BANNED
  else None.

Module Card.
(** [review: { select: { id, rating, comment } }] *)
Record Review := mkReview {
  id : string;
  rating : Z;
  comment : option string
}.
(** a row of [getBookings] *)
Record Booking := mkBooking {
  row : Booking.t;
  student : option View.Person;
  tutor : option View.Person;
  tutorProfile : option View.Profile;
  review : option Review
}.
(** [tutorProfile: { select: { bio, hourlyRate, subjects, rating,
    reviewCount } }] of [getCurrentUser] *)
Record Profile := mkProfile {
  bio : option string;
  hourlyRate : Js.num;
  subjects : list string;
  profile_rating : Js.num;
  reviewCount : Z
}.
End Card.

(** The documents of the further handlers; [Plain] is a document of the
    kinds above. *)
Inductive Payload :=
| Plain (document : Body)
| BookingList (bookings : list Card.Booking) (count : nat)
| CurrentUser (user : View.Account) (tutorProfile : option Card.Profile)
| AccountUpdated (message : string) (user : View.Account)
| Message (message : string).

Module Reply.
Record t := mk {
  status : Z;
  body : Payload
}.
End Reply.

Definition reply (status : Z) (p : Payload) : M Reply.t :=
  mret (Reply.mk status p).

Definition refuse (status : Z) (error message : string) : M Reply.t :=
  reply status (Plain (Error error message)).

(** the two [catch] blocks, as [try_catch_zod] and [try_catch] *)
Definition catching_zod (failure : string) (m : M Reply.t) (db : DB)
    : Reply.t * DB :=
  match m db with
  | (db', Ok r) => (r, db')
  | (db', Throw (ZodThrown e)) =>
      (Reply.mk 400
         (Plain (ValidationError "Validation Error"
                   (Zod.message (Zod.issue0 e)) (Zod.errors e))), db')
  | (db', Throw (Thrown _)) =>
      (Reply.mk 500 (Plain (Error "Internal Server Error" failure)), db')
  end.

Definition catching (failure : string) (m : M Reply.t) (db : DB)
    : Reply.t * DB :=
  match m db with
  | (db', Ok r) => (r, db')
  | (db', Throw _) =>
      (Reply.mk 500 (Plain (Error "Internal Server Error" failure)), db')
  end.

(** [router.use(guard)] in front of a further handler *)
Definition behind (guard : Request.t → Middleware)
    (handler : Request.t → DB → Reply.t * DB) (req : Request.t) (db : DB)
    : Reply.t * DB :=
  match guard req with
  | Next req' => handler req' db
  | Responded res =>
      (Reply.mk (Response.status res) (Plain (Response.body res)), db)
  end.

(** More of the Prisma client. *)
Module client.

(** newest first by [dateTime] *)
Definition later (a b : Booking.t) : Prop :=
  (Booking.dateTime b ≤ Booking.dateTime a)%Z.

#[global] Instance later_dec (a b : Booking.t) : Decision (later a b).
Proof. unfold later. apply _. Defined.

(** [booking.findMany({ where, orderBy: { dateTime: 'desc' } })] *)
Definition booking_findMany (where_ : Booking.t → bool) : M (list Booking.t) :=
  db ← get;
  mret (merge_sort later
          (filter (λ b, Is_true (where_ b)) ((map_to_list (bookings db)).*2))).

(** [user.update({ where: { id }, data })]: rejects when no row matches,
    and when it changes the e-mail to that of another row ([email] is a
    unique column, as [findUnique({ where: { email } })] shows). *)
Definition user_update (id : string) (data : User.t → User.t) : M User.t :=
  db ← get;
  match users db !! id with
  | None => throw (Thrown "P2025")
  | Some u =>
      if bool_decide
           (User.email (data u) ≠ User.email u
            ∧ Exists (λ other, other.1 ≠ id
                               ∧ User.email other.2 = User.email (data u))
                     (map_to_list (users db)))
      then throw (Thrown "P2002")
      else
        put (mkDB (<[id := data u]> (users db)) (tutorProfiles db)
               (bookings db) (reviews db));;
        mret (data u)
  end.

End client.

Definition review_card (r : Review.t) : Card.Review :=
  Card.mkReview (Review.id r) (Review.rating r) (Review.comment r).

Definition booking_card (db : DB) (b : Booking.t) : Card.Booking :=
  Card.mkBooking b
    (person true <$> users db !! Booking.studentId b)
    (person true <$> users db !! Booking.tutorId b)
    (profile false <$> tutorProfiles db !! Booking.tutorId b)
    (review_card <$>
     find (λ r, bool_decide (Review.bookingId r = Booking.id b)) (reviews db)).

Definition profile_card (p : TutorProfile.t) : Card.Profile :=
  Card.mkProfile (TutorProfile.bio p) (TutorProfile.hourlyRate p)
    (TutorProfile.subjects p) (TutorProfile.rating p)
    (TutorProfile.reviewCount p).

(* ===================================================================== *)
(** ** controllers/bookingController.ts: getBookings *)
(* ===================================================================== *)

Module BookingListing.
Section Handlers.
Context `{Runtime}.

(** The [where] object, as a test on rows: the role fixes whose bookings
    are looked at, the status narrows them. *)
Definition where_ (user : JwtPayload.t) (status : option BookingStatus)
    (b : Booking.t) : bool :=
  (if bool_decide (JwtPayload.role user = "STUDENT") then
     bool_decide (Booking.studentId b = JwtPayload.userId user)
   else if bool_decide (JwtPayload.role user = "TUTOR") then
     bool_decide (Booking.tutorId b = JwtPayload.userId user)
   else true)
  && match status with
     | Some s => bool_decide (Booking.status b = s)
     | None => true
     end.

(** GET /api/bookings; [status] is [req.query.status].  The client
    rejects a [where.status] that names no member of the enum. *)
Definition getBookings (status : option QueryValue) (req : Request.t)
    : DB → Reply.t * DB :=
  catching "Failed to fetch bookings" (
    match Request.user req with
    | None => refuse 401 "Unauthorized" "Not authenticated"
    | Some user =>
        wanted ←
          (if query_truthy status then
             match BookingStatus_of_name
                     (toUpperCase (String_of (default QObject status))) with
             | Some s => mret (Some s)
             | None => throw (Thrown "PrismaClientValidationError")
             end
           else mret None);
        bookings ← client.booking_findMany (where_ user wanted);
        db ← get;
        reply 200 (BookingList (booking_card db <$> bookings) (length bookings))
    end).

End Handlers.
End BookingListing.

(* ===================================================================== *)
(** ** controllers/authController.ts: login, getCurrentUser *)
(* ===================================================================== *)

Module AuthSession.

Record LoginInput := mkLoginInput {
  email : string;
  password : string
}.

Section Handlers.
Context `{Platform} `{Runtime}.
Import Zod.

Definition loginSchema (body : option json) : Parsed LoginInput :=
  z_object body (λ o,
    Valid mkLoginInput
    <&> z_string ["email"]
          (λ s, check (zod_email s) invalid_string ["email"] "Invalid email format")
          (member "email" o)
    <&> z_string ["password"]
          (λ s, check (1 <=? String.length s)%nat too_small ["password"]
                  "Password is required")
          (member "password" o)).

(** POST /api/auth/login *)
Definition login (req : Request.t) : DB → Reply.t * DB :=
  catching_zod "Failed to login" (
    validatedData ← parse (loginSchema (Request.body req));
    user ← prisma.user.findUnique_email (email validatedData);
    match user with
    | None => refuse 401 "Unauthorized" "Invalid email or password"
    | Some user =>
        if bool_decide (User.status user = BANNED) then
          refuse 403 "Forbidden"
            "Your account has been banned. Please contact support."
        else if negb (comparePassword (password validatedData) (User.password user)) then
          refuse 401 "Unauthorized" "Invalid email or password"
        else
          let token :=
            jwt_sign (JwtPayload.mk (User.id user) (User.email user)
                        (Role_name (User.role user))) in
          reply 200
            (Plain (Registered "Login successful" (AuthController.account user) token))
    end).

(** GET /api/auth/me *)
Definition getCurrentUser (req : Request.t) : DB → Reply.t * DB :=
  catching "Failed to get user data" (
    match Request.user req with
    | None => refuse 401 "Unauthorized" "Not authenticated"
    | Some requester =>
        user ← prisma.user.findUnique_with_profile (JwtPayload.userId requester);
        match user with
        | None => refuse 404 "Not Found" "User not found"
        | Some (user, tutorProfile) =>
            reply 200
              (CurrentUser (AuthController.account user)
                 (profile_card <$> tutorProfile))
        end
    end).

End Handlers.
End AuthSession.

(* ===================================================================== *)
(** ** controllers/userController.ts *)
(* ===================================================================== *)

Module UserController.

Record UpdateProfileInput := mkUpdateProfileInput {
  name : string;
  email : string
}.

Record UpdatePasswordInput := mkUpdatePasswordInput {
  currentPassword : string;
  newPassword : string
}.

Definition set_name_email (name email : string) (u : User.t) : User.t :=
  User.mk (User.id u) email (User.password u) name (User.role u) (User.status u).

Definition set_password (password : string) (u : User.t) : User.t :=
  User.mk (User.id u) (User.email u) password (User.name u) (User.role u)
    (User.status u).

Section Handlers.
Context `{Platform} `{Runtime}.
Import Zod.

Definition updateProfileSchema (body : option json) : Parsed UpdateProfileInput :=
  z_object body (λ o,
    Valid mkUpdateProfileInput
    <&> z_string ["name"]
          (λ s, check (2 <=? String.length s)%nat too_small ["name"]
                  "Name must be at least 2 characters")
          (member "name" o)
    <&> z_string ["email"]
          (λ s, check (zod_email s) invalid_string ["email"] "Invalid email format")
          (member "email" o)).

Definition updatePasswordSchema (body : option json) : Parsed UpdatePasswordInput :=
  z_object body (λ o,
    Valid mkUpdatePasswordInput
    <&> z_string ["currentPassword"]
          (λ s, check (1 <=? String.length s)%nat too_small ["currentPassword"]
                  "Current password is required")
          (member "currentPassword" o)
    <&> z_string ["newPassword"]
          (λ s, check (8 <=? String.length s)%nat too_small ["newPassword"]
                  "New password must be at least 8 characters")
          (member "newPassword" o)).

(** PUT /api/users/profile *)
Definition updateProfile (req : Request.t) : DB → Reply.t * DB :=
  catching_zod "Failed to update profile" (
    match Request.user req with
    | None => refuse 401 "Unauthorized" "Not authenticated"
    | Some requester =>
        validatedData ← parse (updateProfileSchema (Request.body req));
        taken ←
          (if negb (bool_decide (email validatedData = JwtPayload.email requester)) then
             existingUser ← prisma.user.findUnique_email (email validatedData);
             mret (match existingUser with
                   | Some existingUser =>
                       negb (bool_decide (User.id existingUser
                                          = JwtPayload.userId requester))
                   | None => false
                   end)
           else mret false);
        if (taken : bool) then
          refuse 400 "Bad Request" "Email is already taken by another user"
        else
          updatedUser ←
            client.user_update (JwtPayload.userId requester)
              (set_name_email (name validatedData) (email validatedData));
          reply 200
            (AccountUpdated "Profile updated successfully"
               (AuthController.account updatedUser))
    end).

(** PUT /api/users/password *)
Definition updatePassword (req : Request.t) : DB → Reply.t * DB :=
  catching_zod "Failed to update password" (
    match Request.user req with
    | None => refuse 401 "Unauthorized" "Not authenticated"
    | Some requester =>
        validatedData ← parse (updatePasswordSchema (Request.body req));
        user ← prisma.user.findUnique (JwtPayload.userId requester);
        match user with
        | None => refuse 404 "Not Found" "User not found"
        | Some user =>
            if negb (comparePassword (currentPassword validatedData)
                       (User.password user)) then
              refuse 401 "Unauthorized" "Current password is incorrect"
            else
              let hashedPassword := hashPassword (newPassword validatedData) in
              client.user_update (JwtPayload.userId requester)
                (set_password hashedPassword);;
              reply 200 (Message "Password updated successfully")
        end
    end).

End Handlers.
End UserController.

(* ===================================================================== *)
(** ** controllers/adminController.ts: updateUserStatus *)
(* ===================================================================== *)

Module AdminController.

Definition set_status (s : UserStatus) (u : User.t) : User.t :=
  User.mk (User.id u) (User.email u) (User.password u) (User.name u)
    (User.role u) s.

Section Handlers.
Context `{Platform}.
Import Zod.

Definition userStatusSchema (body : option json) : Parsed string :=
  z_object body (λ o,
    z_enum ["ACTIVE"; "BANNED"] "Status must be ACTIVE or BANNED"
      ["status"] (member "status" o)).

(** PATCH /api/admin/users/:id/status *)
Definition updateUserStatus (req : Request.t) : DB → Reply.t * DB :=
  catching_zod "Failed to update user status" (
    let id := Request.param req in
    status ← parse (userStatusSchema (Request.body req));
    user ← prisma.user.findUnique id;
    match user with
    | None => refuse 404 "Not Found" "User not found"
    | Some user =>
        if bool_decide (User.role user = ADMIN) && bool_decide (status = "BANNED") then
          refuse 403 "Forbidden" "Cannot ban admin users"
        else
          match UserStatus_of_name status with
          | None => throw (Thrown "PrismaClientValidationError")
          | Some s =>
              updatedUser ← client.user_update id (set_status s);
              reply 200
                (AccountUpdated
                   ("User " ++ (if bool_decide (status = "BANNED")
                                then "banned" else "unbanned")
                    ++ " successfully")
                   (AuthController.account updatedUser))
          end
    end).

End Handlers.
End AdminController.

(* ===================================================================== *)
(** ** controllers/categoryController.ts: generateSlug *)
(* ===================================================================== *)

Module CategoryController.

(** The class [\s], on the code units a string of this development
    holds (those below 256): tab, line feed, vertical tab, form feed,
    carriage return, space and no-break space.  [trim] strips the same
    characters. *)
Definition is_space (c : ascii) : bool :=
  let n := nat_of_ascii c in
  ((n =? 9) || (n =? 10) || (n =? 11) || (n =? 12) || (n =? 13)
   || (n =? 32) || (n =? 160))%nat.

Definition is_hyphen (c : ascii) : bool := Ascii.eqb c "-"%char.

(** The class [a-z0-9-]. *)
Definition slug_char (c : ascii) : bool :=
  let n := nat_of_ascii c in
  ((97 <=? n) && (n <=? 122) || (48 <=? n) && (n <=? 57) || (n =? 45))%nat.

Fixpoint trimStart (l : list ascii) : list ascii :=
  match l with
  | c :: r => if is_space c then trimStart r else l
  | [] => []
  end.

(** [String.prototype.trim] *)
Definition trim (l : list ascii) : list ascii :=
  rev (trimStart (rev (trimStart l))).

(** [.replace(/c+/g, '-')] for a class [c]: every maximal run of
    characters of the class becomes one hyphen; [in_run] tells that the
    character before was of the class. *)
Fixpoint replace_runs (c : ascii → bool) (in_run : bool) (l : list ascii)
    : list ascii :=
  match l with
  | [] => []
  | x :: r =>
      if c x then
        if in_run then replace_runs c true r
        else "-"%char :: replace_runs c true r
      else x :: replace_runs c false r
  end.

(** [name.toLowerCase().trim().replace(/[^a-z0-9\s-]/g, '')
       .replace(/\s+/g, '-').replace(/-+/g, '-')] *)
Definition generateSlug `{Runtime} (name : string) : string :=
  string_of_list_ascii
    (replace_runs is_hyphen false
       (replace_runs is_space false
          (List.filter (λ x, slug_char x || is_space x)
             (trim (list_ascii_of_string (toLowerCase name)))))).

End CategoryController.

(* ===================================================================== *)
(** ** routes/*.ts: the endpoints under study *)
(* ===================================================================== *)

Inductive Endpoint :=
| POST_auth_register
| POST_bookings
| GET_bookings_id
| PATCH_bookings_id_status
| POST_reviews
| GET_reviews_tutor.

(** [router.post(path, guard, handler)] *)
Definition guarded (guard : Request.t → Middleware)
    (handler : Request.t → DB → Response.t * DB) (req : Request.t) (db : DB)
    : Response.t * DB :=
  match guard req with
  | Next req' => handler req' db
  | Responded res => (res, db)
  end.

(** The request is taken as [authMiddleware] (not among the sources)
    hands it on. *)
Definition handle `{Platform} (e : Endpoint) (now : Z) : Request.t → DB → Response.t * DB :=
  match e with
  | POST_auth_register => AuthController.register
  | POST_bookings => guarded isStudent BookingController.createBooking
  | GET_bookings_id => BookingController.getBookingById
  | PATCH_bookings_id_status => BookingController.updateBookingStatus now
  | POST_reviews => guarded isStudent ReviewController.createReview
  | GET_reviews_tutor => ReviewController.getTutorReviews
  end.

(* ===================================================================== *)
(** ** Notions of the specification *)
(* ===================================================================== *)

(** The four-edge graph of the specification, by requested action. *)
Definition spec_edge (from : BookingStatus) (action : string) : option BookingStatus :=
  if bool_decide (action = "approve") then
    match from with PENDING => Some CONFIRMED | _ => None end
  else if bool_decide (action = "reject") then
    match from with PENDING => Some REJECTED | _ => None end
  else if bool_decide (action = "cancel") then
    match from with PENDING | CONFIRMED => Some CANCELLED | _ => None end
  else if bool_decide (action = "complete") then
    match from with CONFIRMED => Some COMPLETED | _ => None end
  else None.

(** Who may request an action: the tutor of the booking, and for a
    cancellation its student as well. *)
Definition entitled (action : string) (u : JwtPayload.t) (b : Booking.t) : bool :=
  if bool_decide (action = "cancel")
  then bool_decide (Booking.studentId b = JwtPayload.userId u)
       || bool_decide (Booking.tutorId b = JwtPayload.userId u)
  else bool_decide (Booking.tutorId b = JwtPayload.userId u).

(** The arithmetic mean of a list of ratings. *)
Definition arithmetic_mean (ratings : list Z) : Q :=
  inject_Z (foldr Z.add 0%Z ratings) / inject_Z (Z.of_nat (length ratings)).

(** The reviews a tutor has received. *)
Definition reviews_of (tutorId : string) (db : DB) : list Review.t :=
  filter (λ r, Review.tutorId r = tutorId) (reviews db).

(** A rating [createReview] is meant to accept: an integer from 1 to 5. *)
Definition acceptable_rating (input : option json) : Prop :=
  ∃ q z, input = Some (JNumber (Js.Num q)) ∧ (q == inject_Z z)%Q ∧ (1 ≤ z ≤ 5)%Z.

(** The member [k] of a request body. *)
Definition body_member (k : string) (req : Request.t) : option json :=
  match Request.body req with
  | Some (JObject o) => member k o
  | _ => None
  end.

(** A booking that already has its review. *)
Definition reviewed (bookingId : string) (db : DB) : Prop :=
  ∃ r, r ∈ reviews db ∧ Review.bookingId r = bookingId.

(** The review [createReview] stores once every guard is passed. *)
Definition new_review (db : DB) (u : JwtPayload.t) (d : ReviewController.CreateReviewInput)
    (b : Booking.t) : Review.t :=
  Review.mk (prisma.new_review_id (reviews db)) (ReviewController.bookingId d)
    (JwtPayload.userId u) (Booking.tutorId b) (Js.to_Z (ReviewController.rating d)) (ReviewController.comment d).

(** Every stored rating lies between 1 and 5. *)
Definition ratings_in_range (db : DB) : Prop :=
  Forall (λ r, (1 ≤ Review.rating r ≤ 5)%Z) (reviews db).

(** How many of the reviews carry the rating [k]. *)
Definition count_rating (k : Z) (l : list Review.t) : nat :=
  length (filter (λ r, Review.rating r = k) l).



(** The booking-status claim of the specification, read literally at one
    request: an update answered 200 follows an edge requested by an
    entitled user, and a (status, action) pair off the graph is answered
    400 with the status left as it was. *)
Definition transitions_as_stated `{Platform} (now : Z) (req : Request.t) (db : DB) : Prop :=
  ∀ u b d,
    Request.user req = Some u →
    bookings db !! Request.param req = Some b →
    BookingController.updateBookingStatusSchema (Request.body req) = Zod.Valid d →
    let out := BookingController.updateBookingStatus now req db in
    (Response.status out.1 = 200%Z →
       entitled (BookingController.action d) u b = true
       ∧ ∃ s', spec_edge (Booking.status b) (BookingController.action d) = Some s'
               ∧ Booking.status <$> bookings out.2 !! Request.param req = Some s')
    ∧ (spec_edge (Booking.status b) (BookingController.action d) = None →
       Response.status out.1 = 400%Z
       ∧ Booking.status <$> bookings out.2 !! Request.param req
         = Some (Booking.status b)).


(* ===================================================================== *)
(** ** Notions for the further results *)
(* ===================================================================== *)

(** Every user row sits under its own identifier. *)
Definition users_keyed (db : DB) : Prop :=
  ∀ k u, users db !! k = Some u → User.id u = k.

(** No two user rows share an e-mail address. *)
Definition emails_unique (db : DB) : Prop :=
  ∀ i j u v, users db !! i = Some u → users db !! j = Some v →
             User.email u = User.email v → i = j.


(** The profile of every tutor who has reviews shows their mean and
    their number. *)
Definition ratings_consistent (db : DB) : Prop :=
  ∀ t p, tutorProfiles db !! t = Some p → reviews_of t db ≠ [] →
    (∃ q, TutorProfile.rating p = Js.Num q
          ∧ (q == arithmetic_mean (Review.rating <$> reviews_of t db))%Q)
    ∧ TutorProfile.reviewCount p = Z.of_nat (length (reviews_of t db)).



(** No user row is an ADMIN that is BANNED. *)
Definition no_banned_admin (db : DB) : Prop :=
  ∀ k u, users db !! k = Some u → User.role u = ADMIN → User.status u ≠ BANNED.

(** A string made of characters of [a-z0-9-] with no two hyphens in a
    row. *)
Fixpoint slug_shaped (l : list ascii) : bool :=
  match l with
  | [] => true
  | x :: r =>
      CategoryController.slug_char x
      && match r with
         | y :: _ => negb (CategoryController.is_hyphen x && CategoryController.is_hyphen y)
         | [] => true
         end
      && slug_shaped r
  end.

(** The bookings [getBookings] is to show a user: a student's own, a
    tutor's own, and all of them to anyone else. *)
Definition visible_to (u : JwtPayload.t) (b : Booking.t) : Prop :=
  (JwtPayload.role u = "STUDENT" → Booking.studentId b = JwtPayload.userId u)
  ∧ (JwtPayload.role u = "TUTOR" → Booking.tutorId b = JwtPayload.userId u).

(** The rows a listing shows, in its order. *)
Definition listed (p : Payload) : list Booking.t :=
  match p with
  | BookingList cards _ => Card.row <$> cards
  | _ => []
  end.

(** When [user.update] lets a row of [id] take the address [e]: it is
    the address the row has, or no other row has it. *)
Definition free_for (db : DB) (id : string) (u : User.t) (e : string) : Prop :=
  e = User.email u
  ∨ ∀ j v, users db !! j = Some v → j ≠ id → User.email v ≠ e.

(* ===================================================================== *)
(** ** The error-status mapping, route by route *)
(* ===================================================================== *)












(* ===================================================================== *)
(** ** A concrete platform and store on which the handlers are run *)
(* ===================================================================== *)

Module Sample.

Definition hex (c : Ascii.ascii) : bool :=
  let n := Ascii.nat_of_ascii c in
  ((48 <=? n) && (n <=? 57) || (97 <=? n) && (n <=? 102)
   || (65 <=? n) && (n <=? 70))%nat.

(** eight, four, four, four and twelve hexadecimal digits *)
Fixpoint uuid_from (i : nat) (s : string) : bool :=
  match s with
  | EmptyString => (i =? 36)%nat
  | String c r =>
      (if ((i =? 8) || (i =? 13) || (i =? 18) || (i =? 23))%nat
       then Ascii.eqb c "-"%char else hex c)
      && uuid_from (S i) r
  end.

Definition platform : Platform := {|
  zod_default_message := λ _ input,
    match input with None => "Required" | Some _ => "Invalid input" end;
  zod_uuid := uuid_from 0;
  zod_email := λ s, bool_decide ("@"%char ∈ list_ascii_of_string s);
  zod_datetime := λ s, (String.length s =? 20)%nat;
  Date_parse := λ _, 1767261600000%Z;
  hashPassword := λ s, "$2a$10$" ++ s;
  jwt_sign := λ p, "jwt:" ++ JwtPayload.userId p;
  User_status_default := ACTIVE
|}.

Definition alice := "00000000-0000-4000-8000-0000000000a1".   (* student *)
Definition bob := "00000000-0000-4000-8000-0000000000b2".     (* student *)
Definition tara := "00000000-0000-4000-8000-0000000000c3".    (* tutor *)
Definition tom := "00000000-0000-4000-8000-0000000000d4".     (* tutor, banned *)
Definition root := "00000000-0000-4000-8000-0000000000e5".    (* admin *)

Definition booking1 := "10000000-0000-4000-8000-000000000001". (* completed, reviewed *)
Definition booking2 := "10000000-0000-4000-8000-000000000002". (* completed *)
Definition booking3 := "10000000-0000-4000-8000-000000000003". (* confirmed *)
Definition booking4 := "10000000-0000-4000-8000-000000000004". (* pending *)

Definition user_row (id name : string) (r : Role) (s : UserStatus) : User.t :=
  User.mk id (name ++ "@example.com") "$2a$10$secret" name r s.

Definition booking_row (id : string) (at_ : Z) (s : BookingStatus) : Booking.t :=
  Booking.mk id alice tara at_ (Js.of_Z 60) (Some "Algebra") None s.

Definition db : DB := {|
  users :=
    <[alice := user_row alice "alice" STUDENT ACTIVE]>
    (<[bob := user_row bob "bob" STUDENT ACTIVE]>
    (<[tara := user_row tara "tara" TUTOR ACTIVE]>
    (<[tom := user_row tom "tom" TUTOR BANNED]>
    (<[root := user_row root "root" ADMIN ACTIVE]> ∅))));
  tutorProfiles :=
    <[tara := TutorProfile.mk tara None (Js.of_Z 40) ["Algebra"] (Js.of_Z 4) 1]>
    (<[tom := TutorProfile.mk tom None (Js.of_Z 30) ["Piano"] (Js.of_Z 0) 0]> ∅);
  bookings :=
    <[booking1 := booking_row booking1 1000 COMPLETED]>
    (<[booking2 := booking_row booking2 2000 COMPLETED]>
    (<[booking3 := booking_row booking3 5000 CONFIRMED]>
    (<[booking4 := booking_row booking4 6000 PENDING]> ∅)));
  reviews := [Review.mk "r1" booking1 alice tara 4 (Some "Clear and patient")]
|}.

Definition as_user (id : string) (role : string) : option JwtPayload.t :=
  Some (JwtPayload.mk id (id ++ "@example.com") role).

Definition action_body (action : string) : option json :=
  Some (JObject [("action", JString action)]).

Definition review_body (bookingId : string) (rating : Js.num) : option json :=
  Some (JObject [("bookingId", JString bookingId); ("rating", JNumber rating)]).

Definition booking_body (tutorId : string) : option json :=
  Some (JObject [("tutorId", JString tutorId);
                 ("dateTime", JString "2026-01-01T10:00:00Z")]).

Definition register_body (role : json) : option json :=
  Some (JObject [("email", JString "carol@example.com");
                 ("password", JString "correct horse");
                 ("name", JString "Carol"); ("role", role)]).

End Sample.

(** A runtime to go with [Sample.platform], and more requests. *)
Module Fixture.

Definition shift (lo hi : nat) (by_ : nat → nat) (c : ascii) : ascii :=
  let n := nat_of_ascii c in
  if ((lo <=? n) && (n <=? hi))%nat then ascii_of_nat (by_ n) else c.

Fixpoint map_string (f : ascii → ascii) (s : string) : string :=
  match s with
  | EmptyString => EmptyString
  | String c r => String (f c) (map_string f r)
  end.

(** hashes are compared as [Sample.platform] makes them; the case maps
    are those of the letters A to Z *)
Definition runtime : Runtime := {|
  comparePassword := λ plain hash, bool_decide (hash = "$2a$10$" ++ plain);
  toUpperCase := map_string (shift 97 122 (λ n, n - 32));
  toLowerCase := map_string (shift 65 90 (λ n, n + 32))
|}.

Definition login_body (email password : string) : option json :=
  Some (JObject [("email", JString email); ("password", JString password)]).

Definition profile_body (name email : string) : option json :=
  Some (JObject [("name", JString name); ("email", JString email)]).

Definition password_body (current new : string) : option json :=
  Some (JObject [("currentPassword", JString current);
                 ("newPassword", JString new)]).

Definition status_body (status : string) : option json :=
  Some (JObject [("status", JString status)]).

Definition reason_body (action reason : string) : option json :=
  Some (JObject [("action", JString action); ("reason", JString reason)]).

(** [Sample.db] with a note on the pending booking *)
Definition noted_db : DB :=
  mkDB (users Sample.db) (tutorProfiles Sample.db)
    (<[Sample.booking4 :=
         Booking.mk Sample.booking4 Sample.alice Sample.tara 6000 (Js.of_Z 60)
           (Some "Algebra") (Some "Chapter 3, exercises") PENDING]>
       (bookings Sample.db))
    (reviews Sample.db).

Definition booking5 := "10000000-0000-4000-8000-000000000005".

(** [Sample.db] with one more completed booking of alice with tara *)
Definition busy_db : DB :=
  mkDB (users Sample.db) (tutorProfiles Sample.db)
    (<[booking5 := Sample.booking_row booking5 3000 COMPLETED]>
       (bookings Sample.db))
    (reviews Sample.db).

(** a request served, whole, after the third call of a handler that
    waits *)
Definition meanwhile `{Platform} (other : Request.t) (n : nat) (db : DB) : DB :=
  if (n =? 3)%nat then (ReviewController.createReview other db).2 else db.

End Fixture.

(* ===================================================================== *)
(** ** Proof support *)
(* ===================================================================== *)

#[local] Open Scope list_scope.
#[local] Set Warnings "-clear-no-such-hyp".

(** Unfolds the monad and the client down to matches on the store. *)
Ltac run :=
  unfold try_catch_zod, try_catch, respond, parse,
    prisma.booking.findUnique, prisma.booking.update, prisma.booking.create,
    prisma.booking.findUnique_with_review,
    prisma.user.findUnique, prisma.user.findUnique_with_profile,
    prisma.user.findUnique_email, prisma.user.create,
    prisma.tutorProfile.findUnique, prisma.tutorProfile.update,
    prisma.review.findMany_tutor, prisma.review.create,
    mbind, M_bind, mret, M_ret, get, put, throw in *;
  simpl in *.

Section Parsing.
Context `{Platform}.

Lemma ap_valid {A B} (f : Zod.Parsed (A → B)) (x : Zod.Parsed A) (b : B) :
  f <&> x = Zod.Valid b → ∃ g a, f = Zod.Valid g ∧ x = Zod.Valid a ∧ b = g a.
Proof. destruct f, x; simpl; try discriminate. intros [= <-]. eauto. Qed.

Lemma z_object_valid {A} (input : option json) (shape : list (string * json) → Zod.Parsed A) a :
  z_object input shape = Zod.Valid a →
  ∃ o, input = Some (JObject o) ∧ shape o = Zod.Valid a.
Proof. destruct input as [[]|]; simpl; try discriminate. eauto. Qed.

Lemma z_enum_valid values msg p input s :
  z_enum values msg p input = Zod.Valid s →
  input = Some (JString s) ∧ s ∈ values.
Proof.
  unfold z_enum. destruct input as [[]|]; try discriminate.
  case_bool_decide; [|discriminate]. intros [= ->]. done.
Qed.

Lemma from_issues_valid {A} (a a' : A) l :
  Zod.from_issues a l = Zod.Valid a' → a' = a ∧ l = [].
Proof. destruct l; simpl; [intros [= <-]; done | discriminate]. Qed.

Lemma z_number_valid p checks input n :
  z_number p checks input = Zod.Valid n →
  input = Some (JNumber n) ∧ n ≠ Js.NaN ∧ checks n = [].
Proof.
  unfold z_number. destruct input as [[| |[]| | |]|]; try discriminate.
  all: intros [-> Hl]%from_issues_valid; done.
Qed.

Lemma updateBookingStatusSchema_valid body d :
  BookingController.updateBookingStatusSchema body = Zod.Valid d →
  BookingController.action d ∈ ["approve"; "reject"; "cancel"; "complete"].
Proof.
  unfold BookingController.updateBookingStatusSchema.
  intros (o & _ & Hd)%z_object_valid.
  apply ap_valid in Hd as (g & r & Hg & Hr & ->).
  apply ap_valid in Hg as (g' & a & [= <-] & Ha & ->).
  apply z_enum_valid in Ha as [_ Ha]. exact Ha.
Qed.

End Parsing.

(* ===================================================================== *)
(** ** GET /api/bookings/:id *)
(* ===================================================================== *)

Section Booking_access.
Import BookingController.

(** C7.  For an authenticated request on an existing booking: a requester
    who is not an ADMIN and is neither the student nor the tutor of the
    booking gets 403 with an error document (no booking in it), and the
    store is untouched; the student, the tutor or an ADMIN gets 200 with
    the booking: the stored row itself, with the id, name and e-mail
    address of its student and of its tutor, the hourly rate, subjects
    and bio of the tutor's profile, and the review of the booking if
    there is one. *)
Theorem getBookingById_access (req : Request.t) (db : DB)
    (u : JwtPayload.t) (b : Booking.t) :
  Request.user req = Some u →
  bookings db !! Request.param req = Some b →
  (JwtPayload.role u ≠ "ADMIN"
   ∧ Booking.studentId b ≠ JwtPayload.userId u
   ∧ Booking.tutorId b ≠ JwtPayload.userId u →
   getBookingById req db
   = (Response.mk 403 (Error "Forbidden" "You do not have access to this booking"), db))
  ∧ (JwtPayload.role u = "ADMIN"
     ∨ Booking.studentId b = JwtPayload.userId u
     ∨ Booking.tutorId b = JwtPayload.userId u →
     ∃ review,
       getBookingById req db
       = (Response.mk 200
            (BookingPayload None
               (View.mkBooking b
                  ((λ s, View.mkPerson (User.id s) (User.name s) (Some (User.email s)))
                     <$> users db !! Booking.studentId b)
                  ((λ t, View.mkPerson (User.id t) (User.name t) (Some (User.email t)))
                     <$> users db !! Booking.tutorId b)
                  (Some ((λ p, View.mkProfile (TutorProfile.hourlyRate p)
                                 (TutorProfile.subjects p)
                                 (Some (TutorProfile.bio p)))
                           <$> tutorProfiles db !! Booking.tutorId b))
                  (Some review))), db)
       ∧ (∀ r, review = Some r →
               r ∈ reviews db ∧ Review.bookingId r = Booking.id b)
       ∧ (review = None → ¬ reviewed (Booking.id b) db)).
Proof.
  intros Hu Hb. unfold getBookingById. rewrite Hu. run. rewrite Hb. simpl.
  split.
  - intros (Hadmin & Hstudent & Htutor).
    rewrite !bool_decide_eq_false_2 by assumption. reflexivity.
  - intros Hyes.
    exists (find (λ r, bool_decide (Review.bookingId r = Booking.id b)) (reviews db)).
    split_and!.
    + destruct Hyes as [Hyes | [Hyes | Hyes]];
        rewrite (bool_decide_eq_true_2 _ Hyes);
        simpl; rewrite ?andb_false_r; reflexivity.
    + intros r [Hin Hid]%find_some. split; [by apply list_elem_of_In|].
      by apply bool_decide_eq_true in Hid.
    + intros Hnone (r & Hin & Hid).
      apply list_elem_of_In in Hin.
      pose proof (find_none _ _ Hnone r Hin) as Hno. simpl in Hno.
      by apply bool_decide_eq_false in Hno.
Qed.

End Booking_access.

(** bob, a student with no part in booking 3, is refused; alice, its
    student, reads it. *)
Lemma getBookingById_access_witness :
  Response.status
    (BookingController.getBookingById
       (Request.mk (Sample.as_user Sample.bob "STUDENT") Sample.booking3 None)
       Sample.db).1 = 403%Z
  ∧ Response.status
      (BookingController.getBookingById
         (Request.mk (Sample.as_user Sample.alice "STUDENT") Sample.booking3 None)
         Sample.db).1 = 200%Z.
Proof.
  split.
  - pose proof
      (getBookingById_access
         (Request.mk (Sample.as_user Sample.bob "STUDENT") Sample.booking3 None)
         Sample.db _ _ eq_refl eq_refl) as [Hdenied _].
    rewrite Hdenied; [reflexivity|].
    vm_compute. repeat split; discriminate.
  - pose proof
      (getBookingById_access
         (Request.mk (Sample.as_user Sample.alice "STUDENT") Sample.booking3 None)
         Sample.db _ _ eq_refl eq_refl) as [_ Hgranted].
    destruct Hgranted as (review & Hout & _); [right; left; reflexivity|].
    rewrite Hout. reflexivity.
Defined.

(* ===================================================================== *)
(** ** PATCH /api/bookings/:id/status *)
(* ===================================================================== *)

Section Booking_status.
Context `{Platform}.
Import BookingController.

(** Case analysis shared by the results on [updateBookingStatus]: who
    asks, in which state the booking is, and whether its time has come. *)
Ltac by_cases u b now Hb :=
  destruct (bool_decide (Booking.tutorId b = JwtPayload.userId u)) eqn:Htutor;
  try destruct (bool_decide (Booking.studentId b = JwtPayload.userId u)) eqn:Hstudent;
  destruct (Booking.status b) eqn:Hstatus; simpl;
  try (destruct (Z.ltb_spec now (Booking.dateTime b)); simpl);
  rewrite ?Hb; simpl.

(** C1, as the handler has it.  For an authenticated request with a valid
    action on an existing booking:
    - the answer is 200 exactly when the requester is entitled to the
      action (the tutor; for a cancellation the student or the tutor), the
      (status, action) pair is one of the four edges, and a completion is
      not asked before the scheduled time;
    - a 200 rewrites that booking alone, to the target of the edge;
    - a requester who is not entitled gets 403, whatever the status;
    - an entitled requester off the graph gets 400;
    - 403 and 400 leave the store as it was. *)
Theorem updateBookingStatus_transitions (now : Z) (req : Request.t) (db : DB)
    (u : JwtPayload.t) (b : Booking.t) (d : UpdateBookingStatusInput) :
  Request.user req = Some u →
  bookings db !! Request.param req = Some b →
  updateBookingStatusSchema (Request.body req) = Zod.Valid d →
  let out := updateBookingStatus now req db in
  (Response.status out.1 = 200%Z ↔
     entitled (action d) u b = true
     ∧ is_Some (spec_edge (Booking.status b) (action d))
     ∧ (action d = "complete" → (Booking.dateTime b ≤ now)%Z))
  ∧ (Response.status out.1 = 200%Z →
       ∃ b', out.2 = mkDB (users db) (tutorProfiles db)
                       (<[Request.param req := b']> (bookings db)) (reviews db)
             ∧ spec_edge (Booking.status b) (action d) = Some (Booking.status b')
             ∧ Booking.studentId b' = Booking.studentId b
             ∧ Booking.tutorId b' = Booking.tutorId b
             ∧ Booking.dateTime b' = Booking.dateTime b)
  ∧ (entitled (action d) u b = false →
       Response.status out.1 = 403%Z ∧ out.2 = db)
  ∧ (entitled (action d) u b = true →
     spec_edge (Booking.status b) (action d) = None →
       Response.status out.1 = 400%Z ∧ out.2 = db).
Proof.
  intros Hu Hb Hd out. subst out. unfold updateBookingStatus.
  rewrite Hu. run. rewrite Hd. simpl. rewrite Hb. simpl.
  apply updateBookingStatusSchema_valid in Hd.
  unfold switch_action, entitled, spec_edge.
  rewrite !elem_of_cons in Hd.
  destruct Hd as [-> | [-> | [-> | [-> | Hd]]]];
    [ | | | | by apply elem_of_nil in Hd]; simpl.
  all: by_cases u b now Hb.
  all: repeat split; try done; try (intros; discriminate).
  all: try (intros (_ & [? ?] & _); discriminate).
  all: try (intros (_ & _ & Hlate); specialize (Hlate eq_refl); lia).
  all: try (eexists; split; [reflexivity|]; simpl; done).
  all: try (eexists; done).
  all: try (intros; lia).
Qed.

(** C4.  A completion asked by the tutor of a CONFIRMED booking succeeds
    exactly when the current time has reached the scheduled time; asked
    earlier it is answered 400 and the store is untouched; otherwise the
    booking, and nothing else, becomes COMPLETED. *)
Theorem complete_after_scheduled_time (now : Z) (req : Request.t) (db : DB)
    (u : JwtPayload.t) (b : Booking.t) (d : UpdateBookingStatusInput) :
  Request.user req = Some u →
  bookings db !! Request.param req = Some b →
  updateBookingStatusSchema (Request.body req) = Zod.Valid d →
  action d = "complete" →
  Booking.tutorId b = JwtPayload.userId u →
  Booking.status b = CONFIRMED →
  let out := updateBookingStatus now req db in
  (Response.status out.1 = 200%Z ↔ (Booking.dateTime b ≤ now)%Z)
  ∧ ((now < Booking.dateTime b)%Z →
       out = (Response.mk 400
                (Error "Bad Request"
                   "Cannot mark booking as completed before the scheduled time"),
              db))
  ∧ ((Booking.dateTime b ≤ now)%Z →
       out.2 = mkDB (users db) (tutorProfiles db)
                 (<[Request.param req :=
                      Booking.mk (Booking.id b) (Booking.studentId b)
                        (Booking.tutorId b) (Booking.dateTime b)
                        (Booking.duration b) (Booking.subject b)
                        (Booking.notes b) COMPLETED]> (bookings db))
                 (reviews db)).
Proof.
  intros Hu Hb Hd Haction Htutor Hstatus out. subst out.
  unfold updateBookingStatus. rewrite Hu. run. rewrite Hd. simpl.
  rewrite Hb. simpl. unfold switch_action. rewrite Haction. simpl.
  rewrite (bool_decide_eq_true_2 _ Htutor), Hstatus. simpl.
  destruct (Z.ltb_spec now (Booking.dateTime b)); simpl; rewrite ?Hb; simpl.
  - repeat split; try done; intros; lia.
  - repeat split; try done; intros; lia.
Qed.

End Booking_status.

(** alice is the student of booking 4, which is PENDING, and asks for its
    completion: the pair is off the graph, yet the answer is 403, not
    400. *)
Lemma transitions_as_stated_fails :
  ¬ transitions_as_stated (H := Sample.platform) 7000
      (Request.mk (Sample.as_user Sample.alice "STUDENT") Sample.booking4
         (Sample.action_body "complete"))
      Sample.db.
Proof.
  intros Hclaim.
  destruct (Hclaim _ _ _ eq_refl eq_refl eq_refl) as [_ Hoff].
  destruct (Hoff eq_refl) as [H400 _].
  vm_compute in H400. discriminate.
Qed.

(** tara approves booking 4, of which she is the tutor. *)
Lemma updateBookingStatus_transitions_witness :
  Response.status
    (BookingController.updateBookingStatus (H := Sample.platform) 7000
       (Request.mk (Sample.as_user Sample.tara "TUTOR") Sample.booking4
          (Sample.action_body "approve"))
       Sample.db).1 = 200%Z.
Proof.
  apply (updateBookingStatus_transitions (H := Sample.platform) 7000
           (Request.mk (Sample.as_user Sample.tara "TUTOR") Sample.booking4
              (Sample.action_body "approve"))
           Sample.db _ _ _ eq_refl eq_refl eq_refl).
  vm_compute. repeat split; [eexists; reflexivity | discriminate].
Defined.

(** tara completes booking 3 (scheduled at 5000) at time 7000, and is
    refused at time 4000. *)
Lemma complete_after_scheduled_time_witness :
  Response.status
    (BookingController.updateBookingStatus (H := Sample.platform) 7000
       (Request.mk (Sample.as_user Sample.tara "TUTOR") Sample.booking3
          (Sample.action_body "complete"))
       Sample.db).1 = 200%Z
  ∧ Response.status
      (BookingController.updateBookingStatus (H := Sample.platform) 4000
         (Request.mk (Sample.as_user Sample.tara "TUTOR") Sample.booking3
            (Sample.action_body "complete"))
         Sample.db).1 = 400%Z.
Proof.
  split.
  - apply (complete_after_scheduled_time (H := Sample.platform) 7000
             (Request.mk (Sample.as_user Sample.tara "TUTOR") Sample.booking3
                (Sample.action_body "complete"))
             Sample.db _ _ _ eq_refl eq_refl eq_refl eq_refl eq_refl eq_refl).
    vm_compute. discriminate.
  - destruct (complete_after_scheduled_time (H := Sample.platform) 4000
             (Request.mk (Sample.as_user Sample.tara "TUTOR") Sample.booking3
                (Sample.action_body "complete"))
             Sample.db _ _ _ eq_refl eq_refl eq_refl eq_refl eq_refl eq_refl)
      as (_ & Hearly & _).
    rewrite Hearly; [reflexivity | reflexivity].
Defined.

(* ===================================================================== *)
(** ** POST /api/bookings *)
(* ===================================================================== *)

Section Booking_creation.
Context `{Platform}.
Import BookingController.

Lemma new_id_fresh {A} (table : gmap string A) : table !! prisma.new_id table = None.
Proof.
  apply not_elem_of_dom. unfold prisma.new_id.
  apply fresh_string_of_set_fresh.
Qed.

(** C10.  For an authenticated request with a valid body:
    - a target that does not exist, is not a TUTOR or has no tutor
      profile is answered 404 and nothing is stored;
    - a BANNED tutor (with a profile) is answered 400, "This tutor is not
      available", and nothing is stored;
    - the answer is 201 exactly for an existing TUTOR with a profile who
      is not BANNED, and then one PENDING booking from the requester to
      that tutor is added under a new identifier. *)
Theorem createBooking_target (req : Request.t) (db : DB)
    (u : JwtPayload.t) (d : CreateBookingInput) :
  Request.user req = Some u →
  createBookingSchema (Request.body req) = Zod.Valid d →
  let out := createBooking req db in
  let target := users db !! tutorId d in
  let profile := tutorProfiles db !! tutorId d in
  (target = None ∨ (∃ t, target = Some t ∧ User.role t ≠ TUTOR) ∨ profile = None →
     out = (Response.mk 404 (Error "Not Found" "Tutor not found"), db))
  ∧ (∀ t, target = Some t → User.role t = TUTOR → is_Some profile →
          User.status t = BANNED →
     out = (Response.mk 400 (Error "Bad Request" "This tutor is not available"), db))
  ∧ (Response.status out.1 = 201%Z ↔
       ∃ t, target = Some t ∧ User.role t = TUTOR ∧ is_Some profile
            ∧ User.status t ≠ BANNED)
  ∧ (Response.status out.1 = 201%Z →
       ∃ b, bookings db !! Booking.id b = None
            ∧ out.2 = mkDB (users db) (tutorProfiles db)
                        (<[Booking.id b := b]> (bookings db)) (reviews db)
            ∧ Booking.status b = PENDING
            ∧ Booking.studentId b = JwtPayload.userId u
            ∧ Booking.tutorId b = tutorId d)
  ∧ (Response.status out.1 ≠ 201%Z → out.2 = db).
Proof.
  intros Hu Hd out target profile. subst out target profile.
  unfold createBooking. rewrite Hu. run. rewrite Hd. simpl.
  destruct (users db !! tutorId d) as [t|] eqn:Htarget; simpl;
    [destruct (tutorProfiles db !! tutorId d) as [p|] eqn:Hprofile; simpl;
     [destruct (bool_decide (User.role t = TUTOR)) eqn:Hrole; simpl;
      [destruct (bool_decide (User.status t = BANNED)) eqn:Hban; simpl|]|]|].
  all: try apply bool_decide_eq_true in Hrole.
  all: try apply bool_decide_eq_false in Hrole.
  all: try apply bool_decide_eq_true in Hban.
  all: try apply bool_decide_eq_false in Hban.
  all: repeat split; try done; try (intros; discriminate).
  all: try (intros [? | [(? & [= <-] & ?) | ?]]; done).
  all: try (intros (? & [= <-] & ? & ? & ?); done).
  all: try (intros (? & ? & ? & [] & ?); done).
  all: try (intros ? [= <-]; intros; congruence).
  - intros _. exists t. done.
  - intros _.
    exists (Booking.mk (prisma.new_id (bookings db)) (JwtPayload.userId u)
              (tutorId d) (Date_parse (dateTime d)) (duration d) (subject d)
              (notes d) Booking_status_default).
    simpl. split; [apply new_id_fresh | done].
Qed.

End Booking_creation.

(** alice books tara; a booking with tom, who is banned, or with bob, who
    is no tutor, is refused. *)
Lemma createBooking_target_witness :
  Response.status
    (BookingController.createBooking (H := Sample.platform)
       (Request.mk (Sample.as_user Sample.alice "STUDENT") ""
          (Sample.booking_body Sample.tara))
       Sample.db).1 = 201%Z
  ∧ Response.status
      (BookingController.createBooking (H := Sample.platform)
         (Request.mk (Sample.as_user Sample.alice "STUDENT") ""
            (Sample.booking_body Sample.tom))
         Sample.db).1 = 400%Z
  ∧ Response.status
      (BookingController.createBooking (H := Sample.platform)
         (Request.mk (Sample.as_user Sample.alice "STUDENT") ""
            (Sample.booking_body Sample.bob))
         Sample.db).1 = 404%Z.
Proof.
  split; [|split].
  - apply (createBooking_target (H := Sample.platform)
             (Request.mk (Sample.as_user Sample.alice "STUDENT") ""
                (Sample.booking_body Sample.tara))
             Sample.db _ _ eq_refl eq_refl).
    eexists. split; [reflexivity|]. vm_compute.
    repeat split; [eexists; reflexivity | discriminate].
  - destruct (createBooking_target (H := Sample.platform)
             (Request.mk (Sample.as_user Sample.alice "STUDENT") ""
                (Sample.booking_body Sample.tom))
             Sample.db _ _ eq_refl eq_refl) as (_ & Hbanned & _).
    erewrite Hbanned; [reflexivity | reflexivity | reflexivity | | reflexivity].
    eexists; reflexivity.
  - destruct (createBooking_target (H := Sample.platform)
             (Request.mk (Sample.as_user Sample.alice "STUDENT") ""
                (Sample.booking_body Sample.bob))
             Sample.db _ _ eq_refl eq_refl) as (Hmissing & _).
    rewrite Hmissing; [reflexivity|].
    right; left. eexists. split; [reflexivity|]. vm_compute. discriminate.
Defined.

(* ===================================================================== *)
(** ** POST /api/reviews *)
(* ===================================================================== *)

Section Review_creation.
Context `{Platform}.
Import ReviewController.

Lemma find_review_reviewed id db :
  is_Some (find (λ r, bool_decide (Review.bookingId r = id)) (reviews db)) ↔ reviewed id db.
Proof.
  unfold reviewed. split.
  - intros [r Hr]. apply find_some in Hr as [Hin Hid].
    exists r. split; [by apply list_elem_of_In | by apply bool_decide_eq_true in Hid].
  - intros (r & Hin & Hid).
    destruct (find _ _) eqn:Hfind; [eauto|].
    apply list_elem_of_In in Hin.
    pose proof (find_none _ _ Hfind r Hin) as Hno. simpl in Hno.
    apply bool_decide_eq_false in Hno. done.
Qed.

Lemma integer_in_range n :
  Js.isInteger n = true → Js.lt n (Js.of_Z 1) = false → Js.gt n (Js.of_Z 5) = false →
  ∃ q, n = Js.Num q ∧ (q == inject_Z (Js.to_Z n))%Q ∧ (1 ≤ Js.to_Z n ≤ 5)%Z.
Proof.
  destruct n as [|s|q]; simpl; try discriminate.
  intros Hint Hlo Hhi. exists q. split; [done|].
  apply Z.eqb_eq in Hint. apply negb_false_iff, Qle_bool_iff in Hlo, Hhi.
  unfold Qle in Hlo, Hhi. simpl in Hlo, Hhi.
  destruct q as [a c]. simpl in *. unfold Qeq. simpl.
  pose proof (Z.div_mod a (Z.pos c) ltac:(lia)) as Hdm.
  rewrite Hint in Hdm.
  split; [lia|]. nia.
Qed.

Lemma createReviewSchema_valid body d :
  createReviewSchema body = Zod.Valid d →
  ∃ o, body = Some (JObject o)
       ∧ member "rating" o = Some (JNumber (rating d))
       ∧ ∃ q, rating d = Js.Num q ∧ (q == inject_Z (Js.to_Z (rating d)))%Q
              ∧ (1 ≤ Js.to_Z (rating d) ≤ 5)%Z.
Proof.
  unfold createReviewSchema.
  intros (o & -> & Hd)%z_object_valid. exists o. split; [done|].
  apply ap_valid in Hd as (g & c & Hg & _ & ->).
  apply ap_valid in Hg as (g' & n & Hg' & Hn & ->).
  apply ap_valid in Hg' as (g'' & i & [= <-] & _ & ->). simpl.
  apply z_number_valid in Hn as (Hm & _ & Hchecks).
  split; [done|].
  apply app_eq_nil in Hchecks as [Hint Hchecks].
  apply app_eq_nil in Hchecks as [Hlo Hhi].
  unfold check_int, check in *.
  destruct (Js.isInteger n) eqn:?; [|discriminate].
  destruct (Js.lt n (Js.of_Z 1)) eqn:?; [discriminate|].
  destruct (Js.gt n (Js.of_Z 5)) eqn:?; [discriminate|].
  by apply integer_in_range.
Qed.

Lemma sum_ratings_foldr l :
  sum_ratings l = foldr Z.add 0%Z (Review.rating <$> l).
Proof.
  unfold sum_ratings.
  assert (∀ a, fold_left (λ sum r, (sum + Review.rating r)%Z) l a
               = (a + foldr Z.add 0 (Review.rating <$> l))%Z) as Hgen.
  { induction l as [|r l IH]; intros a; csimpl; [lia|]. rewrite IH. lia. }
  rewrite Hgen. lia.
Qed.

Lemma div_mean (l : list Review.t) :
  l ≠ [] →
  ∃ q, Js.div (sum_ratings l) (length l) = Js.Num q
       ∧ (q == arithmetic_mean (Review.rating <$> l))%Q.
Proof.
  destruct l as [|r l]; [done|]. intros _.
  eexists. split; [reflexivity|].
  unfold arithmetic_mean. rewrite length_fmap, <- sum_ratings_foldr.
  rewrite Qmake_Qdiv.
  replace (Z.pos (Pos.of_nat (length (r :: l)))) with (Z.of_nat (length (r :: l)))
    by (simpl length; lia).
  reflexivity.
Qed.

Lemma createReview_unfold req db u d :
  Request.user req = Some u →
  createReviewSchema (Request.body req) = Zod.Valid d →
  createReview req db =
  match bookings db !! bookingId d with
  | None => (Response.mk 404 (Error "Not Found" "Booking not found"), db)
  | Some b =>
      if negb (bool_decide (Booking.studentId b = JwtPayload.userId u)) then
        (Response.mk 403 (Error "Forbidden" "You can only review your own bookings"), db)
      else if negb (bool_decide (Booking.status b = COMPLETED)) then
        (Response.mk 400 (Error "Bad Request" "You can only review completed bookings"), db)
      else if bool_decide (is_Some (find (λ r, bool_decide (Review.bookingId r = bookingId d)) (reviews db))) then
        (Response.mk 400 (Error "Bad Request" "You have already reviewed this booking"), db)
      else
        let r := new_review db u d b in
        let stored := mkDB (users db) (tutorProfiles db) (bookings db) (reviews db ++ [r]) in
        let rs := reviews_of (Booking.tutorId b) stored in
        match tutorProfiles db !! Booking.tutorId b with
        | None => (Response.mk 500 (Error "Internal Server Error" "Failed to create review"), stored)
        | Some p =>
            (Response.mk 201
               (ReviewPayload "Review created successfully" (review_view true false stored r)),
             mkDB (users db)
               (<[Booking.tutorId b :=
                    TutorProfile.mk (TutorProfile.userId p) (TutorProfile.bio p)
                      (TutorProfile.hourlyRate p) (TutorProfile.subjects p)
                      (Js.div (sum_ratings rs) (length rs))
                      (Z.of_nat (length rs))]> (tutorProfiles db))
               (bookings db) (reviews db ++ [r]))
        end
  end.
Proof.
  intros Hu Hd. unfold createReview. rewrite Hu. run. rewrite Hd. simpl.
  destruct (bookings db !! bookingId d) as [b|]; simpl; [|done].
  destruct (bool_decide (Booking.studentId b = _)); simpl; [|done].
  destruct (bool_decide (Booking.status b = _)); simpl; [|done].
  destruct (bool_decide (is_Some _)); simpl; [done|].
  unfold reviews_of. simpl.
  destruct (tutorProfiles db !! Booking.tutorId b); done.
Qed.

(** C2.  For an authenticated request with a valid body, the guards of
    [createReview] answer in this order: 404 when the booking does not
    exist, 403 when it is not the requester's, 400 when it is not
    COMPLETED, 400 when it already has a review; each of these answers
    leaves the whole store (reviews and tutor profiles included) as it
    was.  A review is appended exactly when none of the four applies, and
    it is the review of that booking by that student. *)
Theorem createReview_guards (req : Request.t) (db : DB)
    (u : JwtPayload.t) (d : CreateReviewInput) :
  Request.user req = Some u →
  createReviewSchema (Request.body req) = Zod.Valid d →
  let out := createReview req db in
  let found := bookings db !! bookingId d in
  (found = None →
     out = (Response.mk 404 (Error "Not Found" "Booking not found"), db))
  ∧ (∀ b, found = Some b → Booking.studentId b ≠ JwtPayload.userId u →
     out = (Response.mk 403 (Error "Forbidden" "You can only review your own bookings"), db))
  ∧ (∀ b, found = Some b → Booking.studentId b = JwtPayload.userId u →
          Booking.status b ≠ COMPLETED →
     out = (Response.mk 400 (Error "Bad Request" "You can only review completed bookings"), db))
  ∧ (∀ b, found = Some b → Booking.studentId b = JwtPayload.userId u →
          Booking.status b = COMPLETED → reviewed (bookingId d) db →
     out = (Response.mk 400 (Error "Bad Request" "You have already reviewed this booking"), db))
  ∧ ((∃ r, reviews out.2 = reviews db ++ [r]) ↔
       ∃ b, found = Some b ∧ Booking.studentId b = JwtPayload.userId u
            ∧ Booking.status b = COMPLETED ∧ ¬ reviewed (bookingId d) db)
  ∧ (∀ r, reviews out.2 = reviews db ++ [r] →
       Review.bookingId r = bookingId d
       ∧ Review.studentId r = JwtPayload.userId u
       ∧ (1 ≤ Review.rating r ≤ 5)%Z
       ∧ ∃ b, found = Some b ∧ Review.tutorId r = Booking.tutorId b).
Proof.
  intros Hu Hd out found. subst out found.
  rewrite (createReview_unfold _ _ _ _ Hu Hd).
  assert (∀ r : Review.t, reviews db = reviews db ++ [r] → False) as Hgrow.
  { intros r Heq. apply (f_equal length) in Heq.
    rewrite length_app in Heq. simpl in Heq. lia. }
  apply createReviewSchema_valid in Hd as (o & _ & _ & q & _ & _ & Hrange).
  pose proof (find_review_reviewed (bookingId d) db) as Hfind.
  destruct (bookings db !! bookingId d) as [b|] eqn:Hb; simpl;
    [|split_and!; naive_solver].
  destruct (bool_decide (Booking.studentId b = _)) eqn:Hs; simpl;
    [apply bool_decide_eq_true in Hs | apply bool_decide_eq_false in Hs];
    [|split_and!; naive_solver].
  destruct (bool_decide (Booking.status b = _)) eqn:Hc; simpl;
    [apply bool_decide_eq_true in Hc | apply bool_decide_eq_false in Hc];
    [|split_and!; naive_solver].
  destruct (bool_decide (is_Some _)) eqn:Hr; simpl;
    [apply bool_decide_eq_true in Hr | apply bool_decide_eq_false in Hr];
    rewrite Hfind in Hr; [split_and!; naive_solver|].
  destruct (tutorProfiles db !! Booking.tutorId b) as [p|]; simpl.
  all: split_and!; try naive_solver.
  all: try (split; [naive_solver|]; intros _; by eexists).
  all: intros r [_ <-]%app_inj_tail; simpl;
       split_and!; [done | done | lia | lia | by exists b].
Qed.

Lemma createReview_201 req db :
  Response.status (createReview req db).1 = 201%Z →
  ∃ u d, Request.user req = Some u
         ∧ createReviewSchema (Request.body req) = Zod.Valid d.
Proof.
  unfold createReview.
  destruct (Request.user req) as [u|]; run; [|discriminate].
  destruct (createReviewSchema (Request.body req)) as [d|e]; simpl;
    [eauto | discriminate].
Qed.

(** A call that runs alone, with no other request served between its
    calls to the client: after a call answered 201 the store holds one
    more review, and the profile of its tutor carries the arithmetic mean
    of the ratings of all reviews of that tutor, the new one among them,
    and their number. *)
Theorem createReview_average (req : Request.t) (db : DB) :
  Response.status (createReview req db).1 = 201%Z →
  let out := createReview req db in
  ∃ r p,
    reviews out.2 = reviews db ++ [r]
    ∧ tutorProfiles out.2 !! Review.tutorId r = Some p
    ∧ r ∈ reviews_of (Review.tutorId r) out.2
    ∧ (∃ q, TutorProfile.rating p = Js.Num q
            ∧ (q == arithmetic_mean
                      (Review.rating <$> reviews_of (Review.tutorId r) out.2))%Q)
    ∧ TutorProfile.reviewCount p
      = Z.of_nat (length (reviews_of (Review.tutorId r) out.2)).
Proof.
  intros H201 out. subst out.
  destruct (createReview_201 _ _ H201) as (u & d & Hu & Hd).
  rewrite (createReview_unfold _ _ _ _ Hu Hd) in *.
  destruct (bookings db !! bookingId d) as [b|]; [|discriminate].
  destruct (negb (bool_decide (Booking.studentId b = _))); [discriminate|].
  destruct (negb (bool_decide (Booking.status b = _))); [discriminate|].
  destruct (bool_decide (is_Some _)); [discriminate|].
  destruct (tutorProfiles db !! Booking.tutorId b) as [p|]; [|discriminate].
  simpl. eexists (new_review db u d b), _. simpl.
  assert (new_review db u d b
          ∈ reviews_of (Booking.tutorId b)
              (mkDB (users db) (tutorProfiles db) (bookings db)
                 (reviews db ++ [new_review db u d b]))) as Hin.
  { unfold reviews_of. simpl. apply list_elem_of_filter. split; [done|].
    apply elem_of_app. right. by apply list_elem_of_singleton. }
  split_and!; [done | apply lookup_insert_eq | exact Hin | | done].
  simpl. apply div_mean. intros Hnil. unfold reviews_of in *. simpl in *.
  rewrite Hnil in Hin. by apply elem_of_nil in Hin.
Qed.

Lemma ap_invalid_r {A B} (f : Zod.Parsed (A → B)) (x : Zod.Parsed A) e :
  x = Zod.Invalid e →
  ∃ e', f <&> x = Zod.Invalid e' ∧ Zod.errors e ⊆ Zod.errors e'.
Proof.
  intros ->. destruct f as [g|e1]; simpl; eexists; split; try reflexivity.
  unfold Zod.errors at 2. simpl. intros i Hi.
  apply elem_of_cons. right. apply elem_of_app. by right.
Qed.

Lemma ap_invalid_l {A B} (f : Zod.Parsed (A → B)) (x : Zod.Parsed A) e :
  f = Zod.Invalid e →
  ∃ e', f <&> x = Zod.Invalid e' ∧ Zod.errors e ⊆ Zod.errors e'.
Proof.
  intros ->. destruct x as [a|e2]; simpl; eexists; split; try reflexivity.
  unfold Zod.errors. simpl. intros i [->|Hi]%elem_of_cons.
  - by left.
  - right. apply elem_of_app. by left.
Qed.

(** A [rating] member that is not acceptable leaves an issue on the path
    [rating]. *)
Lemma rating_rejected (input : option json) :
  ¬ acceptable_rating input →
  ∃ e, z_number ["rating"]
         (λ n, check_int ["rating"] n
               ++ check (negb (Js.lt n (Js.of_Z 1))) Zod.too_small ["rating"]
                    "Rating must be at least 1"
               ++ check (negb (Js.gt n (Js.of_Z 5))) Zod.too_big ["rating"]
                    "Rating must be at most 5") input = Zod.Invalid e
       ∧ Forall (λ i, Zod.path i = ["rating"]) (Zod.errors e).
Proof.
  intros Hbad.
  assert (∀ i, Forall (λ i, Zod.path i = ["rating"])
                 (Zod.errors (Zod.single (builtin Zod.invalid_type ["rating"] i)))) as Htype.
  { intros i. repeat constructor. }
  destruct input as [[| |n| | |]|]; try (eexists; split; [reflexivity|apply Htype]).
  destruct n as [|s|q]; try (eexists; split; [reflexivity|apply Htype]).
  - unfold z_number. simpl. destruct s; simpl;
      eexists; (split; [reflexivity|]); repeat constructor.
  - unfold z_number. cbv beta. unfold check_int, check.
    destruct (Js.isInteger (Js.Num q)) eqn:Hint;
    destruct (Js.lt (Js.Num q) (Js.of_Z 1)) eqn:Hlo;
    destruct (Js.gt (Js.Num q) (Js.of_Z 5)) eqn:Hhi;
    cbn [negb app Zod.from_issues];
    try (eexists; (split; [reflexivity|]); repeat constructor).
    exfalso. apply Hbad.
    destruct (integer_in_range _ Hint Hlo Hhi) as (q' & [= <-] & Hq & Hr).
    exists q, (Js.to_Z (Js.Num q)). done.
Qed.

Lemma createReview_invalid req db u e :
  Request.user req = Some u →
  createReviewSchema (Request.body req) = Zod.Invalid e →
  createReview req db
  = (Response.mk 400
       (ValidationError "Validation Error" (Zod.message (Zod.issue0 e)) (Zod.errors e)),
     db).
Proof. intros Hu He. unfold createReview. rewrite Hu. run. by rewrite He. Qed.

(** C6.  For an authenticated request, a [rating] that is not an integer
    from 1 to 5 (out of range, fractional, not a number, or missing) is
    answered 400 with the validation document, one of whose issues, when
    the body is an object, names the member; nothing is stored.  Whenever
    a review is stored, the body carried an integer from 1 to 5 and that
    is the rating stored. *)
Theorem createReview_rating (req : Request.t) (db : DB) (u : JwtPayload.t) :
  Request.user req = Some u →
  let out := createReview req db in
  (¬ acceptable_rating (body_member "rating" req) →
     ∃ e, createReviewSchema (Request.body req) = Zod.Invalid e
          ∧ out = (Response.mk 400
                     (ValidationError "Validation Error"
                        (Zod.message (Zod.issue0 e)) (Zod.errors e)), db)
          ∧ ((∃ o, Request.body req = Some (JObject o)) →
             ∃ i, i ∈ Zod.errors e ∧ Zod.path i = ["rating"]))
  ∧ (∀ r, reviews out.2 = reviews db ++ [r] →
       ∃ q, body_member "rating" req = Some (JNumber (Js.Num q))
            ∧ (q == inject_Z (Review.rating r))%Q
            ∧ (1 ≤ Review.rating r ≤ 5)%Z).
Proof.
  intros Hu out. subst out. split.
  - intros Hbad. unfold body_member in Hbad.
    destruct (Request.body req) as [body|] eqn:Hbody.
    2: { eexists. split; [reflexivity|]. split.
         - apply (createReview_invalid _ _ _ _ Hu). by rewrite Hbody.
         - intros [o [=]]. }
    destruct body as [| | | | |o].
    1-5: eexists; (split; [reflexivity|]); split;
         [apply (createReview_invalid _ _ _ _ Hu); by rewrite Hbody
         | intros [o [=]]].
    destruct (rating_rejected _ Hbad) as (e2 & He2 & Hpath).
    unfold createReviewSchema, z_object.
    edestruct (ap_invalid_r
                 (Zod.Valid mkCreateReviewInput
                  <&> z_string ["bookingId"]
                        (λ s, check (zod_uuid s) Zod.invalid_string ["bookingId"]
                                "Invalid booking ID")
                        (member "bookingId" o)) _ e2 He2) as (e' & He' & Hsub').
    edestruct (ap_invalid_l _
                 (z_optional (z_string ["comment"] no_checks) (member "comment" o))
                 e' He') as (e'' & He'' & Hsub'').
    exists e''. split; [exact He''|]. split.
    + apply (createReview_invalid _ _ _ _ Hu). rewrite Hbody. exact He''.
    + intros _. exists (Zod.issue0 e2). split.
      * apply Hsub'', Hsub'. by left.
      * by apply Forall_cons_1 in Hpath as [? _].
  - intros r Hr.
    destruct (createReviewSchema (Request.body req)) as [d|e] eqn:Hd.
    2: { rewrite (createReview_invalid _ _ _ _ Hu Hd) in Hr. simpl in Hr.
         apply (f_equal length) in Hr. rewrite length_app in Hr. simpl in Hr. lia. }
    rewrite (createReview_unfold _ _ _ _ Hu Hd) in Hr.
    apply createReviewSchema_valid in Hd as (o & Hbody & Hm & q & Hq & Heq & Hrange).
    assert (Review.rating r = Js.to_Z (rating d)) as ->.
    { destruct (bookings db !! bookingId d) as [b|]; simpl in Hr;
        [|apply (f_equal length) in Hr; rewrite length_app in Hr; simpl in Hr; lia].
      destruct (negb (bool_decide (Booking.studentId b = _))); simpl in Hr;
        [apply (f_equal length) in Hr; rewrite length_app in Hr; simpl in Hr; lia|].
      destruct (negb (bool_decide (Booking.status b = _))); simpl in Hr;
        [apply (f_equal length) in Hr; rewrite length_app in Hr; simpl in Hr; lia|].
      destruct (bool_decide (is_Some _)); simpl in Hr;
        [apply (f_equal length) in Hr; rewrite length_app in Hr; simpl in Hr; lia|].
      destruct (tutorProfiles db !! Booking.tutorId b); simpl in Hr;
        apply app_inj_tail in Hr as [_ <-]; done. }
    exists q. unfold body_member. rewrite Hbody, Hm.
    split_and!; [by rewrite Hq | exact Heq | lia | lia].
Qed.
(** [createReview] keeps every stored rating between 1 and 5. *)
Lemma createReview_keeps_ratings_in_range req db :
  ratings_in_range db → ratings_in_range (createReview req db).2.
Proof.
  intros Hdb.
  destruct (Request.user req) as [u|] eqn:Hu;
    [|unfold createReview; rewrite Hu; exact Hdb].
  destruct (createReviewSchema (Request.body req)) as [d|e] eqn:Hd;
    [|by rewrite (createReview_invalid _ _ _ _ Hu Hd)].
  rewrite (createReview_unfold _ _ _ _ Hu Hd).
  apply createReviewSchema_valid in Hd as (o & _ & _ & q & _ & _ & Hrange).
  destruct (bookings db !! bookingId d) as [b|]; [|done].
  destruct (negb (bool_decide (Booking.studentId b = _))); [done|].
  destruct (negb (bool_decide (Booking.status b = _))); [done|].
  destruct (bool_decide (is_Some _)); [done|].
  destruct (tutorProfiles db !! Booking.tutorId b); simpl;
    unfold ratings_in_range; simpl; apply Forall_app; (split; [exact Hdb|]);
    repeat constructor; simpl; lia.
Qed.

End Review_creation.

(** alice reviews booking 2; booking 1 has its review already, booking 3
    is not completed, bob does not own booking 2, and the last booking
    does not exist. *)
Lemma createReview_guards_witness :
  let post := λ who booking,
    ReviewController.createReview (H := Sample.platform)
      (Request.mk (Sample.as_user who "STUDENT") ""
         (Sample.review_body booking (Js.of_Z 5))) Sample.db in
  (∃ r, reviews (post Sample.alice Sample.booking2).2 = reviews Sample.db ++ [r])
  ∧ Response.status (post Sample.alice Sample.booking1).1 = 400%Z
  ∧ Response.status (post Sample.alice Sample.booking3).1 = 400%Z
  ∧ Response.status (post Sample.bob Sample.booking2).1 = 403%Z
  ∧ Response.status (post Sample.alice "10000000-0000-4000-8000-000000000009").1 = 404%Z.
Proof.
  intros post. subst post. cbv beta.
  split_and!.
  - apply (createReview_guards (H := Sample.platform)
             (Request.mk (Sample.as_user Sample.alice "STUDENT") ""
                (Sample.review_body Sample.booking2 (Js.of_Z 5)))
             Sample.db _ _ eq_refl eq_refl).
    eexists. split_and!; [reflexivity | reflexivity | reflexivity |].
    intros (r & Hin & Hid). vm_compute in Hin.
    apply list_elem_of_singleton in Hin as ->. discriminate.
  - destruct (createReview_guards (H := Sample.platform)
             (Request.mk (Sample.as_user Sample.alice "STUDENT") ""
                (Sample.review_body Sample.booking1 (Js.of_Z 5)))
             Sample.db _ _ eq_refl eq_refl) as (_ & _ & _ & Hagain & _).
    erewrite Hagain; [reflexivity | reflexivity | reflexivity | reflexivity |].
    eexists. split; [by left | reflexivity].
  - destruct (createReview_guards (H := Sample.platform)
             (Request.mk (Sample.as_user Sample.alice "STUDENT") ""
                (Sample.review_body Sample.booking3 (Js.of_Z 5)))
             Sample.db _ _ eq_refl eq_refl) as (_ & _ & Hopen & _).
    erewrite Hopen; [reflexivity | reflexivity | reflexivity | discriminate].
  - destruct (createReview_guards (H := Sample.platform)
             (Request.mk (Sample.as_user Sample.bob "STUDENT") ""
                (Sample.review_body Sample.booking2 (Js.of_Z 5)))
             Sample.db _ _ eq_refl eq_refl) as (_ & Hother & _).
    erewrite Hother; [reflexivity | reflexivity | discriminate].
  - destruct (createReview_guards (H := Sample.platform)
             (Request.mk (Sample.as_user Sample.alice "STUDENT") ""
                (Sample.review_body "10000000-0000-4000-8000-000000000009" (Js.of_Z 5)))
             Sample.db _ _ eq_refl eq_refl) as (Hmissing & _).
    rewrite Hmissing; reflexivity.
Defined.

(** alice rates booking 2 with 5: tara, rated 4 once before, now has the
    mean 9/2 over 2 reviews. *)
Lemma createReview_average_witness :
  let out :=
    ReviewController.createReview (H := Sample.platform)
      (Request.mk (Sample.as_user Sample.alice "STUDENT") ""
         (Sample.review_body Sample.booking2 (Js.of_Z 5))) Sample.db in
  ∃ p, tutorProfiles out.2 !! Sample.tara = Some p
       ∧ TutorProfile.rating p = Js.Num (9 # 2)
       ∧ TutorProfile.reviewCount p = 2%Z.
Proof.
  intros out.
  destruct (createReview_average (H := Sample.platform)
              (Request.mk (Sample.as_user Sample.alice "STUDENT") ""
                 (Sample.review_body Sample.booking2 (Js.of_Z 5))) Sample.db
              eq_refl) as (r & p & Hr & Hp & _ & _ & Hcount).
  apply app_inj_tail in Hr as [_ <-].
  exists p. split; [exact Hp|].
  vm_compute in Hp. injection Hp as <-. split; reflexivity.
Defined.

Section Review_awaits.
Context `{Platform}.
Import ReviewController ReviewAwaits.

(** With nothing served in between, the handler as the event loop runs
    it is the handler run in one piece. *)
Lemma createReview_among_alone (req : Request.t) (db : DB) :
  createReview_among (λ _ db, db) req db = createReview req db.
Proof.
  unfold createReview_among, createReview, elsewhere.
  destruct (Request.user req) as [u|]; run; [|done].
  destruct (createReviewSchema (Request.body req)) as [d|e]; simpl; [|done].
  destruct (bookings db !! bookingId d) as [b|]; simpl; [|done].
  destruct (negb (bool_decide (Booking.studentId b = _))); simpl; [done|].
  destruct (negb (bool_decide (Booking.status b = _))); simpl; [done|].
  destruct (bool_decide (is_Some _)); simpl; [done|].
  by destruct (tutorProfiles db !! Booking.tutorId b).
Qed.

End Review_awaits.

(** C3.  Two reviews for tara arrive together: alice's review of booking
    2 with the rating 5, and her review of booking 5 with the rating 1,
    which is served, whole, between the first handler's [findMany] and
    its [tutorProfile.update].  The first call is answered 201; the
    store then holds tara's ratings 4, 5 and 1, and her profile shows
    the rating 9/2 and the count 2: neither the mean, 10/3, nor the
    number, 3. *)
Theorem createReview_average_lost_update :
  let first :=
    Request.mk (Sample.as_user Sample.alice "STUDENT") ""
      (Sample.review_body Sample.booking2 (Js.of_Z 5)) in
  let second :=
    Request.mk (Sample.as_user Sample.alice "STUDENT") ""
      (Sample.review_body Fixture.booking5 (Js.of_Z 1)) in
  let out :=
    ReviewAwaits.createReview_among (H := Sample.platform)
      (Fixture.meanwhile (H := Sample.platform) second) first
      Fixture.busy_db in
  Response.status out.1 = 201%Z
  ∧ Review.rating <$> reviews_of Sample.tara out.2 = [4; 5; 1]%Z
  ∧ ∃ p q, tutorProfiles out.2 !! Sample.tara = Some p
           ∧ TutorProfile.rating p = Js.Num q
           ∧ (q == 9 # 2)%Q
           ∧ ¬ (q == arithmetic_mean [4; 5; 1]%Z)%Q
           ∧ TutorProfile.reviewCount p = 2%Z.
Proof.
  intros first second out. subst first second out.
  split; [vm_compute; reflexivity|].
  split; [vm_compute; reflexivity|].
  eexists _, _. split; [vm_compute; reflexivity|].
  split; [reflexivity|].
  split_and!; [reflexivity | vm_compute; discriminate | reflexivity].
Qed.


(** A rating of 7, and a rating of 4.5, are refused. *)
Lemma createReview_rating_witness :
  let post := λ rating,
    ReviewController.createReview (H := Sample.platform)
      (Request.mk (Sample.as_user Sample.alice "STUDENT") ""
         (Sample.review_body Sample.booking2 rating)) Sample.db in
  Response.status (post (Js.of_Z 7)).1 = 400%Z ∧ (post (Js.of_Z 7)).2 = Sample.db
  ∧ Response.status (post (Js.Num (9 # 2))).1 = 400%Z.
Proof.
  intros post. subst post. cbv beta.
  split_and!.
  - destruct (createReview_rating (H := Sample.platform)
              (Request.mk (Sample.as_user Sample.alice "STUDENT") ""
                 (Sample.review_body Sample.booking2 (Js.of_Z 7))) Sample.db
              _ eq_refl) as [Hbad _].
    destruct Hbad as (e & _ & -> & _); [|reflexivity].
    intros (q & z & [= <-] & Hq & Hz). unfold Qeq in Hq. simpl in Hq. lia.
  - destruct (createReview_rating (H := Sample.platform)
              (Request.mk (Sample.as_user Sample.alice "STUDENT") ""
                 (Sample.review_body Sample.booking2 (Js.of_Z 7))) Sample.db
              _ eq_refl) as [Hbad _].
    destruct Hbad as (e & _ & -> & _); [|reflexivity].
    intros (q & z & [= <-] & Hq & Hz). unfold Qeq in Hq. simpl in Hq. lia.
  - destruct (createReview_rating (H := Sample.platform)
              (Request.mk (Sample.as_user Sample.alice "STUDENT") ""
                 (Sample.review_body Sample.booking2 (Js.Num (9 # 2)))) Sample.db
              _ eq_refl) as [Hbad _].
    destruct Hbad as (e & _ & -> & _); [|reflexivity].
    intros (q & z & [= <-] & Hq & Hz). unfold Qeq in Hq. simpl in Hq. lia.
Defined.

(* ===================================================================== *)
(** ** GET /api/reviews/tutor/:tutorId *)
(* ===================================================================== *)

Section Tutor_reviews.
Import ReviewController.

Lemma foldr_add_app (l1 l2 : list Z) :
  foldr Z.add 0%Z (l1 ++ l2) = (foldr Z.add 0 l1 + foldr Z.add 0 l2)%Z.
Proof. induction l1 as [|x l1 IH]; simpl; [done|]. rewrite IH. lia. Qed.

Lemma arithmetic_mean_reverse (l : list Z) :
  arithmetic_mean (reverse l) = arithmetic_mean l.
Proof.
  unfold arithmetic_mean. rewrite length_reverse. f_equal. f_equal.
  induction l as [|x l IH]; [done|].
  rewrite reverse_cons, foldr_add_app, IH. simpl. lia.
Qed.

Lemma count_rating_snoc k l r :
  count_rating k (l ++ [r])
  = (count_rating k l + (if bool_decide (Review.rating r = k) then 1 else 0))%nat.
Proof.
  unfold count_rating. rewrite filter_app, length_app. f_equal.
  case_bool_decide.
  - by rewrite filter_cons_True.
  - by rewrite filter_cons_False.
Qed.

Lemma count_rating_reverse k l : count_rating k (reverse l) = count_rating k l.
Proof. unfold count_rating. by rewrite filter_reverse, length_reverse. Qed.

(** Every bucket of the distribution counts the reviews with its
    rating, as long as the ratings met so far lie between 1 and 5. *)
Lemma ratingDistribution_counts (l : list Review.t) :
  Forall (λ r, (1 ≤ Review.rating r ≤ 5)%Z) l →
  (∀ k, is_Some (ratingDistribution l !! k) ↔ (1 ≤ k ≤ 5)%Z)
  ∧ (∀ k, (1 ≤ k ≤ 5)%Z →
       ∃ c, ratingDistribution l !! k = Some (Js.Num c)
            ∧ (c == inject_Z (Z.of_nat (count_rating k l)))%Q).
Proof.
  induction l as [|r l IH] using rev_ind; intros Hrange.
  - assert (∀ k, ratingDistribution [] !! k
                 = if bool_decide (1 ≤ k ≤ 5)%Z then Some (Js.of_Z 0) else None) as Hempty.
    { intros k. unfold ratingDistribution, empty_distribution. simpl.
      case_bool_decide as Hk.
      - assert (k = 1 ∨ k = 2 ∨ k = 3 ∨ k = 4 ∨ k = 5)%Z as Hcases by lia.
        destruct Hcases as [->|[->|[->|[->| ->]]]]; reflexivity.
      - rewrite !lookup_insert_ne by lia. apply lookup_empty. }
    split; intros k; rewrite Hempty.
    + case_bool_decide; [split; [done | by eexists] | split; [by intros [] | done]].
    + intros Hk. rewrite bool_decide_eq_true_2 by done.
      eexists. split; [reflexivity|reflexivity].
  - apply Forall_app in Hrange as [Hl Hr]. apply Forall_cons_1 in Hr as [Hr _].
    destruct (IH Hl) as [Hdom Hcount].
    unfold ratingDistribution in *. rewrite fold_left_app. simpl.
    set (d := fold_left _ l empty_distribution) in *.
    split.
    + intros k. rewrite lookup_insert_is_Some. rewrite Hdom. split.
      * intros [<- | [_ ?]]; done.
      * intros Hk. destruct (decide (Review.rating r = k)); [by left | by right].
    + intros k Hk. rewrite count_rating_snoc.
      destruct (Hcount k Hk) as (c & Hc & Heq).
      case_bool_decide as Hrk.
      * subst k. rewrite lookup_insert_eq, Hc. simpl.
        eexists. split; [reflexivity|].
        rewrite Heq, Nat2Z.inj_add, inject_Z_plus. reflexivity.
      * rewrite lookup_insert_ne by done. exists c. split; [done|].
        rewrite Heq, Nat.add_0_r. reflexivity.
Qed.

Lemma count_rating_total (l : list Review.t) :
  Forall (λ r, (1 ≤ Review.rating r ≤ 5)%Z) l →
  (count_rating 1 l + count_rating 2 l + count_rating 3 l
   + count_rating 4 l + count_rating 5 l)%nat = length l.
Proof.
  induction 1 as [|r l Hr _ IH]; [done|].
  unfold count_rating in *. rewrite !filter_cons.
  assert (Review.rating r = 1 ∨ Review.rating r = 2 ∨ Review.rating r = 3
          ∨ Review.rating r = 4 ∨ Review.rating r = 5)%Z as Hcases by lia.
  destruct Hcases as [->|[->|[->|[->| ->]]]]; repeat case_decide; try lia; simpl; lia.
Qed.

(** C8.  [getTutorReviews] always answers 200 with the number of the
    tutor's reviews and an average that is a finite number: 0 when there
    is no review (the division is not attempted), the arithmetic mean of
    the ratings otherwise.  In a store whose ratings lie between 1 and 5
    (which [createReview] maintains, see
    [createReview_keeps_ratings_in_range]) the distribution has the five
    buckets 1 to 5, each holding the number of reviews with that rating,
    and these numbers add up to the number of reviews. *)
Theorem getTutorReviews_summary (req : Request.t) (db : DB) :
  let rs := reviews_of (Request.param req) db in
  ∃ views avg dist,
    getTutorReviews req db
    = (Response.mk 200 (TutorReviews views (length rs) avg dist), db)
    ∧ (rs = [] → avg = Js.of_Z 0)
    ∧ (rs ≠ [] →
       ∃ q, avg = Js.Num q ∧ (q == arithmetic_mean (Review.rating <$> rs))%Q)
    ∧ (ratings_in_range db →
       (∀ k, is_Some (dist !! k) ↔ (1 ≤ k ≤ 5)%Z)
       ∧ (∀ k, (1 ≤ k ≤ 5)%Z →
            ∃ c, dist !! k = Some (Js.Num c)
                 ∧ (c == inject_Z (Z.of_nat (count_rating k rs)))%Q)
       ∧ (count_rating 1 rs + count_rating 2 rs + count_rating 3 rs
          + count_rating 4 rs + count_rating 5 rs)%nat = length rs).
Proof.
  intros rs. unfold getTutorReviews. run. fold (reviews_of (Request.param req) db).
  fold rs. rewrite length_reverse.
  eexists _, _, _. split; [reflexivity|].
  split_and!.
  - intros ->. reflexivity.
  - intros Hne. destruct rs as [|r rs'] eqn:Hrs; [done|].
    replace (0 <? length (r :: rs'))%nat with true by done.
    destruct (div_mean (reverse (r :: rs'))) as (q & Hq & Heq).
    { intros Hnil. apply (f_equal length) in Hnil.
      rewrite length_reverse in Hnil. done. }
    rewrite length_reverse in Hq.
    exists q. split; [exact Hq|].
    rewrite Heq, fmap_reverse, arithmetic_mean_reverse. reflexivity.
  - intros Hrange.
    assert (Forall (λ r, (1 ≤ Review.rating r ≤ 5)%Z) rs) as Hrs.
    { apply Forall_forall. intros r [_ Hin]%list_elem_of_filter.
      unfold ratings_in_range in Hrange. rewrite Forall_forall in Hrange. auto. }
    assert (Forall (λ r, (1 ≤ Review.rating r ≤ 5)%Z) (reverse rs)) as Hrev.
    { apply Forall_forall. intros r Hin. rewrite elem_of_reverse in Hin.
      rewrite Forall_forall in Hrs. auto. }
    destruct (ratingDistribution_counts _ Hrev) as [Hdom Hcount].
    split_and!; [exact Hdom | | by apply count_rating_total].
    intros k Hk. destruct (Hcount k Hk) as (c & Hc & Heq).
    exists c. by rewrite <- (count_rating_reverse k rs).
Qed.
End Tutor_reviews.

(** tom has no review: average 0, no division; tara has one review,
    rated 4, counted once in bucket 4. *)
Lemma getTutorReviews_summary_witness :
  (∃ views dist,
     ReviewController.getTutorReviews (Request.mk None Sample.tom None) Sample.db
     = (Response.mk 200 (TutorReviews views 0 (Js.of_Z 0) dist), Sample.db))
  ∧ (∃ views avg dist c,
       ReviewController.getTutorReviews (Request.mk None Sample.tara None) Sample.db
       = (Response.mk 200 (TutorReviews views 1 avg dist), Sample.db)
       ∧ dist !! 4%Z = Some (Js.Num c) ∧ (c == 1)%Q).
Proof.
  split.
  - destruct (getTutorReviews_summary (Request.mk None Sample.tom None) Sample.db)
      as (views & avg & dist & Heq & Hnone & _).
    rewrite (Hnone eq_refl) in Heq. by exists views, dist.
  - destruct (getTutorReviews_summary (Request.mk None Sample.tara None) Sample.db)
      as (views & avg & dist & Heq & _ & _ & Hdist).
    destruct Hdist as (_ & Hcount & _).
    { repeat constructor; simpl; lia. }
    destruct (Hcount 4%Z ltac:(lia)) as (c & Hc & Hone).
    exists views, avg, dist, c. split_and!; [exact Heq | exact Hc | exact Hone].
Defined.

(* ===================================================================== *)
(** ** POST /api/auth/register *)
(* ===================================================================== *)

Section Registration.
Context `{Platform}.
Import AuthController.

Lemma registerSchema_valid body d :
  registerSchema body = Zod.Valid d →
  ∃ o, body = Some (JObject o)
       ∧ member "role" o = Some (JString (role d))
       ∧ role d ∈ ["STUDENT"; "TUTOR"].
Proof.
  unfold registerSchema.
  intros (o & -> & Hd)%z_object_valid. exists o. split; [done|].
  apply ap_valid in Hd as (g & r & Hg & Hr & ->).
  apply ap_valid in Hg as (g1 & n & Hg1 & _ & ->).
  apply ap_valid in Hg1 as (g2 & p & Hg2 & _ & ->).
  apply ap_valid in Hg2 as (g3 & e & [= <-] & _ & ->). simpl.
  by apply z_enum_valid in Hr.
Qed.

Lemma register_invalid req db e :
  registerSchema (Request.body req) = Zod.Invalid e →
  register req db
  = (Response.mk 400
       (ValidationError "Validation Error" (Zod.message (Zod.issue0 e)) (Zod.errors e)),
     db).
Proof. intros He. unfold register. run. by rewrite He. Qed.

(** C9.  A registration whose [role] member is anything but the string
    STUDENT or the string TUTOR (ADMIN, another value, or no member at
    all) is answered 400 with the validation document and the store is
    untouched; and whatever the request, a user row with the role ADMIN
    in the store after the call was there, unchanged, before it. *)
Theorem register_roles (req : Request.t) (db : DB) :
  let out := register req db in
  (body_member "role" req ≠ Some (JString "STUDENT") →
   body_member "role" req ≠ Some (JString "TUTOR") →
     ∃ e, registerSchema (Request.body req) = Zod.Invalid e
          ∧ out = (Response.mk 400
                     (ValidationError "Validation Error"
                        (Zod.message (Zod.issue0 e)) (Zod.errors e)), db))
  ∧ (∀ id u, users out.2 !! id = Some u → User.role u = ADMIN →
             users db !! id = Some u).
Proof.
  intros out. subst out. split.
  - intros Hstudent Htutor.
    destruct (registerSchema (Request.body req)) as [d|e] eqn:Hd.
    + apply registerSchema_valid in Hd as (o & Hbody & Hrole & Hin).
      unfold body_member in *. rewrite Hbody, Hrole in *.
      rewrite !elem_of_cons in Hin.
      destruct Hin as [Hr | [Hr | Hr]]; [| |by apply elem_of_nil in Hr];
        rewrite Hr in *; done.
    + exists e. split; [done|]. by apply register_invalid.
  - intros id u.
    destruct (registerSchema (Request.body req)) as [d|e] eqn:Hd;
      [|by rewrite (register_invalid _ _ _ Hd)].
    unfold register. run. rewrite Hd. simpl.
    apply registerSchema_valid in Hd as (o & _ & _ & Hin).
    destruct (find _ _); simpl; [done|].
    rewrite !elem_of_cons in Hin.
    destruct Hin as [Hr | [Hr | Hr]]; [| |by apply elem_of_nil in Hr];
      rewrite Hr; simpl.
    all: rewrite lookup_insert; case_decide; [|done].
    all: intros [= <-]; simpl; discriminate.
Qed.

End Registration.

(** A registration as ADMIN is refused and stores nothing. *)
Lemma register_roles_witness :
  AuthController.register (H := Sample.platform)
    (Request.mk None "" (Sample.register_body (JString "ADMIN"))) Sample.db
  = (Response.mk 400
       (ValidationError "Validation Error" "Role must be either STUDENT or TUTOR"
          [Zod.mkIssue Zod.invalid_enum_value ["role"]
             "Role must be either STUDENT or TUTOR"]),
     Sample.db).
Proof.
  destruct (register_roles (H := Sample.platform)
              (Request.mk None "" (Sample.register_body (JString "ADMIN")))
              Sample.db) as [Hrefused _].
  destruct Hrefused as (e & He & ->); [discriminate | discriminate |].
  vm_compute in He. injection He as <-. reflexivity.
Defined.

(* ===================================================================== *)
(** ** The statuses of failures *)
(* ===================================================================== *)

Section Error_mapping.
Context `{Platform}.

(** [roleGuard]: 401 without a user, 403 for a role outside the list,
    otherwise the request goes on unchanged. *)
Lemma roleGuard_outcomes (allowedRoles : list string) (req : Request.t) :
  match roleGuard allowedRoles req with
  | Next req' =>
      req' = req
      ∧ ∃ u, Request.user req = Some u ∧ JwtPayload.role u ∈ allowedRoles
  | Responded res =>
      (Response.status res = 401%Z ∧ Request.user req = None)
      ∨ (Response.status res = 403%Z
         ∧ ∃ u, Request.user req = Some u ∧ JwtPayload.role u ∉ allowedRoles)
  end.
Proof.
  unfold roleGuard. destruct (Request.user req) as [u|]; [|by left].
  case_bool_decide; simpl; [split; [done | by exists u]|].
  right. split; [done | by exists u].
Qed.

(** [validate]: a [ZodError] becomes 400 with one (field, message) pair
    per issue, the field being the path joined by dots; any other error
    becomes 500 "Validation failed". *)
Lemma validate_outcomes (schema : option json → Result json) (req : Request.t) :
  match validate schema req with
  | Next req' =>
      ∃ parsed, schema (Request.body req) = Ok parsed
                ∧ Request.body req' = Some parsed
  | Responded res =>
      (∃ err, schema (Request.body req) = Throw (ZodThrown err)
              ∧ Response.status res = 400%Z
              ∧ ∃ details,
                  Response.body res
                  = FieldErrors "Validation Error" (Zod.message (Zod.issue0 err)) details
                  ∧ details.*1 = join "." ∘ Zod.path <$> Zod.errors err
                  ∧ details.*2 = Zod.message <$> Zod.errors err)
      ∨ (∃ what, schema (Request.body req) = Throw (Thrown what)
                 ∧ res = Response.mk 500
                           (Error "Internal Server Error" "Validation failed"))
  end.
Proof.
  unfold validate. destruct (schema (Request.body req)) as [parsed|[err|what]].
  - by exists parsed.
  - left. exists err. split_and!; [done | done |].
    eexists. split; [reflexivity|]. rewrite <- !list_fmap_compose. done.
  - right. by exists what.
Qed.

End Error_mapping.



(* ===================================================================== *)
(** ** The other revision of updateBookingStatus *)
(* ===================================================================== *)

Section Other_revision.
Import BookingControllerRev.

(** The revision without actions writes CONFIRMED over any status, for
    any requester that carries a user: it knows no transition graph. *)
Lemma rev_updateBookingStatus_confirms_anything (req : Request.t) (db : DB)
    (u : JwtPayload.t) (b : Booking.t) :
  Request.user req = Some u →
  bookings db !! Request.param req = Some b →
  body_member "status" req = Some (JString "CONFIRMED") →
  Response.status (updateBookingStatus req db).1 = 200%Z
  ∧ bookings (updateBookingStatus req db).2 !! Request.param req
    = Some (set_status CONFIRMED b).
Proof.
  intros Hu Hb Hs. unfold updateBookingStatus, body_member in *. rewrite Hu.
  destruct (Request.body req) as [[| | | | |o]|]; try discriminate.
  run. rewrite Hs. simpl. rewrite Hb. simpl. rewrite Hb. simpl.
  split; [reflexivity | apply lookup_insert_eq].
Qed.

(** It has no clock either: the tutor completes a booking whatever its
    status and its scheduled time. *)
Lemma rev_updateBookingStatus_completes_anytime (req : Request.t) (db : DB)
    (u : JwtPayload.t) (b : Booking.t) :
  Request.user req = Some u →
  bookings db !! Request.param req = Some b →
  body_member "status" req = Some (JString "COMPLETED") →
  Booking.tutorId b = JwtPayload.userId u →
  Response.status (updateBookingStatus req db).1 = 200%Z
  ∧ bookings (updateBookingStatus req db).2 !! Request.param req
    = Some (set_status COMPLETED b).
Proof.
  intros Hu Hb Hs Ht. unfold updateBookingStatus, body_member in *. rewrite Hu.
  destruct (Request.body req) as [[| | | | |o]|]; try discriminate.
  run. rewrite Hs. simpl. rewrite Hb. simpl.
  rewrite (bool_decide_eq_true_2 _ Ht). simpl. rewrite Hb. simpl.
  split; [reflexivity | apply lookup_insert_eq].
Qed.

End Other_revision.

(* ===================================================================== *)
(** ** More on PATCH /api/bookings/:id/status *)
(* ===================================================================== *)

(** As [run], for the further handlers. *)
Ltac run_more :=
  unfold catching_zod, catching, reply, refuse,
    client.booking_findMany, client.user_update in *;
  run.

Lemma append_nil_r (s : string) : s +:+ "" = s.
Proof.
  induction s as [|c s IH]; [done|].
  change (String c (s +:+ "") = String c s). by rewrite IH.
Qed.

Lemma append_assoc (s1 s2 s3 : string) : (s1 +:+ s2) +:+ s3 = s1 +:+ (s2 +:+ s3).
Proof.
  induction s1 as [|c s1 IH]; [done|].
  change (String c ((s1 +:+ s2) +:+ s3) = String c (s1 +:+ (s2 +:+ s3))).
  by rewrite IH.
Qed.

Section Status_updates.
Context `{Platform}.
Import BookingController.

Lemma switch_action_refusal action reason u now b res :
  switch_action action reason u now b = inl res →
  Response.status res = 403%Z ∨ Response.status res = 400%Z.
Proof.
  unfold switch_action.
  repeat match goal with
         | |- context [if ?c then _ else _] => destruct c
         end; intros [= <-]; simpl; auto.
Qed.

(** What one call does to the store: nothing, with an answer other than
    200, or a rewrite of the addressed booking by the update one case of
    the switch built, with the answer 200. *)
Lemma updateBookingStatus_store (now : Z) (req : Request.t) (db : DB) :
  (Response.status (updateBookingStatus now req db).1 ≠ 200%Z
   ∧ (updateBookingStatus now req db).2 = db)
  ∨ ∃ u d b message data,
      Request.user req = Some u
      ∧ updateBookingStatusSchema (Request.body req) = Zod.Valid d
      ∧ bookings db !! Request.param req = Some b
      ∧ switch_action (action d) (reason d) u now b = inr (message, data)
      ∧ Response.status (updateBookingStatus now req db).1 = 200%Z
      ∧ (updateBookingStatus now req db).2
        = mkDB (users db) (tutorProfiles db)
            (<[Request.param req := apply_update data b]> (bookings db))
            (reviews db).
Proof.
  unfold updateBookingStatus.
  destruct (Request.user req) as [u|]; run; [|by left].
  destruct (updateBookingStatusSchema (Request.body req)) as [d|e]; simpl;
    [|by left].
  destruct (bookings db !! Request.param req) as [b|] eqn:Hb; simpl; [|by left].
  destruct (switch_action _ _ _ _ _) as [res|[message data]] eqn:Hswitch;
    simpl.
  - left. split; [|done].
    apply switch_action_refusal in Hswitch as [-> | ->]; done.
  - rewrite Hb. simpl. right. by exists u, d, b, message, data.
Qed.

Lemma with_reason_keeps_notes tag n reason :
  ∃ more, with_reason tag (Some n) reason = Some (n +:+ more).
Proof.
  unfold with_reason. destruct (Js.truthy reason).
  - destruct n as [|c n]; simpl; [by eexists|].
    eexists. rewrite !append_assoc. reflexivity.
  - exists "". by rewrite append_nil_r.
Qed.

(** The update a case builds moves the status along an edge of the
    graph, and keeps the notes as a prefix of those it writes. *)
Lemma switch_action_update action reason u now b message data :
  switch_action action reason u now b = inr (message, data) →
  spec_edge (Booking.status b) action = Some (new_status data)
  ∧ (∀ n, Booking.notes b = Some n →
          ∃ more, Booking.notes (apply_update data b) = Some (n +:+ more)).
Proof.
  unfold switch_action, spec_edge.
  repeat case_bool_decide; simpl; try discriminate.
  all: destruct (Booking.status b); simpl; try discriminate.
  all: try (destruct (now <? Booking.dateTime b)%Z; try discriminate).
  all: intros [= <- <-]; (split; [done|]); simpl.
  all: intros n Hn; rewrite ?Hn.
  all: first [ apply with_reason_keeps_notes
             | exists ""; by rewrite append_nil_r ].
Qed.


(** X1.  A booking that is REJECTED, CANCELLED or COMPLETED is final:
    whatever the request and whoever sends it, the answer is not 200 and
    the store stays as it is. *)
Theorem updateBookingStatus_final (now : Z) (req : Request.t) (db : DB)
    (b : Booking.t) :
  bookings db !! Request.param req = Some b →
  Booking.status b = REJECTED ∨ Booking.status b = CANCELLED
  ∨ Booking.status b = COMPLETED →
  Response.status (updateBookingStatus now req db).1 ≠ 200%Z
  ∧ (updateBookingStatus now req db).2 = db.
Proof.
  intros Hb Hfinal.
  destruct (updateBookingStatus_store now req db)
    as [Hsame | (u & d & b' & message & data & _ & _ & Hb' & Hswitch & _)];
    [done|].
  rewrite Hb in Hb'. simplify_eq.
  apply switch_action_update in Hswitch as [Hedge _].
  unfold spec_edge in Hedge.
  destruct Hfinal as [Hs | [Hs | Hs]]; rewrite Hs in Hedge;
    repeat case_bool_decide; discriminate.
Qed.

(** X2.  Frame: a call changes nothing but the status and the notes of
    the booking it addresses.  Users, tutor profiles and reviews are as
    before, every other booking is as before, no booking appears or
    disappears, and the addressed booking keeps its id, student, tutor,
    time, duration and subject. *)
Theorem updateBookingStatus_frame (now : Z) (req : Request.t) (db : DB) :
  let db' := (updateBookingStatus now req db).2 in
  users db' = users db ∧ tutorProfiles db' = tutorProfiles db
  ∧ reviews db' = reviews db
  ∧ (∀ k, k ≠ Request.param req → bookings db' !! k = bookings db !! k)
  ∧ (∀ k, is_Some (bookings db' !! k) ↔ is_Some (bookings db !! k))
  ∧ (∀ b, bookings db !! Request.param req = Some b →
       ∃ b', bookings db' !! Request.param req = Some b'
             ∧ Booking.id b' = Booking.id b
             ∧ Booking.studentId b' = Booking.studentId b
             ∧ Booking.tutorId b' = Booking.tutorId b
             ∧ Booking.dateTime b' = Booking.dateTime b
             ∧ Booking.duration b' = Booking.duration b
             ∧ Booking.subject b' = Booking.subject b).
Proof.
  intros db'. subst db'.
  destruct (updateBookingStatus_store now req db)
    as [[_ ->] | (u & d & b & message & data & _ & _ & Hb & _ & _ & ->)].
  - split_and!; try done. intros b Hb. by exists b.
  - simpl. split_and!; try done.
    + intros k Hk. by rewrite lookup_insert_ne.
    + intros k. destruct (decide (Request.param req = k)) as [<-|Hk].
      * rewrite lookup_insert_eq, Hb. split; eauto.
      * by rewrite lookup_insert_ne.
    + intros b0 Hb0. rewrite Hb in Hb0. simplify_eq.
      exists (apply_update data b0). by rewrite lookup_insert_eq.
Qed.

(** X3.  Notes are never lost: whatever was in the notes of a booking
    before a call is a prefix of its notes after it (a rejection or
    cancellation reason is appended, nothing is overwritten). *)
Theorem updateBookingStatus_keeps_notes (now : Z) (req : Request.t) (db : DB)
    (b : Booking.t) (n : string) :
  bookings db !! Request.param req = Some b →
  Booking.notes b = Some n →
  ∃ b' more, bookings (updateBookingStatus now req db).2 !! Request.param req
               = Some b'
             ∧ Booking.notes b' = Some (n +:+ more).
Proof.
  intros Hb Hn.
  destruct (updateBookingStatus_store now req db)
    as [[_ ->] | (u & d & b0 & message & data & _ & _ & Hb0 & Hswitch & _ & ->)].
  - exists b, "". by rewrite append_nil_r.
  - rewrite Hb in Hb0. simplify_eq. simpl.
    apply switch_action_update in Hswitch as [_ Hnotes].
    destruct (Hnotes n Hn) as [more Hmore].
    exists (apply_update data b0), more. by rewrite lookup_insert_eq.
Qed.





End Status_updates.

Lemma updateBookingStatus_final_witness :
  Response.status
    (BookingController.updateBookingStatus (H := Sample.platform) 7000
       (Request.mk (Sample.as_user Sample.tara "TUTOR") Sample.booking1
          (Sample.action_body "cancel"))
       Sample.db).1 ≠ 200%Z
  ∧ (BookingController.updateBookingStatus (H := Sample.platform) 7000
       (Request.mk (Sample.as_user Sample.tara "TUTOR") Sample.booking1
          (Sample.action_body "cancel"))
       Sample.db).2 = Sample.db.
Proof.
  apply (updateBookingStatus_final (H := Sample.platform) 7000
           (Request.mk (Sample.as_user Sample.tara "TUTOR") Sample.booking1
              (Sample.action_body "cancel"))
           Sample.db (Sample.booking_row Sample.booking1 1000 COMPLETED)).
  - reflexivity.
  - right. right. reflexivity.
Defined.

Lemma updateBookingStatus_keeps_notes_witness :
  ∃ b' more,
    bookings
      (BookingController.updateBookingStatus (H := Sample.platform) 100
         (Request.mk (Sample.as_user Sample.alice "STUDENT") Sample.booking4
            (Fixture.reason_body "cancel" "I am ill"))
         Fixture.noted_db).2 !! Sample.booking4 = Some b'
    ∧ Booking.notes b' = Some ("Chapter 3, exercises" +:+ more).
Proof.
  apply (updateBookingStatus_keeps_notes (H := Sample.platform) 100
           (Request.mk (Sample.as_user Sample.alice "STUDENT") Sample.booking4
              (Fixture.reason_body "cancel" "I am ill"))
           Fixture.noted_db
           (Booking.mk Sample.booking4 Sample.alice Sample.tara 6000 (Js.of_Z 60)
              (Some "Algebra") (Some "Chapter 3, exercises") PENDING)).
  - reflexivity.
  - reflexivity.
Defined.


(* ===================================================================== *)
(** ** GET /api/bookings *)
(* ===================================================================== *)

Section Booking_listing.
Context `{Runtime}.
Import BookingListing.

Lemma rows_of_cards (db : DB) (l : list Booking.t) :
  Card.row <$> (booking_card db <$> l) = l.
Proof. induction l as [|b l IH]; csimpl; [done|]. by rewrite IH. Qed.

Lemma where_visible (u : JwtPayload.t) (wanted : option BookingStatus) (b : Booking.t) :
  where_ u wanted b = true
  ↔ visible_to u b ∧ (∀ s, wanted = Some s → Booking.status b = s).
Proof.
  unfold where_, visible_to. rewrite andb_true_iff.
  assert (Hstatus :
    match wanted with Some s => bool_decide (Booking.status b = s) | None => true end
    = true ↔ ∀ s, wanted = Some s → Booking.status b = s).
  { destruct wanted as [s|]; [|naive_solver].
    rewrite bool_decide_eq_true. naive_solver. }
  rewrite Hstatus. clear Hstatus.
  case_bool_decide as Hs; [|case_bool_decide as Ht];
    try rewrite bool_decide_eq_true.
  - rewrite Hs. intuition congruence.
  - rewrite Ht. intuition congruence.
  - intuition congruence.
Qed.

(** What a listing holds, for the status the query asks for (if any). *)
Lemma getBookings_found (status : option QueryValue) (req : Request.t) (db : DB)
    (u : JwtPayload.t) (wanted : option BookingStatus) :
  Request.user req = Some u →
  (if query_truthy status
   then BookingStatus_of_name (toUpperCase (String_of (default QObject status)))
   else Some PENDING) ≠ None →
  wanted = (if query_truthy status
            then BookingStatus_of_name (toUpperCase (String_of (default QObject status)))
            else None) →
  ∃ cards,
    getBookings status req db = (Reply.mk 200 (BookingList cards (length cards)), db)
    ∧ ∀ b, b ∈ Card.row <$> cards
           ↔ (∃ k, bookings db !! k = Some b)
             ∧ visible_to u b ∧ (∀ s, wanted = Some s → Booking.status b = s).
Proof.
  intros Hu Hok ->. unfold getBookings. rewrite Hu.
  set (wanted := if query_truthy status then _ else None).
  assert (Hrun :
    (if query_truthy status
     then match BookingStatus_of_name
                  (toUpperCase (String_of (default QObject status))) with
          | Some s => mret (Some s)
          | None => throw (Thrown "PrismaClientValidationError")
          end
     else mret None) = (mret wanted : M (option BookingStatus))).
  { subst wanted. destruct (query_truthy status); [|done].
    by destruct (BookingStatus_of_name _). }
  rewrite Hrun. run_more.
  match goal with
  | |- context [BookingList ?cards (length _)] => exists cards
  end.
  split; [by rewrite length_fmap|].
  intros b. rewrite rows_of_cards, merge_sort_Permutation.
  rewrite list_elem_of_filter, Is_true_true, where_visible.
  rewrite list_elem_of_fmap.
  split.
  - intros [Hw [[k b'] [-> Hin%elem_of_map_to_list]]]. eauto.
  - intros [[k Hk] Hw]. split; [done|]. exists (k, b). split; [done|].
    by apply elem_of_map_to_list.
Qed.

(** X5.  Isolation: without a status in the query, a STUDENT is shown
    exactly the stored bookings they made, a TUTOR exactly those made
    with them, and any other role every stored booking; the count is the
    length of the list and the store is untouched. *)
Theorem getBookings_own (status : option QueryValue) (req : Request.t) (db : DB)
    (u : JwtPayload.t) :
  Request.user req = Some u →
  query_truthy status = false →
  ∃ cards,
    getBookings status req db = (Reply.mk 200 (BookingList cards (length cards)), db)
    ∧ ∀ b, b ∈ Card.row <$> cards
           ↔ (∃ k, bookings db !! k = Some b) ∧ visible_to u b.
Proof.
  intros Hu Hq.
  destruct (getBookings_found status req db u None Hu) as (cards & Hout & Hin).
  - by rewrite Hq.
  - by rewrite Hq.
  - exists cards. split; [done|]. intros b. rewrite Hin. naive_solver.
Qed.

(** X6.  A status in the query (anything but the empty string, which
    counts as no status) narrows the listing to the visible bookings in
    that status; the name is upper-cased first, so it is matched
    whatever its case. *)
Theorem getBookings_by_status (v : QueryValue) (req : Request.t) (db : DB)
    (u : JwtPayload.t) (s : BookingStatus) :
  Request.user req = Some u →
  query_truthy (Some v) = true →
  BookingStatus_of_name (toUpperCase (String_of v)) = Some s →
  ∃ cards,
    getBookings (Some v) req db
    = (Reply.mk 200 (BookingList cards (length cards)), db)
    ∧ ∀ b, b ∈ Card.row <$> cards
           ↔ (∃ k, bookings db !! k = Some b)
             ∧ visible_to u b ∧ Booking.status b = s.
Proof.
  intros Hu Hq Hs.
  destruct (getBookings_found (Some v) req db u (Some s) Hu)
    as (cards & Hout & Hin).
  - rewrite Hq. simpl. by rewrite Hs.
  - rewrite Hq. simpl. by rewrite Hs.
  - exists cards. split; [done|]. intros b. rewrite Hin. naive_solver.
Qed.

#[local] Instance later_transitive : Transitive client.later.
Proof. unfold client.later. intros a b c ? ?. lia. Qed.

#[local] Instance later_total : Total client.later.
Proof. unfold client.later. intros a b. lia. Qed.

(** X7.  Whatever the request, the bookings of a listing come newest
    first: each is at or after every booking that follows it.  The count
    sent with the list is its length. *)
Theorem getBookings_newest_first (status : option QueryValue) (req : Request.t)
    (db : DB) :
  let p := Reply.body (getBookings status req db).1 in
  StronglySorted (λ a b, (Booking.dateTime b ≤ Booking.dateTime a)%Z) (listed p)
  ∧ ∀ cards n, p = BookingList cards n → n = length cards.
Proof.
  unfold getBookings.
  destruct (Request.user req) as [u|]; [|run_more; split; [constructor|done]].
  destruct (query_truthy status);
    [destruct (BookingStatus_of_name _)|]; run_more;
    try (split; [constructor|done]).
  all: rewrite rows_of_cards; split;
    [apply (StronglySorted_merge_sort client.later)
    |intros cards n [= <- <-]; by rewrite length_fmap].
Qed.

(** X8.  A status in the query that names no booking status (after
    upper-casing; a repeated parameter arrives as an array and is joined
    with commas) is not refused as a bad request: the query to the
    database throws and the answer is 500 with the fixed message. *)
Theorem getBookings_unknown_status (status : option QueryValue) (req : Request.t)
    (db : DB) (u : JwtPayload.t) :
  Request.user req = Some u →
  query_truthy status = true →
  BookingStatus_of_name (toUpperCase (String_of (default QObject status))) = None →
  getBookings status req db
  = (Reply.mk 500 (Plain (Error "Internal Server Error" "Failed to fetch bookings")),
     db).
Proof.
  intros Hu Hq Hname. unfold getBookings. rewrite Hu, Hq, Hname. by run_more.
Qed.

End Booking_listing.

Lemma getBookings_own_witness :
  ∃ cards,
    BookingListing.getBookings (H := Fixture.runtime) None
      (Request.mk (Sample.as_user Sample.alice "STUDENT") "" None) Sample.db
    = (Reply.mk 200 (BookingList cards (length cards)), Sample.db)
    ∧ ∀ b, b ∈ Card.row <$> cards
           ↔ (∃ k, bookings Sample.db !! k = Some b)
             ∧ visible_to (JwtPayload.mk Sample.alice
                             (Sample.alice ++ "@example.com") "STUDENT") b.
Proof.
  apply (getBookings_own (H := Fixture.runtime) None
           (Request.mk (Sample.as_user Sample.alice "STUDENT") "" None) Sample.db).
  - reflexivity.
  - reflexivity.
Defined.

Lemma getBookings_by_status_witness :
  ∃ cards,
    BookingListing.getBookings (H := Fixture.runtime) (Some (QString "completed"))
      (Request.mk (Sample.as_user Sample.tara "TUTOR") "" None) Sample.db
    = (Reply.mk 200 (BookingList cards (length cards)), Sample.db)
    ∧ ∀ b, b ∈ Card.row <$> cards
           ↔ (∃ k, bookings Sample.db !! k = Some b)
             ∧ visible_to (JwtPayload.mk Sample.tara
                             (Sample.tara ++ "@example.com") "TUTOR") b
             ∧ Booking.status b = COMPLETED.
Proof.
  apply (getBookings_by_status (H := Fixture.runtime) (QString "completed")
           (Request.mk (Sample.as_user Sample.tara "TUTOR") "" None) Sample.db).
  - reflexivity.
  - reflexivity.
  - reflexivity.
Defined.

Lemma getBookings_unknown_status_witness :
  BookingListing.getBookings (H := Fixture.runtime)
    (Some (QArray [QString "pending"; QString "confirmed"]))
    (Request.mk (Sample.as_user Sample.root "ADMIN") "" None) Sample.db
  = (Reply.mk 500 (Plain (Error "Internal Server Error" "Failed to fetch bookings")),
     Sample.db).
Proof.
  apply (getBookings_unknown_status (H := Fixture.runtime)
           (Some (QArray [QString "pending"; QString "confirmed"]))
           (Request.mk (Sample.as_user Sample.root "ADMIN") "" None) Sample.db
           (JwtPayload.mk Sample.root (Sample.root ++ "@example.com") "ADMIN")).
  - reflexivity.
  - reflexivity.
  - reflexivity.
Defined.

(* ===================================================================== *)
(** ** Accounts: registration and login together *)
(* ===================================================================== *)

Section Accounts.
Context `{Platform} `{Runtime}.
Import AuthController AuthSession.

Notation "'by_email' e" := (find (λ u, bool_decide (User.email u = e)))
  (at level 10, e at level 9, only parsing).

Lemma find_email_Some (m : gmap string User.t) (e : string) (u : User.t) :
  by_email e (map_to_list m).*2 = Some u →
  (∃ k, m !! k = Some u) ∧ User.email u = e.
Proof.
  intros [Hin He]%find_some. apply bool_decide_eq_true in He.
  split; [|done].
  apply list_elem_of_In, list_elem_of_fmap in Hin as [[k u'] [-> Hin]].
  exists k. by apply elem_of_map_to_list.
Qed.

Lemma find_email_None (m : gmap string User.t) (e : string) :
  by_email e (map_to_list m).*2 = None
  ↔ ∀ k u, m !! k = Some u → User.email u ≠ e.
Proof.
  split.
  - intros Hnone k u Hk He.
    assert (Hin : In u (map_to_list m).*2).
    { apply list_elem_of_In, list_elem_of_fmap. exists (k, u). split; [done|].
      by apply elem_of_map_to_list. }
    apply (find_none _ _ Hnone) in Hin. simpl in Hin.
    by apply bool_decide_eq_false in Hin.
  - intros Hall. destruct (by_email e _) as [u|] eqn:Hfind; [|done].
    apply find_email_Some in Hfind as [[k Hk] He]. by destruct (Hall k u).
Qed.

Lemma find_email_unique (db : DB) (k : string) (u : User.t) :
  emails_unique db → users db !! k = Some u →
  by_email (User.email u) (map_to_list (users db)).*2 = Some u.
Proof.
  intros Huniq Hk.
  destruct (by_email _ _) as [v|] eqn:Hfind.
  - apply find_email_Some in Hfind as [[j Hj] He].
    assert (j = k) as -> by (by eapply Huniq).
    congruence.
  - rewrite find_email_None in Hfind. by destruct (Hfind k u).
Qed.

Lemma z_string_valid p checks input s :
  z_string p checks input = Zod.Valid s →
  input = Some (JString s) ∧ checks s = [].
Proof.
  unfold z_string. destruct input as [[]|]; try discriminate.
  destruct (checks _) eqn:Hc; simpl; [|discriminate].
  by intros [= <-].
Qed.

Lemma check_passed ok c p msg : check ok c p msg = [] → ok = true.
Proof. by destruct ok. Qed.

(** The body of a registration, once accepted, is a body [login]
    accepts. *)
Lemma registerSchema_loginSchema body d :
  registerSchema body = Zod.Valid d →
  loginSchema body
  = Zod.Valid (mkLoginInput (AuthController.email d) (AuthController.password d)).
Proof.
  unfold registerSchema, loginSchema.
  intros (o & -> & Hd)%z_object_valid. simpl.
  apply ap_valid in Hd as (g & r & Hg & Hr & ->).
  apply ap_valid in Hg as (g1 & n & Hg1 & _ & ->).
  apply ap_valid in Hg1 as (g2 & p & Hg2 & Hp & ->).
  apply ap_valid in Hg2 as (g3 & e & [= <-] & He & ->). simpl.
  rewrite He.
  apply z_string_valid in Hp as [-> Hlen%check_passed].
  simpl. apply Nat.leb_le in Hlen.
  destruct (String.length p); [lia|done].
Qed.

Notation "'refused_login'" :=
  (Reply.mk 401 (Plain (Error "Unauthorized" "Invalid email or password")))
  (only parsing).

(** [login] on a body its schema accepts. *)
Lemma login_valid (req : Request.t) (db : DB) (d : LoginInput) :
  loginSchema (Request.body req) = Zod.Valid d →
  login req db
  = (match by_email (AuthSession.email d) (map_to_list (users db)).*2 with
     | None => refused_login
     | Some user =>
         if bool_decide (User.status user = BANNED) then
           Reply.mk 403
             (Plain (Error "Forbidden"
                       "Your account has been banned. Please contact support."))
         else if negb (comparePassword (AuthSession.password d) (User.password user))
         then refused_login
         else
           Reply.mk 200
             (Plain (Registered "Login successful" (account user)
                       (jwt_sign (JwtPayload.mk (User.id user) (User.email user)
                                    (Role_name (User.role user))))))
     end, db).
Proof.
  intros Hd. unfold login. run_more. rewrite Hd. simpl.
  destruct (by_email _ _) as [user|]; simpl; [|done].
  destruct (bool_decide _); simpl; [done|].
  by destruct (comparePassword _ _).
Qed.

(** X9.  A banned account cannot log in, whatever password is sent: the
    ban is checked before the password, the answer is 403 and says so. *)
Theorem login_banned (req : Request.t) (db : DB) (d : LoginInput)
    (k : string) (user : User.t) :
  loginSchema (Request.body req) = Zod.Valid d →
  emails_unique db →
  users db !! k = Some user →
  User.email user = AuthSession.email d →
  User.status user = BANNED →
  login req db
  = (Reply.mk 403
       (Plain (Error "Forbidden"
                 "Your account has been banned. Please contact support.")), db).
Proof.
  intros Hd Huniq Hk He Hbanned. rewrite (login_valid _ _ _ Hd), <- He.
  rewrite (find_email_unique _ _ _ Huniq Hk).
  by rewrite bool_decide_eq_true_2.
Qed.

(** X10.  A login with an address no account has and a login with the
    wrong password for an account that exists (and is not banned) get
    the very same answer, 401 'Invalid email or password': the answer
    does not tell which of the two was wrong. *)
Theorem login_refusals_alike (req1 req2 : Request.t) (db : DB)
    (d1 d2 : LoginInput) (k : string) (user : User.t) :
  loginSchema (Request.body req1) = Zod.Valid d1 →
  loginSchema (Request.body req2) = Zod.Valid d2 →
  (∀ j u, users db !! j = Some u → User.email u ≠ AuthSession.email d1) →
  emails_unique db →
  users db !! k = Some user →
  User.email user = AuthSession.email d2 →
  User.status user ≠ BANNED →
  comparePassword (AuthSession.password d2) (User.password user) = false →
  login req1 db = login req2 db
  ∧ login req1 db
    = (Reply.mk 401 (Plain (Error "Unauthorized" "Invalid email or password")), db).
Proof.
  intros Hd1 Hd2 Hunknown Huniq Hk He Hactive Hwrong.
  rewrite (login_valid _ _ _ Hd1), (login_valid _ _ _ Hd2), <- He.
  rewrite (find_email_unique _ _ _ Huniq Hk).
  apply find_email_None in Hunknown. rewrite Hunknown.
  rewrite bool_decide_eq_false_2 by done. by rewrite Hwrong.
Qed.

(** What a registration does on a body its schema accepts. *)
Lemma register_valid (req : Request.t) (db : DB) (d : RegisterInput) :
  registerSchema (Request.body req) = Zod.Valid d →
  ∃ role, Role_name role = AuthController.role d
    ∧ role ≠ ADMIN
    ∧ register req db
      = match by_email (AuthController.email d) (map_to_list (users db)).*2 with
        | Some _ =>
            (Response.mk 400
               (Error "Bad Request" "User with this email already exists"), db)
        | None =>
            let user :=
              User.mk (prisma.new_id (users db)) (AuthController.email d)
                (hashPassword (AuthController.password d)) (AuthController.name d)
                role User_status_default in
            (Response.mk 201
               (Registered "User registered successfully" (account user)
                  (jwt_sign (JwtPayload.mk (User.id user) (User.email user)
                               (Role_name role)))),
             mkDB (<[prisma.new_id (users db) := user]> (users db))
               (tutorProfiles db) (bookings db) (reviews db))
        end.
Proof.
  intros Hd. unfold register. run. rewrite Hd. simpl.
  apply registerSchema_valid in Hd as (o & _ & _ & Hin).
  rewrite !elem_of_cons in Hin.
  destruct Hin as [Hr | [Hr | Hr]]; [| |by apply elem_of_nil in Hr];
    rewrite Hr; simpl.
  - exists STUDENT. split_and!; [done|done|]. by destruct (by_email _ _).
  - exists TUTOR. split_and!; [done|done|]. by destruct (by_email _ _).
Qed.

Lemma find_email_inserted (m : gmap string User.t) (id : string) (user : User.t) :
  (∀ k u, m !! k = Some u → User.email u ≠ User.email user) →
  by_email (User.email user) (map_to_list (<[id := user]> m)).*2 = Some user.
Proof.
  intros Hnew.
  destruct (by_email _ _) as [v|] eqn:Hfind.
  - apply find_email_Some in Hfind as [[j Hj] He].
    apply lookup_insert_Some in Hj as [[_ ->] | [_ Hj]]; [done|].
    by destruct (Hnew j v).
  - rewrite find_email_None in Hfind.
    destruct (Hfind id user); [apply lookup_insert_eq | done].
Qed.

(** X11.  Round trip: once a registration is answered 201, a login with
    the same body (its address and password) on the store it left is
    answered 200 for the same account, with a token for the same
    payload.  It takes that [comparePassword] accepts a password against
    its own hash, and that new accounts do not start BANNED. *)
Theorem register_then_login (req : Request.t) (db : DB) :
  Response.status (register req db).1 = 201%Z →
  (∀ p, comparePassword p (hashPassword p) = true) →
  User_status_default ≠ BANNED →
  ∃ user token,
    (register req db).1
    = Response.mk 201 (Registered "User registered successfully" user token)
    ∧ login req (register req db).2
      = (Reply.mk 200 (Plain (Registered "Login successful" user token)),
         (register req db).2).
Proof.
  intros H201 Hcompare Hactive.
  destruct (registerSchema (Request.body req)) as [d|e] eqn:Hd;
    [|by rewrite (register_invalid _ _ _ Hd) in H201].
  destruct (register_valid req db d Hd) as (role & _ & _ & Hout).
  rewrite Hout in *. clear Hout.
  destruct (by_email _ _) eqn:Hfind; [done|]. simpl.
  eexists _, _. split; [reflexivity|].
  rewrite (login_valid _ _ _ (registerSchema_loginSchema _ _ Hd)). simpl.
  rewrite find_email_None in Hfind.
  set (user := User.mk _ _ _ _ _ _).
  rewrite (find_email_inserted (users db) _ user) by done. simpl.
  rewrite bool_decide_eq_false_2 by done.
  by rewrite Hcompare.
Qed.

(** X12.  Whatever the request, a registration leaves every user row
    that was in the store as it was, and leaves the tutor profiles, the
    bookings and the reviews alone: it can only add a row. *)
Theorem register_keeps_accounts (req : Request.t) (db : DB) :
  let db' := (register req db).2 in
  (∀ k u, users db !! k = Some u → users db' !! k = Some u)
  ∧ tutorProfiles db' = tutorProfiles db
  ∧ bookings db' = bookings db
  ∧ reviews db' = reviews db.
Proof.
  intros db'. subst db'.
  destruct (registerSchema (Request.body req)) as [d|e] eqn:Hd;
    [|by rewrite (register_invalid _ _ _ Hd)].
  destruct (register_valid req db d Hd) as (role & _ & _ & ->).
  destruct (by_email _ _); [done|]. simpl. split_and!; try done.
  intros k u Hk. rewrite lookup_insert_ne; [done|].
  intros <-. by rewrite new_id_fresh in Hk.
Qed.

End Accounts.

(** Checking the two conditions on a store at hand. *)
Lemma emails_unique_NoDup (db : DB) :
  NoDup (User.email <$> (map_to_list (users db)).*2) → emails_unique db.
Proof.
  intros Hnd i j u v Hi Hj He.
  apply elem_of_map_to_list, list_elem_of_lookup in Hi as [a Ha].
  apply elem_of_map_to_list, list_elem_of_lookup in Hj as [b Hb].
  assert (a = b) as ->.
  { apply (NoDup_lookup _ a b (User.email u) Hnd).
    - by rewrite !list_lookup_fmap, Ha.
    - by rewrite !list_lookup_fmap, Hb, He. }
  congruence.
Qed.

Lemma users_keyed_Forall (db : DB) :
  Forall (λ kv, User.id kv.2 = kv.1) (map_to_list (users db)) → users_keyed db.
Proof.
  rewrite Forall_forall. intros Hall k u Hk.
  by apply (Hall (k, u)), elem_of_map_to_list.
Qed.

Lemma Sample_emails_unique : emails_unique Sample.db.
Proof.
  apply emails_unique_NoDup, (bool_decide_unpack _). vm_compute. exact I.
Qed.

Lemma Sample_users_keyed : users_keyed Sample.db.
Proof.
  apply users_keyed_Forall, (bool_decide_unpack _). vm_compute. exact I.
Qed.

Lemma login_banned_witness :
  AuthSession.login (H := Sample.platform) (H0 := Fixture.runtime)
    (Request.mk None "" (Fixture.login_body "tom@example.com" "secret"))
    Sample.db
  = (Reply.mk 403
       (Plain (Error "Forbidden"
                 "Your account has been banned. Please contact support.")),
     Sample.db).
Proof.
  apply (login_banned (H := Sample.platform) (H0 := Fixture.runtime)
           (Request.mk None "" (Fixture.login_body "tom@example.com" "secret"))
           Sample.db (AuthSession.mkLoginInput "tom@example.com" "secret")
           Sample.tom (Sample.user_row Sample.tom "tom" TUTOR BANNED)).
  - reflexivity.
  - exact Sample_emails_unique.
  - reflexivity.
  - reflexivity.
  - reflexivity.
Defined.

Lemma login_refusals_alike_witness :
  AuthSession.login (H := Sample.platform) (H0 := Fixture.runtime)
    (Request.mk None "" (Fixture.login_body "zed@example.com" "secret"))
    Sample.db
  = AuthSession.login (H := Sample.platform) (H0 := Fixture.runtime)
      (Request.mk None "" (Fixture.login_body "alice@example.com" "guess"))
      Sample.db
  ∧ AuthSession.login (H := Sample.platform) (H0 := Fixture.runtime)
      (Request.mk None "" (Fixture.login_body "zed@example.com" "secret"))
      Sample.db
    = (Reply.mk 401 (Plain (Error "Unauthorized" "Invalid email or password")),
       Sample.db).
Proof.
  apply (login_refusals_alike (H := Sample.platform) (H0 := Fixture.runtime)
           (Request.mk None "" (Fixture.login_body "zed@example.com" "secret"))
           (Request.mk None "" (Fixture.login_body "alice@example.com" "guess"))
           Sample.db
           (AuthSession.mkLoginInput "zed@example.com" "secret")
           (AuthSession.mkLoginInput "alice@example.com" "guess")
           Sample.alice (Sample.user_row Sample.alice "alice" STUDENT ACTIVE)).
  - reflexivity.
  - reflexivity.
  - apply find_email_None. vm_compute. reflexivity.
  - exact Sample_emails_unique.
  - reflexivity.
  - reflexivity.
  - discriminate.
  - vm_compute. reflexivity.
Defined.

Lemma register_then_login_witness :
  ∃ user token,
    (AuthController.register (H := Sample.platform)
       (Request.mk None "" (Sample.register_body (JString "STUDENT")))
       Sample.db).1
    = Response.mk 201 (Registered "User registered successfully" user token)
    ∧ AuthSession.login (H := Sample.platform) (H0 := Fixture.runtime)
        (Request.mk None "" (Sample.register_body (JString "STUDENT")))
        (AuthController.register (H := Sample.platform)
           (Request.mk None "" (Sample.register_body (JString "STUDENT")))
           Sample.db).2
      = (Reply.mk 200 (Plain (Registered "Login successful" user token)),
         (AuthController.register (H := Sample.platform)
            (Request.mk None "" (Sample.register_body (JString "STUDENT")))
            Sample.db).2).
Proof.
  apply (register_then_login (H := Sample.platform) (H0 := Fixture.runtime)
           (Request.mk None "" (Sample.register_body (JString "STUDENT")))
           Sample.db).
  - vm_compute. reflexivity.
  - intros p. apply bool_decide_eq_true_2. reflexivity.
  - discriminate.
Defined.

(* ===================================================================== *)
(** ** PUT /api/users/profile and PUT /api/users/password *)
(* ===================================================================== *)

Section User_updates.
Context `{Platform} `{Runtime}.
Import UserController.

Lemma no_other_holds (m : gmap string User.t) (id e : string) :
  ¬ Exists (λ other : string * User.t, other.1 ≠ id ∧ User.email other.2 = e)
      (map_to_list m)
  ↔ ∀ j v, m !! j = Some v → j ≠ id → User.email v ≠ e.
Proof.
  rewrite Exists_exists. split.
  - intros Hno j v Hj Hne He. apply Hno. exists (j, v).
    split; [by apply elem_of_map_to_list | done].
  - intros Hall ([j v] & Hin%elem_of_map_to_list & Hne & He).
    by apply (Hall j v).
Qed.

Lemma free_for_iff (db : DB) (id : string) (u : User.t) (e : string) :
  ¬ (e ≠ User.email u
     ∧ Exists (λ other : string * User.t, other.1 ≠ id ∧ User.email other.2 = e)
         (map_to_list (users db)))
  ↔ free_for db id u e.
Proof.
  unfold free_for. rewrite <- no_other_holds.
  destruct (decide (e = User.email u)); [tauto|].
  split; [|tauto]. intros Hno. right. intros Hex. by apply Hno.
Qed.

(** What one call of [updateProfile] does to the store: nothing, or it
    rewrites name and e-mail of the requester's row. *)
Lemma updateProfile_store (req : Request.t) (db : DB) :
  (Reply.status (updateProfile req db).1 ≠ 200%Z ∧ (updateProfile req db).2 = db)
  ∨ ∃ r d u,
      Request.user req = Some r
      ∧ updateProfileSchema (Request.body req) = Zod.Valid d
      ∧ users db !! JwtPayload.userId r = Some u
      ∧ free_for db (JwtPayload.userId r) u (email d)
      ∧ (updateProfile req db).1
        = Reply.mk 200
            (AccountUpdated "Profile updated successfully"
               (AuthController.account (set_name_email (name d) (email d) u)))
      ∧ (updateProfile req db).2
        = mkDB (<[JwtPayload.userId r := set_name_email (name d) (email d) u]>
                  (users db))
            (tutorProfiles db) (bookings db) (reviews db).
Proof.
  unfold updateProfile.
  destruct (Request.user req) as [r|]; [|left; by run_more].
  destruct (updateProfileSchema (Request.body req)) as [d|e] eqn:Hd;
    [|left; by run_more].
  run_more.
  destruct (bool_decide (email d = JwtPayload.email r)); simpl.
  2: destruct (find _ _) as [existing|]; simpl.
  2: destruct (bool_decide (User.id existing = JwtPayload.userId r)); simpl.
  3: by left.
  all: destruct (users db !! JwtPayload.userId r) as [u|] eqn:Hu; simpl;
    [|by left].
  all: case_bool_decide as Hother; simpl; [by left|].
  all: right; exists r, d, u; split_and!; try done.
  all: by apply free_for_iff.
Qed.

(** X13.  Whatever the request, [updateProfile] changes nothing but the
    name and the e-mail address of the requester's own row.  Every other
    user row is as before, no row appears or disappears, the requester's
    id, password, role and status are kept, and profiles, bookings and
    reviews are not touched. *)
Theorem updateProfile_frame (req : Request.t) (db : DB) :
  let db' := (updateProfile req db).2 in
  tutorProfiles db' = tutorProfiles db
  ∧ bookings db' = bookings db
  ∧ reviews db' = reviews db
  ∧ (∀ k, users db !! k = None → users db' !! k = None)
  ∧ (∀ k u, users db !! k = Some u →
       ∃ u', users db' !! k = Some u'
             ∧ User.id u' = User.id u
             ∧ User.password u' = User.password u
             ∧ User.role u' = User.role u
             ∧ User.status u' = User.status u
             ∧ (JwtPayload.userId <$> Request.user req ≠ Some k → u' = u)).
Proof.
  intros db'. subst db'.
  destruct (updateProfile_store req db)
    as [[_ ->] | (r & d & u & Hr & _ & Hu & _ & _ & ->)].
  - split_and!; try done. intros k u Hk. by exists u.
  - simpl. split_and!; try done.
    + intros k Hk. rewrite lookup_insert_ne; [done|]. intros <-. congruence.
    + intros k v Hk. destruct (decide (JwtPayload.userId r = k)) as [<-|Hne].
      * rewrite Hu in Hk. simplify_eq. eexists. rewrite lookup_insert_eq.
        split_and!; try done. rewrite Hr. simpl. congruence.
      * exists v. by rewrite lookup_insert_ne.
Qed.

(** X14.  An address that another account holds is refused: when the
    body asks for an e-mail address other than the one in the token, and
    a row of another user carries it, the answer is 400 and nothing is
    stored. *)
Theorem updateProfile_taken (req : Request.t) (db : DB) (r : JwtPayload.t)
    (d : UpdateProfileInput) (j : string) (v : User.t) :
  Request.user req = Some r →
  updateProfileSchema (Request.body req) = Zod.Valid d →
  email d ≠ JwtPayload.email r →
  emails_unique db →
  users db !! j = Some v →
  User.email v = email d →
  User.id v ≠ JwtPayload.userId r →
  updateProfile req db
  = (Reply.mk 400
       (Plain (Error "Bad Request" "Email is already taken by another user")),
     db).
Proof.
  intros Hr Hd Hnew Huniq Hj He Hother.
  unfold updateProfile. rewrite Hr. run_more. rewrite Hd. simpl.
  rewrite bool_decide_eq_false_2 by done. simpl.
  rewrite <- He, (find_email_unique _ _ _ Huniq Hj). simpl.
  by rewrite bool_decide_eq_false_2.
Qed.

(** X15.  The check for a taken address is skipped when the body asks
    for the address in the token.  If the account no longer has that
    address and another account has taken it since, the write is
    refused by the unique column and the answer is 500, not 400; the
    store is unchanged. *)
Theorem updateProfile_stale_token (req : Request.t) (db : DB) (r : JwtPayload.t)
    (d : UpdateProfileInput) (u : User.t) (j : string) (v : User.t) :
  Request.user req = Some r →
  updateProfileSchema (Request.body req) = Zod.Valid d →
  email d = JwtPayload.email r →
  users db !! JwtPayload.userId r = Some u →
  User.email u ≠ email d →
  users db !! j = Some v →
  j ≠ JwtPayload.userId r →
  User.email v = email d →
  updateProfile req db
  = (Reply.mk 500 (Plain (Error "Internal Server Error" "Failed to update profile")),
     db).
Proof.
  intros Hr Hd Hsame Hu Hstale Hj Hne He.
  unfold updateProfile. rewrite Hr. run_more. rewrite Hd. simpl.
  rewrite bool_decide_eq_true_2 by done. simpl. rewrite Hu. simpl.
  rewrite bool_decide_eq_true_2; [done|].
  split; [done|]. apply Exists_exists. exists (j, v).
  split; [by apply elem_of_map_to_list | done].
Qed.

(** What one call of [updatePassword] does to the store. *)
Lemma updatePassword_store (req : Request.t) (db : DB) :
  (Reply.status (updatePassword req db).1 ≠ 200%Z
   ∧ (updatePassword req db).2 = db)
  ∨ ∃ r d u,
      Request.user req = Some r
      ∧ updatePasswordSchema (Request.body req) = Zod.Valid d
      ∧ users db !! JwtPayload.userId r = Some u
      ∧ comparePassword (currentPassword d) (User.password u) = true
      ∧ (updatePassword req db).1
        = Reply.mk 200 (Message "Password updated successfully")
      ∧ (updatePassword req db).2
        = mkDB (<[JwtPayload.userId r :=
                    set_password (hashPassword (newPassword d)) u]> (users db))
            (tutorProfiles db) (bookings db) (reviews db).
Proof.
  unfold updatePassword.
  destruct (Request.user req) as [r|]; [|left; by run_more].
  destruct (updatePasswordSchema (Request.body req)) as [d|e] eqn:Hd;
    [|left; by run_more].
  run_more.
  destruct (users db !! JwtPayload.userId r) as [u|] eqn:Hu; simpl; [|by left].
  destruct (comparePassword _ _) eqn:Hcmp; simpl; [|by left].
  rewrite Hu. simpl.
  rewrite bool_decide_eq_false_2 by (by intros [? _]). simpl.
  right. by exists r, d, u.
Qed.

(** X16.  A password changes only for the requester's own row, only
    when [comparePassword] accepted the current password sent against
    the stored hash, and then to the hash of the new one.  Nothing else
    in the store changes, whatever the request. *)
Theorem updatePassword_frame (req : Request.t) (db : DB) :
  let db' := (updatePassword req db).2 in
  tutorProfiles db' = tutorProfiles db
  ∧ bookings db' = bookings db
  ∧ reviews db' = reviews db
  ∧ (∀ k, users db !! k = None → users db' !! k = None)
  ∧ (∀ k u, users db !! k = Some u →
       ∃ u', users db' !! k = Some u'
             ∧ User.id u' = User.id u
             ∧ User.email u' = User.email u
             ∧ User.name u' = User.name u
             ∧ User.role u' = User.role u
             ∧ User.status u' = User.status u
             ∧ (User.password u' ≠ User.password u →
                ∃ r d, Request.user req = Some r
                       ∧ JwtPayload.userId r = k
                       ∧ updatePasswordSchema (Request.body req) = Zod.Valid d
                       ∧ comparePassword (currentPassword d) (User.password u) = true
                       ∧ User.password u' = hashPassword (newPassword d))).
Proof.
  intros db'. subst db'.
  destruct (updatePassword_store req db)
    as [[_ ->] | (r & d & u & Hr & Hd & Hu & Hcmp & _ & ->)].
  - split_and!; try done. intros k u Hk. by exists u.
  - simpl. split_and!; try done.
    + intros k Hk. rewrite lookup_insert_ne; [done|]. intros <-. congruence.
    + intros k v Hk. destruct (decide (JwtPayload.userId r = k)) as [<-|Hne].
      * rewrite Hu in Hk. simplify_eq. eexists. rewrite lookup_insert_eq.
        split_and!; try done. intros _. by exists r, d.
      * exists v. by rewrite lookup_insert_ne.
Qed.

Lemma emails_unique_rewrite (db : DB) (k : string) (u u' : User.t) :
  emails_unique db → users db !! k = Some u →
  free_for db k u (User.email u') →
  emails_unique (mkDB (<[k := u']> (users db)) (tutorProfiles db)
                   (bookings db) (reviews db)).
Proof.
  intros Huniq Hk Hfree i j v w Hi Hj Hemail. simpl in *.
  apply lookup_insert_Some in Hi as [[<- <-] | [Hni Hi]];
    apply lookup_insert_Some in Hj as [[<- <-] | [Hnj Hj]]; try done.
  - destruct Hfree as [Hsame | Hfree].
    + rewrite Hsame in Hemail. by eapply Huniq.
    + by destruct (Hfree j w).
  - destruct Hfree as [Hsame | Hfree].
    + rewrite Hsame in Hemail. by eapply Huniq.
    + by destruct (Hfree i v).
  - by eapply Huniq.
Qed.

(** X17.  After a password change answered 200, a login with the
    account's address and the new password is answered 200, provided
    [comparePassword] accepts the new password against its hash and the
    account is not banned. *)
Theorem updatePassword_then_login (req req' : Request.t) (db : DB)
    (r : JwtPayload.t) (d : UpdatePasswordInput) (u : User.t) :
  Request.user req = Some r →
  updatePasswordSchema (Request.body req) = Zod.Valid d →
  users db !! JwtPayload.userId r = Some u →
  Reply.status (updatePassword req db).1 = 200%Z →
  emails_unique db →
  User.status u ≠ BANNED →
  comparePassword (newPassword d) (hashPassword (newPassword d)) = true →
  AuthSession.loginSchema (Request.body req')
  = Zod.Valid (AuthSession.mkLoginInput (User.email u) (newPassword d)) →
  Reply.status (AuthSession.login req' (updatePassword req db).2).1 = 200%Z.
Proof.
  intros Hr Hd Hu H200 Huniq Hactive Hcmp Hlogin.
  destruct (updatePassword_store req db)
    as [[Hno _] | (r' & d' & u' & Hr' & Hd' & Hu' & _ & _ & Hdb)]; [done|].
  rewrite Hr in Hr'. injection Hr' as <-.
  rewrite Hd in Hd'. injection Hd' as <-.
  rewrite Hu in Hu'. injection Hu' as <-.
  rewrite Hdb, (login_valid _ _ _ Hlogin). simpl.
  set (u2 := set_password _ u).
  assert (Huniq' : emails_unique
            (mkDB (<[JwtPayload.userId r := u2]> (users db)) (tutorProfiles db)
               (bookings db) (reviews db))).
  { apply (emails_unique_rewrite db _ u); [done|done|by left]. }
  pose proof (find_email_unique _ (JwtPayload.userId r) u2 Huniq'
                (lookup_insert_eq _ _ _)) as Hfound.
  cbn [users] in Hfound. change (User.email u2) with (User.email u) in Hfound.
  rewrite Hfound. simpl. rewrite bool_decide_eq_false_2 by done. by rewrite Hcmp.
Qed.

End User_updates.

Lemma updateProfile_taken_witness :
  UserController.updateProfile (H := Sample.platform)
    (Request.mk (Sample.as_user Sample.alice "STUDENT") ""
       (Fixture.profile_body "Alice" "bob@example.com"))
    Sample.db
  = (Reply.mk 400
       (Plain (Error "Bad Request" "Email is already taken by another user")),
     Sample.db).
Proof.
  apply (updateProfile_taken (H := Sample.platform)
           (Request.mk (Sample.as_user Sample.alice "STUDENT") ""
              (Fixture.profile_body "Alice" "bob@example.com"))
           Sample.db
           (JwtPayload.mk Sample.alice (Sample.alice ++ "@example.com") "STUDENT")
           (UserController.mkUpdateProfileInput "Alice" "bob@example.com")
           Sample.bob (Sample.user_row Sample.bob "bob" STUDENT ACTIVE)).
  - reflexivity.
  - reflexivity.
  - discriminate.
  - exact Sample_emails_unique.
  - reflexivity.
  - reflexivity.
  - discriminate.
Defined.

Lemma updateProfile_stale_token_witness :
  UserController.updateProfile (H := Sample.platform)
    (Request.mk (Some (JwtPayload.mk Sample.alice "bob@example.com" "STUDENT")) ""
       (Fixture.profile_body "Alice" "bob@example.com"))
    Sample.db
  = (Reply.mk 500 (Plain (Error "Internal Server Error" "Failed to update profile")),
     Sample.db).
Proof.
  apply (updateProfile_stale_token (H := Sample.platform)
           (Request.mk (Some (JwtPayload.mk Sample.alice "bob@example.com" "STUDENT"))
              "" (Fixture.profile_body "Alice" "bob@example.com"))
           Sample.db
           (JwtPayload.mk Sample.alice "bob@example.com" "STUDENT")
           (UserController.mkUpdateProfileInput "Alice" "bob@example.com")
           (Sample.user_row Sample.alice "alice" STUDENT ACTIVE)
           Sample.bob (Sample.user_row Sample.bob "bob" STUDENT ACTIVE)).
  - reflexivity.
  - reflexivity.
  - reflexivity.
  - reflexivity.
  - discriminate.
  - reflexivity.
  - discriminate.
  - reflexivity.
Defined.

Lemma updatePassword_then_login_witness :
  Reply.status
    (AuthSession.login (H := Sample.platform) (H0 := Fixture.runtime)
       (Request.mk None "" (Fixture.login_body "alice@example.com" "new password"))
       (UserController.updatePassword (H := Sample.platform) (H0 := Fixture.runtime)
          (Request.mk (Sample.as_user Sample.alice "STUDENT") ""
             (Fixture.password_body "secret" "new password"))
          Sample.db).2).1 = 200%Z.
Proof.
  apply (updatePassword_then_login (H := Sample.platform) (H0 := Fixture.runtime)
           (Request.mk (Sample.as_user Sample.alice "STUDENT") ""
              (Fixture.password_body "secret" "new password"))
           (Request.mk None "" (Fixture.login_body "alice@example.com" "new password"))
           Sample.db
           (JwtPayload.mk Sample.alice (Sample.alice ++ "@example.com") "STUDENT")
           (UserController.mkUpdatePasswordInput "secret" "new password")
           (Sample.user_row Sample.alice "alice" STUDENT ACTIVE)).
  - reflexivity.
  - reflexivity.
  - reflexivity.
  - vm_compute. reflexivity.
  - exact Sample_emails_unique.
  - discriminate.
  - vm_compute. reflexivity.
  - reflexivity.
Defined.

(* ===================================================================== *)
(** ** PATCH /api/admin/users/:id/status *)
(* ===================================================================== *)

Section User_status.
Context `{Platform} `{Runtime}.
Import AdminController.

Lemma userStatusSchema_valid body name :
  userStatusSchema body = Zod.Valid name →
  (name = "ACTIVE" ∧ UserStatus_of_name name = Some ACTIVE)
  ∨ (name = "BANNED" ∧ UserStatus_of_name name = Some BANNED).
Proof.
  unfold userStatusSchema.
  intros (o & -> & Hname)%z_object_valid.
  apply z_enum_valid in Hname as [_ Hin].
  rewrite !elem_of_cons in Hin.
  destruct Hin as [-> | [-> | Hin]]; [by left | by right|].
  by apply elem_of_nil in Hin.
Qed.

(** What one call of [updateUserStatus] does to the store: nothing, or
    it rewrites the status of the addressed row. *)
Lemma updateUserStatus_store (req : Request.t) (db : DB) :
  (Reply.status (updateUserStatus req db).1 ≠ 200%Z
   ∧ (updateUserStatus req db).2 = db)
  ∨ ∃ name s u,
      userStatusSchema (Request.body req) = Zod.Valid name
      ∧ UserStatus_of_name name = Some s
      ∧ users db !! Request.param req = Some u
      ∧ ¬ (User.role u = ADMIN ∧ s = BANNED)
      ∧ Reply.status (updateUserStatus req db).1 = 200%Z
      ∧ (updateUserStatus req db).2
        = mkDB (<[Request.param req := set_status s u]> (users db))
            (tutorProfiles db) (bookings db) (reviews db).
Proof.
  unfold updateUserStatus.
  destruct (userStatusSchema (Request.body req)) as [name|e] eqn:Hname;
    [|left; by run_more].
  run_more.
  destruct (users db !! Request.param req) as [u|] eqn:Hu; simpl; [|by left].
  destruct (userStatusSchema_valid _ _ Hname) as [[-> Hs] | [-> Hs]].
  - rewrite andb_false_r. simpl. rewrite Hu. simpl.
    rewrite bool_decide_eq_false_2 by (by intros [? _]). simpl.
    right. exists "ACTIVE", ACTIVE, u. split_and!; try done. by intros [_ ?].
  - case_bool_decide as Hrole; simpl; [by left|].
    rewrite Hu. simpl.
    rewrite bool_decide_eq_false_2 by (by intros [? _]). simpl.
    right. exists "BANNED", BANNED, u. split_and!; try done. by intros [? _].
Qed.

(** X18.  Whatever the request, [updateUserStatus] changes nothing but
    the status of the user row it addresses, and it never turns the row
    of an ADMIN to BANNED. *)
Theorem updateUserStatus_frame (req : Request.t) (db : DB) :
  let db' := (updateUserStatus req db).2 in
  tutorProfiles db' = tutorProfiles db
  ∧ bookings db' = bookings db
  ∧ reviews db' = reviews db
  ∧ (∀ k, users db !! k = None → users db' !! k = None)
  ∧ (∀ k u, users db !! k = Some u →
       ∃ u', users db' !! k = Some u'
             ∧ User.id u' = User.id u
             ∧ User.email u' = User.email u
             ∧ User.password u' = User.password u
             ∧ User.name u' = User.name u
             ∧ User.role u' = User.role u
             ∧ (k ≠ Request.param req → u' = u)
             ∧ (User.role u = ADMIN → User.status u' = BANNED →
                User.status u = BANNED)).
Proof.
  intros db'. subst db'.
  destruct (updateUserStatus_store req db)
    as [[_ ->] | (name & s & u & _ & _ & Hu & Hadmin & _ & ->)].
  - split_and!; try done. intros k u Hk. by exists u.
  - simpl. split_and!; try done.
    + intros k Hk. rewrite lookup_insert_ne; [done|]. intros <-. congruence.
    + intros k v Hk. destruct (decide (Request.param req = k)) as [<-|Hne].
      * rewrite Hu in Hk. simplify_eq. eexists. rewrite lookup_insert_eq.
        split_and!; try done. simpl. intros Hrole ->. by destruct Hadmin.
      * exists v. by rewrite lookup_insert_ne.
Qed.

(** X19.  Banning is felt at once: after a ban answered 200, a login
    with the address of the banned account is answered 403, whatever
    password it carries. *)
Theorem ban_then_login (req req' : Request.t) (db : DB) (u : User.t)
    (d : AuthSession.LoginInput) :
  userStatusSchema (Request.body req) = Zod.Valid "BANNED" →
  users db !! Request.param req = Some u →
  Reply.status (updateUserStatus req db).1 = 200%Z →
  emails_unique db →
  AuthSession.loginSchema (Request.body req') = Zod.Valid d →
  AuthSession.email d = User.email u →
  Reply.status (AuthSession.login req' (updateUserStatus req db).2).1 = 403%Z.
Proof.
  intros Hbody Hu H200 Huniq Hd He.
  destruct (updateUserStatus_store req db)
    as [[Hno _] | (name & s & u' & Hname & Hs & Hu' & _ & _ & Hdb)]; [done|].
  rewrite Hbody in Hname. injection Hname as <-.
  injection Hs as <-. rewrite Hu in Hu'. injection Hu' as <-.
  rewrite Hdb, (login_valid _ _ _ Hd), He.
  set (u2 := set_status BANNED u).
  assert (Huniq' : emails_unique
            (mkDB (<[Request.param req := u2]> (users db)) (tutorProfiles db)
               (bookings db) (reviews db))).
  { apply (emails_unique_rewrite db _ u); [done|done|by left]. }
  pose proof (find_email_unique _ (Request.param req) u2 Huniq'
                (lookup_insert_eq _ _ _)) as Hfound.
  cbn [users] in Hfound. change (User.email u2) with (User.email u) in Hfound.
  cbn [users]. by rewrite Hfound.
Qed.

Lemma db_eta (db : DB) :
  mkDB (users db) (tutorProfiles db) (bookings db) (reviews db) = db.
Proof. by destruct db. Qed.

(** X20.  Round trip: banning an active user who is not an ADMIN and
    then unbanning them gives back the store as it was. *)
Theorem ban_unban (ban unban : Request.t) (db : DB) (u : User.t) :
  userStatusSchema (Request.body ban) = Zod.Valid "BANNED" →
  userStatusSchema (Request.body unban) = Zod.Valid "ACTIVE" →
  Request.param unban = Request.param ban →
  users db !! Request.param ban = Some u →
  User.role u ≠ ADMIN →
  User.status u = ACTIVE →
  Reply.status (updateUserStatus ban db).1 = 200%Z
  ∧ Reply.status (updateUserStatus unban (updateUserStatus ban db).2).1 = 200%Z
  ∧ (updateUserStatus unban (updateUserStatus ban db).2).2 = db.
Proof.
  intros Hban Hunban Hparam Hu Hrole Hstatus.
  assert (Hfirst : updateUserStatus ban db
    = (Reply.mk 200
         (AccountUpdated "User banned successfully"
            (AuthController.account (set_status BANNED u))),
       mkDB (<[Request.param ban := set_status BANNED u]> (users db))
         (tutorProfiles db) (bookings db) (reviews db))).
  { unfold updateUserStatus. run_more. rewrite Hban. simpl. rewrite Hu. simpl.
    rewrite (bool_decide_eq_false_2 (User.role u = ADMIN)) by done. simpl.
    rewrite Hu. simpl.
    by rewrite bool_decide_eq_false_2 by (by intros [? _]). }
  rewrite Hfirst. simpl. split; [done|].
  unfold updateUserStatus. run_more. rewrite Hunban, Hparam. simpl.
  rewrite !lookup_insert_eq. simpl. rewrite andb_false_r. simpl.
  rewrite lookup_insert_eq. simpl.
  rewrite bool_decide_eq_false_2 by (by intros [? _]). simpl.
  split; [done|].
  rewrite insert_insert_eq.
  replace (set_status ACTIVE (set_status BANNED u)) with u
    by (destruct u; simpl in *; by subst).
  rewrite insert_id by done. apply db_eta.
Qed.

(** X21.  Behind [isAdmin], as the admin router mounts it, a request
    that does not come from a user with the role ADMIN changes nothing:
    it is answered 401 or 403 by the guard and the handler is not
    reached. *)
Theorem updateUserStatus_admin_only (req : Request.t) (db : DB) :
  JwtPayload.role <$> Request.user req ≠ Some "ADMIN" →
  (behind isAdmin updateUserStatus req db).2 = db
  ∧ (Reply.status (behind isAdmin updateUserStatus req db).1 = 401%Z
     ∨ Reply.status (behind isAdmin updateUserStatus req db).1 = 403%Z).
Proof.
  intros Hrole. unfold behind, isAdmin, roleGuard.
  destruct (Request.user req) as [r|]; simpl; [|auto].
  rewrite bool_decide_eq_false_2; simpl; [auto|].
  rewrite list_elem_of_singleton. intros Hr. simpl in Hrole. congruence.
Qed.

End User_status.

Lemma ban_then_login_witness :
  Reply.status
    (AuthSession.login (H := Sample.platform) (H0 := Fixture.runtime)
       (Request.mk None "" (Fixture.login_body "bob@example.com" "secret"))
       (AdminController.updateUserStatus (H := Sample.platform)
          (Request.mk (Sample.as_user Sample.root "ADMIN") Sample.bob
             (Fixture.status_body "BANNED"))
          Sample.db).2).1 = 403%Z.
Proof.
  apply (ban_then_login (H := Sample.platform) (H0 := Fixture.runtime)
           (Request.mk (Sample.as_user Sample.root "ADMIN") Sample.bob
              (Fixture.status_body "BANNED"))
           (Request.mk None "" (Fixture.login_body "bob@example.com" "secret"))
           Sample.db (Sample.user_row Sample.bob "bob" STUDENT ACTIVE)
           (AuthSession.mkLoginInput "bob@example.com" "secret")).
  - reflexivity.
  - reflexivity.
  - vm_compute. reflexivity.
  - exact Sample_emails_unique.
  - reflexivity.
  - reflexivity.
Defined.

Lemma ban_unban_witness :
  Reply.status
    (AdminController.updateUserStatus (H := Sample.platform)
       (Request.mk (Sample.as_user Sample.root "ADMIN") Sample.bob
          (Fixture.status_body "BANNED"))
       Sample.db).1 = 200%Z
  ∧ Reply.status
      (AdminController.updateUserStatus (H := Sample.platform)
         (Request.mk (Sample.as_user Sample.root "ADMIN") Sample.bob
            (Fixture.status_body "ACTIVE"))
         (AdminController.updateUserStatus (H := Sample.platform)
            (Request.mk (Sample.as_user Sample.root "ADMIN") Sample.bob
               (Fixture.status_body "BANNED"))
            Sample.db).2).1 = 200%Z
  ∧ (AdminController.updateUserStatus (H := Sample.platform)
       (Request.mk (Sample.as_user Sample.root "ADMIN") Sample.bob
          (Fixture.status_body "ACTIVE"))
       (AdminController.updateUserStatus (H := Sample.platform)
          (Request.mk (Sample.as_user Sample.root "ADMIN") Sample.bob
             (Fixture.status_body "BANNED"))
          Sample.db).2).2 = Sample.db.
Proof.
  apply (ban_unban (H := Sample.platform)
           (Request.mk (Sample.as_user Sample.root "ADMIN") Sample.bob
              (Fixture.status_body "BANNED"))
           (Request.mk (Sample.as_user Sample.root "ADMIN") Sample.bob
              (Fixture.status_body "ACTIVE"))
           Sample.db (Sample.user_row Sample.bob "bob" STUDENT ACTIVE)).
  - reflexivity.
  - reflexivity.
  - reflexivity.
  - reflexivity.
  - discriminate.
  - reflexivity.
Defined.

Lemma updateUserStatus_admin_only_witness :
  (behind isAdmin (AdminController.updateUserStatus (H := Sample.platform))
     (Request.mk (Sample.as_user Sample.tara "TUTOR") Sample.bob
        (Fixture.status_body "BANNED"))
     Sample.db).2 = Sample.db
  ∧ (Reply.status
       (behind isAdmin (AdminController.updateUserStatus (H := Sample.platform))
          (Request.mk (Sample.as_user Sample.tara "TUTOR") Sample.bob
             (Fixture.status_body "BANNED"))
          Sample.db).1 = 401%Z
     ∨ Reply.status
         (behind isAdmin (AdminController.updateUserStatus (H := Sample.platform))
            (Request.mk (Sample.as_user Sample.tara "TUTOR") Sample.bob
               (Fixture.status_body "BANNED"))
            Sample.db).1 = 403%Z).
Proof.
  apply (updateUserStatus_admin_only (H := Sample.platform)
           (Request.mk (Sample.as_user Sample.tara "TUTOR") Sample.bob
              (Fixture.status_body "BANNED"))
           Sample.db).
  discriminate.
Defined.

(* ===================================================================== *)
(** ** generateSlug *)
(* ===================================================================== *)

Section Slugs.
Import CategoryController.

Lemma hyphen_is_slug_char x : is_hyphen x = true → slug_char x = true.
Proof. unfold is_hyphen. intros ->%Ascii.eqb_eq. reflexivity. Qed.

Lemma replace_spaces_slug_chars (b : bool) (l : list ascii) :
  Forall (λ x, slug_char x || is_space x = true) l →
  Forall (λ x, slug_char x = true) (replace_runs is_space b l).
Proof.
  intros Hl. revert b. induction Hl as [|x l Hx Hl IH]; intros b; simpl.
  - constructor.
  - destruct (is_space x) eqn:Hs.
    + destruct b; [apply IH|]. constructor; [reflexivity | apply IH].
    + constructor; [|apply IH]. by rewrite orb_false_r in Hx.
Qed.

Lemma replace_hyphens_shaped (b : bool) (l : list ascii) :
  Forall (λ x, slug_char x = true) l →
  slug_shaped (replace_runs is_hyphen b l) = true
  ∧ (b = true →
     match replace_runs is_hyphen b l with
     | y :: _ => is_hyphen y = false
     | [] => True
     end).
Proof.
  intros Hl. revert b. induction Hl as [|x l Hx Hl IH]; intros b.
  - by destruct b.
  - simpl. destruct (is_hyphen x) eqn:Hh.
    + destruct b; [apply IH|].
      destruct (IH true) as [Hshaped Hhead]. split; [|done].
      simpl. rewrite Hshaped, andb_true_r.
      specialize (Hhead eq_refl).
      destruct (replace_runs is_hyphen true l) as [|y r]; [done|].
      by rewrite Hhead.
    + destruct (IH false) as [Hshaped _]. split; [|done].
      simpl. rewrite Hx, Hh, Hshaped. simpl.
      by destruct (replace_runs is_hyphen false l).
Qed.

(** X22.  Whatever the name, the slug made from it holds only
    characters of [a-z0-9-] and never two hyphens in a row. *)
Theorem generateSlug_shaped `{Runtime} (name : string) :
  slug_shaped (list_ascii_of_string (generateSlug name)) = true.
Proof.
  unfold generateSlug. rewrite list_ascii_of_string_of_list_ascii.
  apply replace_hyphens_shaped, replace_spaces_slug_chars.
  apply Forall_forall. intros x Hx%list_elem_of_In%filter_In. by destruct Hx.
Qed.

Lemma slug_char_not_space x : slug_char x = true → is_space x = false.
Proof.
  unfold slug_char, is_space. generalize (nat_of_ascii x). intros n Hn.
  repeat match goal with
         | |- context [(?a =? ?b)%nat] => destruct (Nat.eqb_spec a b)
         end; try done; subst; simpl in Hn; discriminate.
Qed.

Lemma slug_shaped_chars l :
  slug_shaped l = true → Forall (λ x, slug_char x = true) l.
Proof.
  induction l as [|x l IH]; simpl; [constructor|].
  rewrite !andb_true_iff. intros [[Hx _] Hl]. constructor; auto.
Qed.

Lemma trimStart_no_space l :
  Forall (λ x, is_space x = false) l → trimStart l = l.
Proof. destruct 1 as [|x l Hx _]; simpl; [done|]. by rewrite Hx. Qed.

Lemma trim_no_space l :
  Forall (λ x, is_space x = false) l → trim l = l.
Proof.
  intros Hl. unfold trim. rewrite (trimStart_no_space l Hl).
  rewrite trimStart_no_space; [apply rev_involutive|].
  apply Forall_forall. intros x Hx%list_elem_of_In%in_rev%list_elem_of_In.
  by apply (proj1 (Forall_forall _ _) Hl).
Qed.

Lemma filter_all {A} (f : A → bool) l :
  Forall (λ x, f x = true) l → List.filter f l = l.
Proof. induction 1 as [|x l Hx _ IH]; simpl; [done|]. by rewrite Hx, IH. Qed.

Lemma replace_runs_none (c : ascii → bool) l :
  Forall (λ x, c x = false) l → replace_runs c false l = l.
Proof. induction 1 as [|x l Hx _ IH]; simpl; [done|]. by rewrite Hx, IH. Qed.

Lemma replace_hyphens_fixed (l : list ascii) :
  slug_shaped l = true →
  replace_runs is_hyphen false l = l
  ∧ (match l with
     | y :: _ => is_hyphen y = false
     | [] => True
     end → replace_runs is_hyphen true l = l).
Proof.
  induction l as [|x l IH]; [done|]. simpl.
  rewrite !andb_true_iff. intros [[Hx Hpair] Hl].
  destruct (IH Hl) as [Hfalse Htrue].
  destruct (is_hyphen x) eqn:Hh.
  - split; [|done].
    assert (x = "-"%char) as -> by (by apply Ascii.eqb_eq).
    f_equal. apply Htrue.
    destruct l as [|y r]; [done|]. simpl in Hpair.
    by destruct (is_hyphen y).
  - split; [by rewrite Hfalse | by rewrite Hfalse].
Qed.

(** X23.  A slug is a fixed point: applied to a string that already has
    the shape of a slug, [generateSlug] gives it back, so that
    [generateSlug (generateSlug name)] is [generateSlug name].  It takes
    that lower-casing leaves the characters of [a-z0-9-] alone. *)
Theorem generateSlug_idempotent `{Runtime} (name : string) :
  (∀ s, slug_shaped (list_ascii_of_string s) = true → toLowerCase s = s) →
  generateSlug (generateSlug name) = generateSlug name.
Proof.
  intros Hlower.
  assert (Hshaped : slug_shaped (list_ascii_of_string (generateSlug name)) = true).
  { unfold generateSlug. rewrite list_ascii_of_string_of_list_ascii.
    apply replace_hyphens_shaped, replace_spaces_slug_chars.
    apply Forall_forall. intros x Hx%list_elem_of_In%filter_In. by destruct Hx. }
  set (s := generateSlug name) in *.
  unfold generateSlug at 1. rewrite (Hlower s Hshaped).
  pose proof (slug_shaped_chars _ Hshaped) as Hchars.
  assert (Hnospace : Forall (λ x, is_space x = false) (list_ascii_of_string s)).
  { eapply Forall_impl; [exact Hchars|]. apply slug_char_not_space. }
  rewrite (trim_no_space _ Hnospace).
  rewrite filter_all
    by (eapply Forall_impl; [exact Hchars|]; by intros x ->).
  rewrite (replace_runs_none _ _ Hnospace).
  rewrite (proj1 (replace_hyphens_fixed _ Hshaped)).
  apply string_of_list_ascii_of_string.
Qed.

End Slugs.

Lemma Fixture_lower_fixes_slugs (s : string) :
  slug_shaped (list_ascii_of_string s) = true →
  toLowerCase (Runtime := Fixture.runtime) s = s.
Proof.
  simpl. induction s as [|c s IH]; [done|]. simpl.
  rewrite !andb_true_iff. intros [[Hc _] Hs]. rewrite (IH Hs). f_equal.
  unfold Fixture.shift. unfold CategoryController.slug_char in Hc.
  destruct ((65 <=? nat_of_ascii c)%nat && (nat_of_ascii c <=? 90)%nat)
    eqn:Hupper; [|done].
  rewrite andb_true_iff, !Nat.leb_le in Hupper.
  rewrite !orb_true_iff, !andb_true_iff, !Nat.leb_le, Nat.eqb_eq in Hc. lia.
Qed.

Lemma generateSlug_idempotent_witness :
  CategoryController.generateSlug (H := Fixture.runtime)
    (CategoryController.generateSlug (H := Fixture.runtime)
       "  Maths & Physics -- A level ")
  = CategoryController.generateSlug (H := Fixture.runtime)
      "  Maths & Physics -- A level ".
Proof.
  apply (generateSlug_idempotent (H := Fixture.runtime)
           "  Maths & Physics -- A level ").
  exact Fixture_lower_fixes_slugs.
Defined.

(* ===================================================================== *)
(** ** The store as a whole *)
(* ===================================================================== *)

Section Whole_store.
Context `{Platform} `{Runtime}.

(** X24.  The reading handlers never write: whatever the request, the
    store after [getBookingById], [getBookings], [getTutorReviews],
    [login] and [getCurrentUser] is the store before. *)
Theorem reads_leave_store (status : option QueryValue) (req : Request.t) (db : DB) :
  (BookingController.getBookingById req db).2 = db
  ∧ (BookingListing.getBookings status req db).2 = db
  ∧ (ReviewController.getTutorReviews req db).2 = db
  ∧ (AuthSession.login req db).2 = db
  ∧ (AuthSession.getCurrentUser req db).2 = db.
Proof.
  split_and!.
  - unfold BookingController.getBookingById.
    destruct (Request.user req); run; [|done].
    destruct (bookings db !! Request.param req); simpl; [|done].
    by destruct (_ && _).
  - unfold BookingListing.getBookings.
    destruct (Request.user req); run_more; [|done].
    destruct (query_truthy status); [|done].
    by destruct (BookingStatus_of_name _).
  - unfold ReviewController.getTutorReviews. by run.
  - unfold AuthSession.login. run_more.
    destruct (AuthSession.loginSchema _); simpl; [|done].
    destruct (find _ _); simpl; [|done].
    destruct (bool_decide _); simpl; [done|].
    by destruct (comparePassword _ _).
  - unfold AuthSession.getCurrentUser.
    destruct (Request.user req); run_more; [|done].
    by destruct (users db !! _).
Qed.

Lemma getBookingById_store (req : Request.t) (db : DB) :
  (BookingController.getBookingById req db).2 = db.
Proof.
  unfold BookingController.getBookingById.
  destruct (Request.user req); run; [|done].
  destruct (bookings db !! Request.param req); simpl; [|done].
  by destruct (_ && _).
Qed.

Lemma getTutorReviews_store (req : Request.t) (db : DB) :
  (ReviewController.getTutorReviews req db).2 = db.
Proof. unfold ReviewController.getTutorReviews. by run. Qed.

Lemma guarded_store (roles : list string)
    (handler : Request.t → DB → Response.t * DB) (req : Request.t) (db : DB) :
  (guarded (roleGuard roles) handler req db).2 = db
  ∨ guarded (roleGuard roles) handler req db = handler req db.
Proof.
  unfold guarded, roleGuard. destruct (Request.user req); [|by left].
  destruct (negb _); [by left | by right].
Qed.

(** What one call of [createBooking] does to the store: nothing, or it
    adds one booking under an identifier not in use. *)
Lemma createBooking_store (req : Request.t) (db : DB) :
  (BookingController.createBooking req db).2 = db
  ∨ ∃ b, bookings db !! Booking.id b = None
         ∧ (BookingController.createBooking req db).2
           = mkDB (users db) (tutorProfiles db)
               (<[Booking.id b := b]> (bookings db)) (reviews db).
Proof.
  unfold BookingController.createBooking.
  destruct (Request.user req) as [u|]; run; [|by left].
  destruct (BookingController.createBookingSchema _) as [d|e]; simpl; [|by left].
  destruct (users db !! _) as [t|]; simpl; [|by left].
  destruct (tutorProfiles db !! _); simpl; [|by left].
  destruct (bool_decide (User.role t = TUTOR)); simpl; [|by left].
  destruct (bool_decide (User.status t = BANNED)); simpl; [by left|].
  right. eexists (Booking.mk _ _ _ _ _ _ _ _). simpl.
  split; [apply new_id_fresh | done].
Qed.

(** What one call of [createReview] does to the store: nothing, or it
    appends one review, for a COMPLETED booking of the requester that
    had none, and rewrites at most the profile of the tutor. *)
Lemma createReview_store (req : Request.t) (db : DB) :
  (ReviewController.createReview req db).2 = db
  ∨ ∃ r b,
      bookings db !! Review.bookingId r = Some b
      ∧ Booking.status b = COMPLETED
      ∧ Booking.studentId b = Review.studentId r
      ∧ Booking.tutorId b = Review.tutorId r
      ∧ (1 ≤ Review.rating r ≤ 5)%Z
      ∧ ¬ reviewed (Review.bookingId r) db
      ∧ let stored :=
          mkDB (users db) (tutorProfiles db) (bookings db) (reviews db ++ [r]) in
        let rs := reviews_of (Review.tutorId r) stored in
        match tutorProfiles db !! Review.tutorId r with
        | None => (ReviewController.createReview req db).2 = stored
        | Some p =>
            ∃ p', (ReviewController.createReview req db).2
                  = mkDB (users db) (<[Review.tutorId r := p']> (tutorProfiles db))
                      (bookings db) (reviews db ++ [r])
                  ∧ TutorProfile.rating p'
                    = Js.div (ReviewController.sum_ratings rs) (length rs)
                  ∧ TutorProfile.reviewCount p' = Z.of_nat (length rs)
        end.
Proof.
  destruct (Request.user req) as [u|] eqn:Hu;
    [|left; unfold ReviewController.createReview; by rewrite Hu].
  destruct (ReviewController.createReviewSchema (Request.body req)) as [d|e] eqn:Hd;
    [|left; by rewrite (createReview_invalid _ _ _ _ Hu Hd)].
  rewrite (createReview_unfold _ _ _ _ Hu Hd).
  apply createReviewSchema_valid in Hd as (o & _ & _ & q & _ & _ & Hrange).
  destruct (bookings db !! ReviewController.bookingId d) as [b|] eqn:Hb;
    [|by left].
  case_bool_decide as Hstudent; simpl; [|by left].
  case_bool_decide as Hstatus; simpl; [|by left].
  case_bool_decide as Hreviewed; simpl; [by left|].
  rewrite find_review_reviewed in Hreviewed.
  right. exists (new_review db u d b), b. simpl.
  split_and!; try done; try lia.
  change (Review.tutorId (new_review db u d b)) with (Booking.tutorId b).
  destruct (tutorProfiles db !! Booking.tutorId b) as [p|]; simpl; [|done].
  eexists. split; [reflexivity|]. done.
Qed.

(** What one call of [register] does to the store: nothing, or it adds
    one user, not an ADMIN, under an identifier not in use and with an
    e-mail address no row has. *)
Lemma register_store (req : Request.t) (db : DB) :
  (AuthController.register req db).2 = db
  ∨ ∃ u, users db !! User.id u = None
         ∧ User.role u ≠ ADMIN
         ∧ (∀ k v, users db !! k = Some v → User.email v ≠ User.email u)
         ∧ (AuthController.register req db).2
           = mkDB (<[User.id u := u]> (users db)) (tutorProfiles db)
               (bookings db) (reviews db).
Proof.
  destruct (AuthController.registerSchema (Request.body req)) as [d|e] eqn:Hd;
    [|left; by rewrite (register_invalid _ _ _ Hd)].
  destruct (register_valid req db d Hd) as (role & _ & Hrole & ->).
  destruct (find _ _) eqn:Hfind; [by left|].
  rewrite find_email_None in Hfind.
  right. eexists (User.mk _ _ _ _ _ _). simpl.
  split_and!; [apply new_id_fresh | done | done | done].
Qed.




Lemma ratings_consistent_same (db db' : DB) :
  tutorProfiles db' = tutorProfiles db → reviews db' = reviews db →
  ratings_consistent db → ratings_consistent db'.
Proof.
  intros Hp Hr Hdb t p. unfold reviews_of. rewrite Hp, Hr. apply Hdb.
Qed.

Lemma reviews_of_snoc_other (t : string) (l : list Review.t) (r : Review.t) :
  Review.tutorId r ≠ t →
  filter (λ r, Review.tutorId r = t) (l ++ [r])
  = filter (λ r, Review.tutorId r = t) l.
Proof.
  intros Hne. rewrite filter_app, filter_cons_False by done.
  by rewrite filter_nil, app_nil_r.
Qed.

(** X26.  The figures on tutor profiles stay right: if the profile of
    every tutor who has reviews shows their arithmetic mean and their
    number, the same holds after any request to any of the six
    endpoints. *)
Theorem handle_keeps_ratings_consistent (e : Endpoint) (now : Z)
    (req : Request.t) (db : DB) :
  ratings_consistent db → ratings_consistent (handle e now req db).2.
Proof.
  intros Hdb. destruct e; unfold handle, isStudent.
  - destruct (register_store req db) as [-> | (u & _ & _ & _ & ->)]; [done|].
    by apply (ratings_consistent_same db).
  - destruct (guarded_store ["STUDENT"] BookingController.createBooking req db)
      as [-> | ->]; [done|].
    destruct (createBooking_store req db) as [-> | (b & Hfresh & ->)]; [done|].
    by apply (ratings_consistent_same db).
  - by rewrite getBookingById_store.
  - destruct (updateBookingStatus_store now req db)
      as [[_ ->] | (u & d & b & message & data & _ & _ & _ & _ & _ & ->)];
      [done|].
    by apply (ratings_consistent_same db).
  - destruct (guarded_store ["STUDENT"] ReviewController.createReview req db)
      as [-> | ->]; [done|].
    destruct (createReview_store req db)
      as [-> | (r & b & _ & _ & _ & _ & _ & _ & Hout)]; [done|].
    simpl in Hout.
    destruct (tutorProfiles db !! Review.tutorId r) as [p0|] eqn:Hp0.
    + destruct Hout as (p' & -> & Hrating & Hcount).
      intros t p Hp Hsome. unfold reviews_of in *. simpl in *.
      destruct (decide (Review.tutorId r = t)) as [<-|Hne].
      * rewrite lookup_insert_eq in Hp. injection Hp as <-.
        split; [|done]. rewrite Hrating. by apply div_mean.
      * rewrite lookup_insert_ne in Hp by done.
        rewrite reviews_of_snoc_other in * by done. by apply Hdb.
    + rewrite Hout. intros t p Hp Hsome. unfold reviews_of in *. simpl in *.
      assert (Review.tutorId r ≠ t) as Hne by (intros <-; congruence).
      rewrite reviews_of_snoc_other in * by done. by apply Hdb.
  - by rewrite getTutorReviews_store.
Qed.

Lemma users_insert_keeps (db : DB) (k : string) (u u' : User.t) :
  users db !! k = Some u →
  User.id u' = User.id u →
  free_for db k u (User.email u') →
  emails_unique db ∧ users_keyed db →
  let db' := mkDB (<[k := u']> (users db)) (tutorProfiles db) (bookings db)
               (reviews db) in
  emails_unique db' ∧ users_keyed db'.
Proof.
  intros Hk Hid Hfree [Huniq Hkeyed]. split.
  - by apply (emails_unique_rewrite db k u).
  - intros j v Hj. simpl in Hj.
    apply lookup_insert_Some in Hj as [[<- <-] | [_ Hj]]; [|by apply Hkeyed].
    rewrite Hid. by apply Hkeyed.
Qed.

(** X27.  The user table stays well formed: if no two rows share an
    e-mail address and every row sits under its own id, the same holds
    after any request to [register], [updateProfile], [updatePassword]
    or [updateUserStatus], the handlers that write user rows. *)
Theorem user_writes_keep_table (req : Request.t) (db : DB) :
  emails_unique db ∧ users_keyed db →
  (emails_unique (AuthController.register req db).2
   ∧ users_keyed (AuthController.register req db).2)
  ∧ (emails_unique (UserController.updateProfile req db).2
     ∧ users_keyed (UserController.updateProfile req db).2)
  ∧ (emails_unique (UserController.updatePassword req db).2
     ∧ users_keyed (UserController.updatePassword req db).2)
  ∧ (emails_unique (AdminController.updateUserStatus req db).2
     ∧ users_keyed (AdminController.updateUserStatus req db).2).
Proof.
  intros Hdb. split_and!.
  - destruct (register_store req db) as [-> | (u & Hfresh & _ & Hnew & ->)];
      [by destruct Hdb|].
    destruct Hdb as [Huniq _].
    intros i j v w Hi Hj Hemail. simpl in *.
    apply lookup_insert_Some in Hi as [[<- <-] | [Hni Hi]];
      apply lookup_insert_Some in Hj as [[<- <-] | [Hnj Hj]]; try done.
    + by destruct (Hnew j w).
    + by destruct (Hnew i v).
    + by eapply Huniq.
  - destruct (register_store req db) as [-> | (u & Hfresh & _ & Hnew & ->)];
      [by destruct Hdb|].
    destruct Hdb as [_ Hkeyed].
    intros j v Hj. simpl in Hj.
    apply lookup_insert_Some in Hj as [[<- <-] | [_ Hj]]; [done|].
    by apply Hkeyed.
  - destruct (updateProfile_store req db)
      as [[_ ->] | (r & d & u & _ & _ & Hu & Hfree & _ & ->)]; [by destruct Hdb|].
    by apply (users_insert_keeps db _ u).
  - destruct (updateProfile_store req db)
      as [[_ ->] | (r & d & u & _ & _ & Hu & Hfree & _ & ->)]; [by destruct Hdb|].
    by apply (users_insert_keeps db _ u).
  - destruct (updatePassword_store req db)
      as [[_ ->] | (r & d & u & _ & _ & Hu & _ & _ & ->)]; [by destruct Hdb|].
    apply (users_insert_keeps db _ u); [done|done|by left|done].
  - destruct (updatePassword_store req db)
      as [[_ ->] | (r & d & u & _ & _ & Hu & _ & _ & ->)]; [by destruct Hdb|].
    apply (users_insert_keeps db _ u); [done|done|by left|done].
  - destruct (updateUserStatus_store req db)
      as [[_ ->] | (name & s & u & _ & _ & Hu & _ & _ & ->)]; [by destruct Hdb|].
    apply (users_insert_keeps db _ u); [done|done|by left|done].
  - destruct (updateUserStatus_store req db)
      as [[_ ->] | (name & s & u & _ & _ & Hu & _ & _ & ->)]; [by destruct Hdb|].
    apply (users_insert_keeps db _ u); [done|done|by left|done].
Qed.

Lemma no_banned_admin_insert (db : DB) (k : string) (u u' : User.t) :
  users db !! k = Some u →
  (User.role u' = ADMIN → User.status u' = BANNED →
   User.role u = ADMIN ∧ User.status u = BANNED) →
  no_banned_admin db →
  no_banned_admin (mkDB (<[k := u']> (users db)) (tutorProfiles db)
                     (bookings db) (reviews db)).
Proof.
  intros Hk Hsame Hdb j v Hj Hrole Hbanned. simpl in Hj.
  apply lookup_insert_Some in Hj as [[<- <-] | [_ Hj]].
  - destruct (Hsame Hrole Hbanned) as [Hr Hs]. by apply (Hdb k u).
  - by apply (Hdb j v).
Qed.

(** X28.  No ADMIN is ever banned: if no user row is an ADMIN with the
    status BANNED, none is after any request to [register],
    [updateProfile], [updatePassword] or [updateUserStatus]. *)
Theorem user_writes_keep_admins (req : Request.t) (db : DB) :
  no_banned_admin db →
  no_banned_admin (AuthController.register req db).2
  ∧ no_banned_admin (UserController.updateProfile req db).2
  ∧ no_banned_admin (UserController.updatePassword req db).2
  ∧ no_banned_admin (AdminController.updateUserStatus req db).2.
Proof.
  intros Hdb. split_and!.
  - destruct (register_store req db) as [-> | (u & Hfresh & Hrole & _ & ->)];
      [done|].
    intros j v Hj Hadmin. simpl in Hj.
    apply lookup_insert_Some in Hj as [[<- <-] | [_ Hj]]; [done|].
    by apply (Hdb j v).
  - destruct (updateProfile_store req db)
      as [[_ ->] | (r & d & u & _ & _ & Hu & _ & _ & ->)]; [done|].
    by apply (no_banned_admin_insert db _ u).
  - destruct (updatePassword_store req db)
      as [[_ ->] | (r & d & u & _ & _ & Hu & _ & _ & ->)]; [done|].
    by apply (no_banned_admin_insert db _ u).
  - destruct (updateUserStatus_store req db)
      as [[_ ->] | (name & s & u & _ & _ & Hu & Hguard & _ & ->)]; [done|].
    apply (no_banned_admin_insert db _ u); [done| |done].
    simpl. intros Hrole ->. by destruct Hguard.
Qed.

End Whole_store.


Lemma Sample_ratings_consistent : ratings_consistent Sample.db.
Proof.
  intros t p Hp Hsome. simpl in Hp.
  apply lookup_insert_Some in Hp as [[<- <-] | [_ Hp]].
  - split; [|reflexivity]. eexists. split; [reflexivity|]. vm_compute. reflexivity.
  - apply lookup_insert_Some in Hp as [[<- <-] | [_ Hp]]; [|done].
    exfalso. apply Hsome. vm_compute. reflexivity.
Qed.

Lemma no_banned_admin_Forall (db : DB) :
  Forall (λ kv : string * User.t,
            ¬ (User.role kv.2 = ADMIN ∧ User.status kv.2 = BANNED))
    (map_to_list (users db)) →
  no_banned_admin db.
Proof.
  rewrite Forall_forall. intros Hall k u Hk Hrole Hbanned.
  apply (Hall (k, u)); [by apply elem_of_map_to_list | done].
Qed.

Lemma Sample_no_banned_admin : no_banned_admin Sample.db.
Proof.
  apply no_banned_admin_Forall, (bool_decide_unpack _). vm_compute. exact I.
Qed.


Lemma handle_keeps_ratings_consistent_witness :
  ratings_consistent
    (handle (H := Sample.platform) POST_reviews 0
       (Request.mk (Sample.as_user Sample.alice "STUDENT") ""
          (Sample.review_body Sample.booking2 (Js.of_Z 5)))
       Sample.db).2.
Proof.
  apply (handle_keeps_ratings_consistent (H := Sample.platform) POST_reviews 0
           (Request.mk (Sample.as_user Sample.alice "STUDENT") ""
              (Sample.review_body Sample.booking2 (Js.of_Z 5)))
           Sample.db).
  exact Sample_ratings_consistent.
Defined.

Lemma user_writes_keep_table_witness :
  emails_unique
    (UserController.updateProfile (H := Sample.platform)
       (Request.mk (Sample.as_user Sample.alice "STUDENT") ""
          (Fixture.profile_body "Alice" "alice@school.example"))
       Sample.db).2
  ∧ users_keyed
      (UserController.updateProfile (H := Sample.platform)
         (Request.mk (Sample.as_user Sample.alice "STUDENT") ""
            (Fixture.profile_body "Alice" "alice@school.example"))
         Sample.db).2.
Proof.
  apply (user_writes_keep_table (H := Sample.platform) (H0 := Fixture.runtime)
           (Request.mk (Sample.as_user Sample.alice "STUDENT") ""
              (Fixture.profile_body "Alice" "alice@school.example"))
           Sample.db).
  split; [exact Sample_emails_unique | exact Sample_users_keyed].
Defined.

Lemma user_writes_keep_admins_witness :
  no_banned_admin
    (AdminController.updateUserStatus (H := Sample.platform)
       (Request.mk (Sample.as_user Sample.root "ADMIN") Sample.root
          (Fixture.status_body "BANNED"))
       Sample.db).2.
Proof.
  apply (user_writes_keep_admins (H := Sample.platform) (H0 := Fixture.runtime)
           (Request.mk (Sample.as_user Sample.root "ADMIN") Sample.root
              (Fixture.status_body "BANNED"))
           Sample.db).
  exact Sample_no_banned_admin.
Defined.

(* ===================================================================== *)
(** ** The statuses of failures, on every route modelled *)
(* ===================================================================== *)

Section Error_statuses.
Context `{Platform} `{Runtime}.

















End Error_statuses.


(* ===================================================================== *)
(** ** The other revision of updateBookingStatus, as a whole *)
(* ===================================================================== *)

Section Other_revision_rules.
Import BookingControllerRev.

(** X29.  The revision without actions, in full.  For a request that
    carries a user and addresses a stored booking, the answer is 200
    exactly when the body names CONFIRMED, COMPLETED or CANCELLED, a
    cancellation comes from the booking's student and a completion from
    its tutor; nothing else is asked: not the current status, not the
    time, and to confirm not even a party of the booking.  A 200 writes
    the named status over the status of the booking and changes nothing
    else; any other answer leaves the store as it was. *)
Theorem rev_updateBookingStatus_rules (req : Request.t) (db : DB)
    (u : JwtPayload.t) (b : Booking.t) :
  Request.user req = Some u →
  bookings db !! Request.param req = Some b →
  let allowed (s : BookingStatus) :=
    body_member "status" req = Some (JString (BookingStatus_name s))
    ∧ s ∈ [CONFIRMED; COMPLETED; CANCELLED]
    ∧ (s = CANCELLED → Booking.studentId b = JwtPayload.userId u)
    ∧ (s = COMPLETED → Booking.tutorId b = JwtPayload.userId u) in
  (∀ s, allowed s →
     Response.status (updateBookingStatus req db).1 = 200%Z
     ∧ (updateBookingStatus req db).2
       = mkDB (users db) (tutorProfiles db)
           (<[Request.param req := set_status s b]> (bookings db)) (reviews db))
  ∧ ((∀ s, ¬ allowed s) →
     Response.status (updateBookingStatus req db).1 ≠ 200%Z
     ∧ (updateBookingStatus req db).2 = db).
Proof.
  intros Hu Hb allowed. subst allowed. cbv beta.
  unfold updateBookingStatus, body_member. rewrite Hu.
  assert (Hnames : ∀ s name, JString name = JString (BookingStatus_name s) →
                             s ∈ [CONFIRMED; COMPLETED; CANCELLED] →
                             name ∈ ["CONFIRMED"; "COMPLETED"; "CANCELLED"]
                             ∧ status_of_name name = s
                             ∧ (name = "CANCELLED" ↔ s = CANCELLED)
                             ∧ (name = "COMPLETED" ↔ s = COMPLETED)).
  { intros s name [= ->] Hin. rewrite !elem_of_cons in Hin.
    destruct Hin as [-> | [-> | [-> | Hin]]]; [| | |by apply elem_of_nil in Hin];
      (split_and!; [set_solver | done | done | done]). }
  destruct (Request.body req) as [[| | | | |o]|]; run;
    try (split; [intros ? ([=] & _) | done]).
  destruct (member "status" o) as [[| | |name| |]|]; simpl;
    try (split; [intros ? ([=] & _) | done]).
  split.
  - intros st (Hname & Hin & Hcancel & Hcomplete).
    injection Hname as Hname.
    destruct (Hnames st name (f_equal JString Hname) Hin)
      as (Hok & <- & Hc & Hd).
    rewrite (bool_decide_eq_true_2 _ Hok). simpl. rewrite Hb. simpl.
    destruct (bool_decide (name = "CANCELLED")) eqn:Hcn; simpl.
    + apply bool_decide_eq_true in Hcn.
      rewrite (bool_decide_eq_true_2 _ (Hcancel (proj1 Hc Hcn))). simpl.
      destruct (bool_decide (name = "COMPLETED")) eqn:Hdn; simpl.
      * apply bool_decide_eq_true in Hdn. congruence.
      * by rewrite Hb.
    + destruct (bool_decide (name = "COMPLETED")) eqn:Hdn; simpl.
      * apply bool_decide_eq_true in Hdn.
        rewrite (bool_decide_eq_true_2 _ (Hcomplete (proj1 Hd Hdn))). simpl.
        by rewrite Hb.
      * by rewrite Hb.
  - intros Hnone.
    case_bool_decide as Hname; simpl; [|done].
    rewrite Hb. simpl.
    rewrite !elem_of_cons in Hname.
    destruct Hname as [-> | [-> | [-> | Hname]]];
      [| | |by apply elem_of_nil in Hname]; simpl.
    + destruct (Hnone CONFIRMED). split_and!; [done|set_solver|done|done].
    + case_bool_decide as Htutor; simpl; [|done].
      destruct (Hnone COMPLETED). split_and!; [done|set_solver|done|done].
    + case_bool_decide as Hstudent; simpl; [|done].
      destruct (Hnone CANCELLED). split_and!; [done|set_solver|done|done].
Qed.

End Other_revision_rules.

(** bob, who has no part in booking 1, sets it back from COMPLETED to
    CONFIRMED. *)
Lemma rev_updateBookingStatus_rules_witness :
  Response.status
    (BookingControllerRev.updateBookingStatus
       (Request.mk (Sample.as_user Sample.bob "STUDENT") Sample.booking1
          (Fixture.status_body "CONFIRMED"))
       Sample.db).1 = 200%Z
  ∧ (BookingControllerRev.updateBookingStatus
       (Request.mk (Sample.as_user Sample.bob "STUDENT") Sample.booking1
          (Fixture.status_body "CONFIRMED"))
       Sample.db).2
    = mkDB (users Sample.db) (tutorProfiles Sample.db)
        (<[Sample.booking1 := Sample.booking_row Sample.booking1 1000 CONFIRMED]>
           (bookings Sample.db))
        (reviews Sample.db).
Proof.
  apply (rev_updateBookingStatus_rules
           (Request.mk (Sample.as_user Sample.bob "STUDENT") Sample.booking1
              (Fixture.status_body "CONFIRMED"))
           Sample.db
           (JwtPayload.mk Sample.bob (Sample.bob ++ "@example.com") "STUDENT")
           (Sample.booking_row Sample.booking1 1000 COMPLETED)
           eq_refl eq_refl).
  split_and!; [reflexivity | set_solver | discriminate | discriminate].
Defined.
